(** * Kubecuro: a shallow embedding of the healing core

    The Python sources live under [src/kubecuro]: the line repairer
    ([healing/lexer.py]), the comment shadow ([healing/shadow.py]), the
    identity scanner ([healing/scanner.py]), the indentation snap of the
    structurer ([healing/structurer.py]), the policy shield
    ([rules/shield.py]), the validator ([validator/validator.py]) and the
    orchestrator ([core/engine.py]).

    Strings are Rocq [string]s (ASCII); Python's notion of whitespace is
    restricted to its ASCII members.  A Python exception is modelled by
    [None] in an [option] result. *)

From Stdlib Require Import String Ascii List Bool ZArith Lia Arith DecimalString DecimalNat Sorted Permutation.
Set Warnings "-register-all".

Import ListNotations.
Open Scope string_scope.
Open Scope nat_scope.

(* ------------------------------------------------------------------ *)
(** ** Python string primitives *)

Module Py.

(** [str.isspace] on one character: the ASCII characters that Python
    counts as whitespace (tab, LF, VT, FF, CR, the separators 0x1c-0x1f
    and space). *)
Definition is_space (c : ascii) : bool :=
  let n := nat_of_ascii c in
  ((9 <=? n) && (n <=? 13)) || ((28 <=? n) && (n <=? 32)).

Definition is_alpha (c : ascii) : bool :=
  let n := nat_of_ascii c in
  ((65 <=? n) && (n <=? 90)) || ((97 <=? n) && (n <=? 122)).

Definition is_digit (c : ascii) : bool :=
  let n := nat_of_ascii c in (48 <=? n) && (n <=? 57).

Definition is_alnum (c : ascii) : bool := is_alpha c || is_digit c.

(** [s.lstrip()] *)
Fixpoint lstrip (s : string) : string :=
  match s with
  | EmptyString => EmptyString
  | String c r => if is_space c then lstrip r else s
  end.

(** [s.lstrip(chars)] *)
Fixpoint lstrip_chars (chars : list ascii) (s : string) : string :=
  match s with
  | EmptyString => EmptyString
  | String c r =>
      if existsb (Ascii.eqb c) chars then lstrip_chars chars r else s
  end.

Fixpoint rev_string (s : string) : string :=
  match s with
  | EmptyString => EmptyString
  | String c r => rev_string r ++ String c EmptyString
  end.

(** [s.rstrip()] *)
Definition rstrip (s : string) : string := rev_string (lstrip (rev_string s)).

(** [s.strip()] *)
Definition strip (s : string) : string := rstrip (lstrip s).

(** [s.strip(ch)] for one character [ch] *)
Definition strip_char (ch : ascii) (s : string) : string :=
  rev_string (lstrip_chars [ch] (rev_string (lstrip_chars [ch] s))).

(** [s.startswith(p)] *)
Definition startswith (p s : string) : bool := String.prefix p s.

(** [c in s] for a character *)
Fixpoint has_char (c : ascii) (s : string) : bool :=
  match s with
  | EmptyString => false
  | String d r => Ascii.eqb c d || has_char c r
  end.

(** [" " * n] *)
Fixpoint spaces (n : nat) : string :=
  match n with 0 => EmptyString | S k => String " " (spaces k) end.

(** [s.replace('\t', '  ')] *)
Fixpoint expand_tabs (s : string) : string :=
  match s with
  | EmptyString => EmptyString
  | String c r =>
      if Ascii.eqb c (ascii_of_nat 9) then String " " (String " " (expand_tabs r))
      else String c (expand_tabs r)
  end.

(** [str.splitlines()] restricted to ASCII line boundaries: LF, CR, CR LF,
    VT, FF and the separators 0x1c, 0x1d, 0x1e.  A final terminator does not
    produce an empty last line. *)
Definition is_line_break (c : ascii) : bool :=
  let n := nat_of_ascii c in
  (n =? 10) || (n =? 11) || (n =? 12) || (n =? 13) || (n =? 28) || (n =? 29) || (n =? 30).

Fixpoint splitlines_aux (cur : string) (s : string) : list string :=
  match s with
  | EmptyString => match cur with EmptyString => [] | _ => [rev_string cur] end
  | String c r =>
      if is_line_break c then
        let r' := if (nat_of_ascii c =? 13) then
                    match r with
                    | String d r2 => if nat_of_ascii d =? 10 then r2 else r
                    | EmptyString => r
                    end
                  else r in
        rev_string cur :: splitlines_aux EmptyString r'
      else splitlines_aux (String c cur) r
  end.

Definition splitlines (s : string) : list string := splitlines_aux EmptyString s.

(** ["sep".join(l)] *)
Fixpoint join (sep : string) (l : list string) : string :=
  match l with
  | [] => EmptyString
  | [x] => x
  | x :: r => x ++ sep ++ join sep r
  end.

(** The double-quote and backslash characters. *)
Definition dquote : ascii := ascii_of_nat 34.
Definition backslash : ascii := ascii_of_nat 92.

(** [s] split at the first character failing [p]. *)
Fixpoint span (p : ascii -> bool) (s : string) : string * string :=
  match s with
  | EmptyString => (EmptyString, EmptyString)
  | String c r =>
      if p c then let '(a, b) := span p r in (String c a, b) else (EmptyString, s)
  end.

Definition nl : string := String (ascii_of_nat 10) EmptyString.

End Py.

(* ------------------------------------------------------------------ *)
(** ** The lexer's comment boundary ([KubeLexer._find_comment_split]) *)

Module Lexer.

(** One pass of [for i, char in enumerate(text)], reading [text[i]] and
    [text[i-1]] by index. *)
Fixpoint comment_split_loop (text : string) (fuel i : nat)
    (in_double in_single escaped : bool) : Z :=
  match fuel with
  | O => (-1)%Z
  | S f =>
      match String.get i text with
      | None => (-1)%Z
      | Some ch =>
          if escaped then comment_split_loop text f (S i) in_double in_single false
          else if Ascii.eqb ch Py.backslash then comment_split_loop text f (S i) in_double in_single true
          else
            let '(d, s) :=
              if Ascii.eqb ch Py.dquote && negb in_single then (negb in_double, in_single)
              else if Ascii.eqb ch "'" && negb in_double then (in_double, negb in_single)
              else (in_double, in_single) in
            if Ascii.eqb ch "#" && negb d && negb s &&
               ((i =? 0) || match String.get (i - 1) text with
                            | Some p => Py.is_space p
                            | None => false
                            end)
            then Z.of_nat i
            else comment_split_loop text f (S i) d s false
      end
  end.

Definition _find_comment_split (text : string) : Z :=
  comment_split_loop text (String.length text) 0 false false false.

(** The lexer's block-scalar state. *)
Record KubeLexer : Type := mkLexer {
  in_block : bool;
  block_indent : nat
}.

(** [re.search(r'image[:\s]*[a-zA-Z0-9/]', s)]: at some position, [image],
    then the longest run of colons and whitespace (a shorter run would leave
    a colon or whitespace, which the last class refuses), then an ASCII
    letter, digit or slash. *)
Definition image_at (s : string) : bool :=
  String.prefix "image" s &&
  match snd (Py.span (fun c => Ascii.eqb c ":" || Py.is_space c)
                          (String.substring 5 (String.length s - 5) s)) with
  | String c _ => Py.is_alnum c || Ascii.eqb c "/"
  | EmptyString => false
  end.

Fixpoint image_search (s : string) : bool :=
  match s with
  | EmptyString => false
  | String _ r => image_at s || image_search r
  end.

(** Does the (reversed) text before the current position end with
    [http] or [https]? *)
Definition behind_http (prev_rev : string) : bool :=
  String.prefix "ptth" prev_rev || String.prefix "sptth" prev_rev.

(** [re.sub(r'(?<!http)(?<!https):(?!\s)([a-zA-Z])', r': \1', s)]: scan left
    to right; a match consumes the colon and the letter, and the look-behind
    reads the original text ([prev_rev] is the consumed prefix, reversed). *)
Fixpoint colon_sub_aux (prev_rev : string) (s : string) : string :=
  match s with
  | EmptyString => EmptyString
  | String c rest =>
      match rest with
      | String d r =>
          if Ascii.eqb c ":" && Py.is_alpha d && negb (behind_http prev_rev)
          then String ":" (String " " (String d (colon_sub_aux (String d (String c prev_rev)) r)))
          else String c (colon_sub_aux (String c prev_rev) rest)
      | EmptyString => String c EmptyString
      end
  end.

Definition colon_sub (s : string) : string := colon_sub_aux EmptyString s.

(** [raw_line[:split_idx]] when a comment starts at [split_idx], else the
    whole line. *)
Definition code_part_of (raw_line : string) : string :=
  let split_idx := _find_comment_split raw_line in
  if Z.eqb split_idx (-1) then raw_line
  else String.substring 0 (Z.to_nat split_idx) raw_line.

(** Fix ["-image"] into ["- image"]: a dash directly followed by a letter. *)
Definition dash_fix (code_part : string) : string :=
  match code_part with
  | String c (String d r) =>
      if Ascii.eqb c "-" && Py.is_alpha d then "- " ++ String d r else code_part
  | _ => code_part
  end.

(** [KubeLexer.repair_line]: returns [(indent, code, comment)] and the new
    lexer state.  A comment of [""] in Python is [Some ""] here, [None] is
    [None]. *)
Definition repair_line (self : KubeLexer) (line : string)
    : (nat * string * option string) * KubeLexer :=
  let raw_line := Py.rstrip (Py.expand_tabs line) in
  let content := Py.lstrip raw_line in
  if String.eqb content "" then ((0, "", Some ""), self)
  else
    let indent := String.length raw_line - String.length content in
    let block :=
      if in_block self then
        if (indent <=? block_indent self) && (Py.has_char ":" content || Py.startswith "-" content)
        then Some (mkLexer false (block_indent self))
        else None
      else Some self in
    match block with
    | None => ((indent, content, Some ""), self)
    | Some self =>
        let split_idx := _find_comment_split raw_line in
        let code_part := code_part_of raw_line in
        let comment_part :=
          if Z.eqb split_idx (-1) then None
          else Some (Py.lstrip_chars ["#"%char; " "%char]
                       (String.substring (Z.to_nat split_idx)
                          (String.length raw_line - Z.to_nat split_idx) raw_line)) in
        let code_part := dash_fix (Py.lstrip code_part) in
        let code_part := if negb (image_search code_part) then colon_sub code_part else code_part in
        let self := if Py.has_char "|" code_part || Py.has_char ">" code_part
                    then mkLexer true indent else self in
        ((indent, code_part, comment_part), self)
    end.

(** The colon repair read character by character: after each [:] that is
    directly followed by an ASCII letter and not preceded by [http] or
    [https], one space is inserted; every other character is kept. *)
Fixpoint insert_colon_spaces (prev_rev : string) (s : string) : string :=
  match s with
  | EmptyString => EmptyString
  | String c r =>
      let after := insert_colon_spaces (String c prev_rev) r in
      if Ascii.eqb c ":" &&
         match r with String d _ => Py.is_alpha d | EmptyString => false end &&
         negb (behind_http prev_rev)
      then String c (String " " after)
      else String c after
  end.

End Lexer.

(** ** The shadow's comment boundary ([KubeShadow._find_safe_comment_idx]) *)

Module Shadow.

(** The same scan written over the remaining suffix, with the previous
    character carried along ([None] at position 0). *)
Fixpoint safe_idx_aux (rest : string) (i : nat) (prev : option ascii)
    (in_double in_single escaped : bool) : Z :=
  match rest with
  | EmptyString => (-1)%Z
  | String ch r =>
      if escaped then safe_idx_aux r (S i) (Some ch) in_double in_single false
      else if Ascii.eqb ch Py.backslash then safe_idx_aux r (S i) (Some ch) in_double in_single true
      else
        let in_double' := if Ascii.eqb ch Py.dquote && negb in_single
                          then negb in_double else in_double in
        let in_single' := if negb (Ascii.eqb ch Py.dquote && negb in_single) &&
                             Ascii.eqb ch "'" && negb in_double
                          then negb in_single else in_single in
        if Ascii.eqb ch "#" && negb in_double' && negb in_single' &&
           match prev with None => true | Some p => Py.is_space p end
        then Z.of_nat i
        else safe_idx_aux r (S i) (Some ch) in_double' in_single' false
  end.

Definition _find_safe_comment_idx (text : string) : Z :=
  safe_idx_aux text 0 None false false false.

End Shadow.


(* ------------------------------------------------------------------ *)
(** ** Tree values (the parsed YAML / JSON data the rules and the validator see) *)

Module Value.

(** A node of a loaded document or of the JSON catalog: [None], a bool, an
    integer, a string, a list, or a dict (as an ordered list of entries). *)
Inductive val : Type :=
| VNone
| VBool (b : bool)
| VInt (z : Z)
| VStr (s : string)
| VList (l : list val)
| VMap (m : list (string * val)).

(** Python truthiness. *)
Definition truthy (v : val) : bool :=
  match v with
  | VNone => false
  | VBool b => b
  | VInt z => negb (Z.eqb z 0)
  | VStr s => negb (String.eqb s EmptyString)
  | VList l => match l with [] => false | _ => true end
  | VMap m => match m with [] => false | _ => true end
  end.

(** [d.get(k, default)] on a dict. *)
Fixpoint get (m : list (string * val)) (k : string) (default : val) : val :=
  match m with
  | [] => default
  | (k', v) :: r => if String.eqb k k' then v else get r k default
  end.

(** [k in d] for a string key. *)
Fixpoint mem (k : string) (m : list (string * val)) : bool :=
  match m with
  | [] => false
  | (k', _) :: r => String.eqb k k' || mem k r
  end.

(** [d[k] = v]: overwrite in place, or append at the end. *)
Fixpoint set (m : list (string * val)) (k : string) (v : val) : list (string * val) :=
  match m with
  | [] => [(k, v)]
  | (k', v') :: r => if String.eqb k k' then (k', v) :: r else (k', v') :: set r k v
  end.

(** [for x in v]: lists, strings (one-character strings) and dicts (keys);
    anything else raises [TypeError]. *)
Definition py_iter (v : val) : option (list val) :=
  match v with
  | VList l => Some l
  | VStr s => Some (map (fun c => VStr (String c EmptyString)) (list_ascii_of_string s))
  | VMap m => Some (map (fun kv => VStr (fst kv)) m)
  | _ => None
  end.

(** [v == s] for a string literal [s]. *)
Definition is_str (v : val) (s : string) : bool :=
  match v with VStr t => String.eqb t s | _ => false end.

(** [str(v)] for the scalars the validator formats. *)
Definition py_str (v : val) : string :=
  match v with
  | VNone => "None"
  | VBool true => "True"
  | VBool false => "False"
  | VInt z => NilEmpty.string_of_int (Z.to_int z)
  | VStr s => s
  | VList _ => "[...]"
  | VMap _ => "{...}"
  end.

(** Structural induction with the hypothesis for the elements of lists and
    the values of dicts. *)
Section ValInd.
Variable P : val -> Prop.
Hypothesis HNone : P VNone.
Hypothesis HBool : forall b, P (VBool b).
Hypothesis HInt : forall z, P (VInt z).
Hypothesis HStr : forall s, P (VStr s).
Hypothesis HList : forall l, Forall P l -> P (VList l).
Hypothesis HMap : forall m, Forall (fun kv => P (snd kv)) m -> P (VMap m).

Fixpoint val_ind' (v : val) : P v :=
  match v with
  | VNone => HNone
  | VBool b => HBool b
  | VInt z => HInt z
  | VStr s => HStr s
  | VList l =>
      HList l ((fix go (l : list val) : Forall P l :=
                  match l with
                  | [] => Forall_nil _
                  | x :: r => Forall_cons _ (val_ind' x) (go r)
                  end) l)
  | VMap m =>
      HMap m ((fix go (m : list (string * val)) : Forall (fun kv => P (snd kv)) m :=
                 match m with
                 | [] => Forall_nil _
                 | kv :: r => Forall_cons _ (val_ind' (snd kv)) (go r)
                 end) m)
  end.
End ValInd.

(** Two values that agree everywhere except on the elements at positions
    1, 2, ... of lists: same scalars, same dict keys in the same order,
    lists that are both empty or whose first elements agree. *)
Inductive same_heads : val -> val -> Prop :=
| sh_none : same_heads VNone VNone
| sh_bool b : same_heads (VBool b) (VBool b)
| sh_int z : same_heads (VInt z) (VInt z)
| sh_str s : same_heads (VStr s) (VStr s)
| sh_nil : same_heads (VList []) (VList [])
| sh_cons x y xs ys : same_heads x y -> same_heads (VList (x :: xs)) (VList (y :: ys))
| sh_map m1 m2 :
    Forall2 (fun a b => fst a = fst b /\ same_heads (snd a) (snd b)) m1 m2 ->
    same_heads (VMap m1) (VMap m2).

End Value.

Import Value.

(* ------------------------------------------------------------------ *)
(** ** The validator ([validator/validator.py]) *)

Module Validator.

Definition ok_msg : string := "Manifest passes structural integrity check.".

(** [for req in schema.get("required", []): if req not in doc: return False, ...]
    Answer: [None] raises, [Some (Some msg)] fails, [Some None] passes.  A
    non-string [req] raises: a list or dict is unhashable, and any other
    value is not a key, so [path + req] raises [TypeError]. *)
Fixpoint check_required (items : list (string * val)) (path : string)
    (reqs : list val) : option (option string) :=
  match reqs with
  | [] => Some None
  | VStr req :: rs =>
      if mem req items then check_required items path rs
      else Some (Some ("Structural Error: Field '" ++ path ++ req ++ "' is required but missing."))
  | _ :: _ => None
  end.

(** [for key, value in doc.items(): ...] of [_deep_validate], parametrised by
    the recursive call [dv]. *)
Fixpoint fields_loop (dv : val -> val -> string -> bool -> option (bool * string))
    (schema_fields : val) (path : string) (strict : bool)
    (items : list (string * val)) : option (bool * string) :=
  match items with
  | [] => Some (true, ok_msg)
  | (key, value) :: rest =>
      match schema_fields with
      | VMap sf =>
          let field_info := get sf key VNone in
          if negb (truthy field_info) then
            if strict
            then Some (false, "Strict Mode Violation: Unknown field '" ++ path ++ key ++ "'. Possible typo?")
            else fields_loop dv schema_fields path strict rest
          else
            match field_info with
            | VMap fi =>
                let expected_type := get fi "type" VNone in
                if is_str expected_type "object" then
                    match value with
                    | VMap _ =>
                        match dv value field_info (path ++ key ++ ".") strict with
                        | None => None
                        | Some (false, err) => Some (false, err)
                        | Some (true, _) => fields_loop dv schema_fields path strict rest
                        end
                    | _ => Some (false, "Logic Error: '" ++ path ++ key ++ "' must be a map/object.")
                    end
                else if is_str expected_type "array" then
                    match value with
                    | VList l =>
                        let item_schema := get fi "items" VNone in
                        match l with
                        | (VMap _ as v0) :: _ =>
                            if truthy item_schema then
                              match dv v0 item_schema (path ++ key ++ "[0].") strict with
                              | None => None
                              | Some (false, err) => Some (false, err)
                              | Some (true, _) => fields_loop dv schema_fields path strict rest
                              end
                            else fields_loop dv schema_fields path strict rest
                        | _ => fields_loop dv schema_fields path strict rest
                        end
                    | _ => Some (false, "Logic Error: '" ++ path ++ key ++ "' must be a list/sequence.")
                    end
                else fields_loop dv schema_fields path strict rest
            (* [field_info.get] on a truthy non-dict raises [AttributeError] *)
            | _ => None
            end
      (* [schema_fields.get] on a non-dict raises [AttributeError] *)
      | _ => None
      end
  end.

(** [KubeValidator._deep_validate].  Its callers only pass dicts as [doc]
    (each call site checks [isinstance(..., dict)]); a non-dict [schema]
    raises at [schema.get]. *)
Fixpoint _deep_validate (doc schema : val) (path : string) (strict : bool)
    {struct doc} : option (bool * string) :=
  match doc with
  | VMap items =>
      match schema with
      | VMap sch =>
          match py_iter (get sch "required" (VList [])) with
          | None => None
          | Some reqs =>
              match check_required items path reqs with
              | None => None
              | Some (Some msg) => Some (false, msg)
              | Some None =>
                  fields_loop _deep_validate (get sch "fields" (VMap [])) path strict items
              end
          end
      | _ => None
      end
  | _ => None
  end.

Definition required_fields : list string := ["apiVersion"; "kind"; "metadata"].

(** [self.catalog.get(kind)]: the catalog is a JSON object, so only a string
    kind can hit; a list or dict kind is unhashable. *)
Definition catalog_get (catalog : list (string * val)) (kind : val) : option val :=
  match kind with
  | VStr k => Some (get catalog k VNone)
  | VList _ | VMap _ => None
  | _ => Some VNone
  end.

(** [KubeValidator.validate_reconstruction]. *)
Definition validate_reconstruction (catalog : list (string * val)) (doc : val)
    (strict : bool) : option (bool * string) :=
  match doc with
  | VMap items =>
      match find (fun f => negb (mem f items)) required_fields with
      | Some f => Some (false, "Validation Failed: Missing required top-level field '" ++ f ++ "'.")
      | None =>
          let kind := get items "kind" VNone in
          match catalog_get catalog kind with
          | None => None
          | Some schema =>
              if negb (truthy schema)
              then Some (true, "Warning: Kind '" ++ py_str kind ++ "' is outside local catalog. Basic validation only.")
              else _deep_validate doc schema "" strict
          end
      end
  | _ => Some (false, "Aborting: Healed content is not a valid dictionary structure.")
  end.

(** The places where strict mode looks for unknown fields: a key of the
    current map with no (truthy) entry in the level's [fields]; or such a
    key below an [object]-typed field; or below the first element of an
    [array]-typed field with a truthy item schema. *)
Inductive reaches_unknown : val -> val -> Prop :=
| ru_here s sf items key v :
    get s "fields" (VMap []) = VMap sf ->
    In (key, v) items ->
    truthy (get sf key VNone) = false ->
    reaches_unknown (VMap s) (VMap items)
| ru_object s sf fi items key v :
    get s "fields" (VMap []) = VMap sf ->
    In (key, v) items ->
    get sf key VNone = VMap fi ->
    truthy (VMap fi) = true ->
    is_str (get fi "type" VNone) "object" = true ->
    reaches_unknown (VMap fi) v ->
    reaches_unknown (VMap s) (VMap items)
| ru_array s sf fi items key v0 vs :
    get s "fields" (VMap []) = VMap sf ->
    In (key, VList (v0 :: vs)) items ->
    get sf key VNone = VMap fi ->
    truthy (VMap fi) = true ->
    is_str (get fi "type" VNone) "object" = false ->
    is_str (get fi "type" VNone) "array" = true ->
    truthy (get fi "items" VNone) = true ->
    reaches_unknown (get fi "items" VNone) v0 ->
    reaches_unknown (VMap s) (VMap items).

End Validator.

(* ------------------------------------------------------------------ *)
(** ** Shards ([core/models.py]) *)

Module Models.

Record Shard : Type := mkShard {
  line_no : nat;
  indent : nat;
  key : string;
  value : option string;
  is_list_item : bool;
  comment : option string;
  raw_line : string
}.

End Models.

Import Models (Shard, mkShard).

(* ------------------------------------------------------------------ *)
(** ** The identity scanner ([healing/scanner.py]) *)

Module Scanner.

(** The class [[\w\.\-\/]] (ASCII word characters, dot, dash, slash). *)
Definition is_key_char (c : ascii) : bool :=
  Py.is_alnum c || Ascii.eqb c "_" || Ascii.eqb c "." || Ascii.eqb c "-" || Ascii.eqb c "/".

(** The tail of [LINE_PATTERN] (key group, optional whitespace, colon,
    optional whitespace, value group to the end) at the start of [s]: the key run is
    maximal (no key character is whitespace or a colon, so backtracking
    never helps), and the value is what follows the whitespace after the
    colon. *)
Definition key_tail (s : string) : option (string * string) :=
  let '(k, r) := Py.span is_key_char s in
  match k with
  | EmptyString => None
  | _ =>
      match snd (Py.span Py.is_space r) with
      | String c r3 => if Ascii.eqb c ":" then Some (k, snd (Py.span Py.is_space r3)) else None
      | EmptyString => None
      end
  end.

(** [LINE_PATTERN.match(line)]: after the leading whitespace, the optional
    group for the list dash and its whitespace first tries the list
    dash, and falls back to no dash (where the key may then start with
    [-]).  Result: indent length, whether group 2 matched, key, value. *)
Definition line_match (line : string) : option (nat * bool * string * string) :=
  let '(ws, rest) := Py.span Py.is_space line in
  let with_dash :=
    match rest with
    | String c r => if Ascii.eqb c "-" then key_tail (snd (Py.span Py.is_space r)) else None
    | EmptyString => None
    end in
  match with_dash with
  | Some (k, v) => Some (String.length ws, true, k, v)
  | None =>
      match key_tail rest with
      | Some (k, v) => Some (String.length ws, false, k, v)
      | None => None
      end
  end.

Definition squote : ascii := "'".

(** [KubeScanner._clean_id]: strip whitespace, then single quotes, then
    double quotes, from both ends. *)
Definition _clean_id (v : string) : string :=
  Py.strip_char Py.dquote (Py.strip_char squote (Py.strip v)).

(** The scanner object's identity state. *)
Record KubeScanner : Type := mkScanner {
  found_kind : option string;
  found_api : option string
}.

(** [KubeScanner._handle_anomaly]. *)
Definition _handle_anomaly (line_no : nat) (line : string) : Shard :=
  let stripped := Py.lstrip line in
  let is_list := Py.startswith "-" stripped in
  let content := if is_list
                 then Py.lstrip (match stripped with String _ r => r | EmptyString => EmptyString end)
                 else stripped in
  mkShard line_no (String.length line - String.length (Py.lstrip line)) "" (Some content)
    is_list None line.

(** One line of the loop of [KubeScanner.scan]. *)
Definition scan_line (st : KubeScanner) (i : nat) (line : string) : option Shard * KubeScanner :=
  let stripped := Py.strip line in
  if String.eqb stripped "" || Py.startswith "#" stripped then (None, st)
  else
    match line_match line with
    | Some (ind, is_list, k, v) =>
        let clean_value := if String.eqb v "" then None else Some (Py.strip v) in
        let truthy_value := match clean_value with Some c => negb (String.eqb c "") | None => false end in
        let st1 := if String.eqb k "kind" && truthy_value
                   then mkScanner (option_map _clean_id clean_value) st.(found_api) else st in
        let st2 := if String.eqb k "apiVersion" && truthy_value
                   then mkScanner st1.(found_kind) (option_map _clean_id clean_value) else st1 in
        (Some (mkShard i ind k clean_value is_list None line), st2)
    | None => (Some (_handle_anomaly i line), st)
    end.

Fixpoint scan_lines (st : KubeScanner) (i : nat) (lines : list string) : list Shard * KubeScanner :=
  match lines with
  | [] => ([], st)
  | l :: r =>
      let '(sh, st1) := scan_line st i l in
      let '(rest, st2) := scan_lines st1 (S i) r in
      (match sh with Some x => x :: rest | None => rest end, st2)
  end.

(** [KubeScanner.scan]: the reset gate, then [enumerate(lines, 1)]; returns
    the shards and the scanner's new state. *)
Definition scan (self : KubeScanner) (raw_text : string) : list Shard * KubeScanner :=
  let self := mkScanner None None in
  scan_lines self 1 (Py.splitlines raw_text).

Definition get_identity (self : KubeScanner) : option string * option string :=
  (found_kind self, found_api self).

(** The identity the scanner ends up with, described without the loop: the
    cleaned values of the [kind] (resp. [apiVersion]) lines, keeping the
    last one. *)
Definition id_values_lines (field : string) (lines : list string) : list string :=
  flat_map (fun line =>
              let stripped := Py.strip line in
              if String.eqb stripped "" || Py.startswith "#" stripped then []
              else match line_match line with
                   | Some (_, _, k, v) =>
                       if String.eqb k field && negb (String.eqb (Py.strip v) "") && negb (String.eqb v "")
                       then [_clean_id (Py.strip v)] else []
                   | None => []
                   end)
           lines.

Definition id_values (field : string) (text : string) : list string :=
  id_values_lines field (Py.splitlines text).

Definition last_opt (l : list string) : option string :=
  match rev l with [] => None | x :: _ => Some x end.

End Scanner.

(* ------------------------------------------------------------------ *)
(** ** The structurer's indentation snap ([KubeStructurer._apply_magnetic_snap]) *)

Module Structurer.

Definition is_anchor_class (c : ascii) : bool :=
  Py.is_alnum c || Ascii.eqb c "_" || Ascii.eqb c "-".

(** [_is_anchor_or_alias]: the stripped line starts with [&] or [*] and one
    character of [[a-zA-Z0-9_-]]. *)
Definition _is_anchor_or_alias (line : string) : bool :=
  match Py.strip line with
  | String c (String d _) => (Ascii.eqb c "&" || Ascii.eqb c "*") && is_anchor_class d
  | _ => false
  end.

Definition _is_protected_structure (line : string) : bool :=
  let content := Py.strip line in
  Py.startswith "%YAML" content || Py.startswith "%TAG" content ||
  Py.startswith "---" content || Py.startswith "..." content ||
  _is_anchor_or_alias line ||
  Py.startswith "|" content || Py.startswith ">" content.

(** [round(n / 2) * 2] with Python's round half to even. *)
Definition grid_round (n : nat) : nat :=
  if Nat.even n then n
  else if Nat.even (n / 2) then 2 * (n / 2) else 2 * (n / 2) + 2.

(** One line of the loop; [last_dash_indent] is a [Z] since it starts at -1. *)
Definition snap_line (last_dash_indent : Z) (line : string) : string * Z :=
  let stripped := Py.lstrip line in
  if String.eqb stripped "" || Py.startswith "#" stripped then (line, last_dash_indent)
  else if _is_protected_structure line then (line, (-1)%Z)
  else
    let current_indent := String.length line - String.length stripped in
    let snapped := grid_round current_indent in
    if Py.startswith "- " stripped then
      let snapped :=
        if negb (Z.eqb last_dash_indent (-1)) &&
           Z.ltb last_dash_indent (Z.of_nat current_indent) &&
           Z.leb (Z.of_nat snapped) last_dash_indent
        then Z.to_nat (last_dash_indent + 2) else snapped in
      (Py.spaces snapped ++ stripped, Z.of_nat snapped)
    else
      let last := if Z.ltb (Z.of_nat snapped) last_dash_indent then (-1)%Z else last_dash_indent in
      (Py.spaces snapped ++ stripped, last).

Fixpoint snap_lines (last_dash_indent : Z) (lines : list string) : list string :=
  match lines with
  | [] => []
  | l :: r => let '(l', last) := snap_line last_dash_indent l in l' :: snap_lines last r
  end.

Definition _apply_magnetic_snap (yaml_str : string) : string :=
  Py.join Py.nl (snap_lines (-1)%Z (Py.splitlines yaml_str)).

End Structurer.

(* ------------------------------------------------------------------ *)
(** ** The policy shield ([rules/shield.py]) *)

Module Shield.

(** [p in s] for strings. *)
Definition str_contains (p s : string) : bool :=
  match String.index 0 p s with Some _ => true | None => false end.

(** [k in x] for a string [k]: dict keys, list elements, substrings; any
    other value raises [TypeError]. *)
Definition py_contains (x : val) (k : string) : option bool :=
  match x with
  | VMap m => Some (mem k m)
  | VList l => Some (existsb (fun y => is_str y k) l)
  | VStr s => Some (str_contains k s)
  | _ => None
  end.

Record ShieldEngine : Type := mkShield {
  default_cpu_limit : string;
  default_mem_limit : string
}.

Definition limits (self : ShieldEngine) : val :=
  VMap [("cpu", VStr (default_cpu_limit self)); ("memory", VStr (default_mem_limit self))].

Definition cluster_scoped : list string :=
  ["Namespace"; "Node"; "ClusterRole"; "ClusterRoleBinding";
   "StorageClass"; "PersistentVolume"; "CustomResourceDefinition"].

Definition workload_kinds : list string :=
  ["Deployment"; "StatefulSet"; "Job"; "DaemonSet"; "ReplicaSet"].

Definition in_list (v : val) (l : list string) : bool := existsb (is_str v) l.

(** [ShieldEngine._rule_ensure_namespace] on a dict. *)
Definition _rule_ensure_namespace (doc : list (string * val)) : option (list (string * val) * string) :=
  let kind := get doc "kind" (VStr "") in
  if negb (truthy kind) || in_list kind cluster_scoped then Some (doc, "")
  else
    let doc := if mem "metadata" doc then doc else set doc "metadata" (VMap []) in
    let metadata := get doc "metadata" VNone in
    match py_contains metadata "namespace" with
    | None => None
    | Some true => Some (doc, "")
    | Some false =>
        match metadata with
        | VMap md =>
            Some (set doc "metadata" (VMap (set md "namespace" (VStr "default"))),
                  "Action: Added 'namespace: default' to satisfy organizational policy.")
        (* item assignment on a list or string raises [TypeError] *)
        | _ => None
        end
    end.

(** The body of [for container in containers] for one container: the new
    container and whether it was modified.  Every [TypeError] (a
    non-dict container, [resources] neither a dict nor absent) escapes the
    [except (KeyError, AttributeError)]. *)
Definition inject_one (self : ShieldEngine) (container : val) : option (val * bool) :=
  match container with
  | VMap m =>
      if negb (mem "resources" m) then
        Some (VMap (set m "resources" (VMap [("limits", limits self)])), true)
      else
        let res := get m "resources" VNone in
        match py_contains res "limits" with
        | None => None
        | Some true => Some (container, false)
        | Some false =>
            match res with
            | VMap rm => Some (VMap (set m "resources" (VMap (set rm "limits" (limits self)))), true)
            | _ => None
            end
        end
  | _ => None
  end.

Fixpoint inject_all (self : ShieldEngine) (cs : list val) : option (list val * bool) :=
  match cs with
  | [] => Some ([], false)
  | c :: r =>
      match inject_one self c, inject_all self r with
      | Some (c', m1), Some (r', m2) => Some (c' :: r', m1 || m2)
      | _, _ => None
      end
  end.

(** [ShieldEngine._rule_inject_resource_limits] on a dict.  The three
    [.get(..., {})] calls raise [AttributeError] (caught: the document is
    returned as is) on a non-dict; iterating a non-iterable [containers]
    raises [TypeError] (not caught).  The containers are mutated in place,
    so the document changes along [spec.template.spec.containers] exactly
    when something was injected (the defaults [{}] and [[]] are never
    modified). *)
Definition _rule_inject_resource_limits (self : ShieldEngine) (doc : list (string * val))
    : option (list (string * val) * string) :=
  if negb (in_list (get doc "kind" VNone) workload_kinds) then Some (doc, "")
  else
    match get doc "spec" (VMap []) with
    | VMap spec0 =>
        match get spec0 "template" (VMap []) with
        | VMap template =>
            match get template "spec" (VMap []) with
            | VMap spec =>
                let containers := get spec "containers" (VList []) in
                match py_iter containers with
                | None => None
                | Some cs =>
                    match inject_all self cs with
                    | None => None
                    | Some (cs', modified) =>
                        if modified then
                          let spec' := set spec "containers" (VList cs') in
                          let template' := set template "spec" (VMap spec') in
                          let spec0' := set spec0 "template" (VMap template') in
                          Some (set doc "spec" (VMap spec0'),
                                "Warning: Injected default resource limits (" ++ default_mem_limit self ++ ").")
                        else Some (doc, "")
                    end
                end
            | _ => Some (doc, "")
            end
        | _ => Some (doc, "")
        end
    | _ => Some (doc, "")
    end.

(** [ShieldEngine.protect]: the two rules in order on a dict; anything else
    is returned untouched.  [None] is an exception escaping a rule. *)
Definition protect (self : ShieldEngine) (doc : val) : option (val * list string) :=
  match doc with
  | VMap d =>
      match _rule_ensure_namespace d with
      | None => None
      | Some (d1, msg1) =>
          match _rule_inject_resource_limits self d1 with
          | None => None
          | Some (d2, msg2) =>
              Some (VMap d2, app (if String.eqb msg1 "" then [] else [msg1])
                                 (if String.eqb msg2 "" then [] else [msg2]))
          end
      end
  | _ => Some (doc, [])
  end.

Definition default_shield : ShieldEngine := mkShield "500m" "512Mi".

End Shield.

(* ------------------------------------------------------------------ *)
(** ** The orchestrator ([AuditEngineV3.audit_and_heal_file]) *)

Module Engine.

(** [HealContext], the fields the engine reads. *)
Record HealContext : Type := mkContext {
  raw_text : string;
  shards : list Shard;
  kind : option string;
  api_version : option string;
  reconstructed_docs : list val
}.

(** The file as [full_path.exists()] and [read_text(encoding="utf-8-sig")]
    see it. *)
Inductive FileState : Type :=
| Missing
| Undecodable
| Text (contents : string).

(** What the file system does when the engine touches it: the path
    [_create_unique_backup] picks, and whether [shutil.copy2] and
    [_atomic_write] succeed. *)
Record Env : Type := mkEnv {
  file : FileState;
  backup_path : string;
  backup_ok : bool;
  write_ok : bool
}.

(** Attempted writes, in order. *)
Inductive IOEvent : Type :=
| BackupCopy (dst : string)
| AtomicWrite (content : string).

(** The report dictionary.  [_file_error] builds the short form; the
    [timestamp] field is left out. *)
Record Result : Type := mkResult {
  file_path : string;
  success : bool;
  partial_heal : bool;
  status : string;
  report_kind : option string;
  report_api_version : option string;
  written : bool;
  backup_created : option string;
  healed_content : option string;
  logic_logs : list string;
  validation_error : string;
  git_warnings : list string;
  backup_warning : option string;
  write_error : option string
}.

Inductive Report : Type :=
| FileError (relative_path status : string)
| Full (r : Result).

Definition report_success (r : Report) : bool :=
  match r with FileError _ _ => false | Full res => success res end.

(** [if context.kind]: [None] and the empty string are falsy. *)
Definition kind_truthy (k : option string) : bool :=
  match k with Some s => negb (String.eqb s "") | None => false end.

Definition is_nil {A} (l : list A) : bool := match l with [] => true | _ => false end.

(** What the [try] block of phase 2 computes. *)
Record Processed : Type := mkProcessed {
  p_context : HealContext;
  p_protected : list val;
  p_logs : list string;
  p_validation_error : string;
  p_final_yaml : string;
  p_success : bool;
  p_partial : bool;
  p_modified : bool;
  p_status : string
}.

Section AuditEngine.

(** The engine's catalog, and the two phases that are not modelled here:
    [HealingPipeline.run] and [KubeExporter.export] ([None] is an exception),
    and what [check_git_safety] reports. *)
Variable catalog : list (string * val).
Variable pipeline_run : string -> option HealContext.
Variable export : list val -> HealContext -> option string.
Variable git_recommendations : list string.

(** [for doc in healed_docs: protect, validate, collect]. *)
Fixpoint shield_and_validate (strict : bool) (docs : list val)
    (protected_docs : list val) (logs : list string) (validation_passed : bool)
    (validation_error : string) : option (list val * list string * bool * string) :=
  match docs with
  | [] => Some (protected_docs, logs, validation_passed, validation_error)
  | doc :: rest =>
      match Shield.protect Shield.default_shield doc with
      | None => None
      | Some (protected_doc, new_logs) =>
          match Validator.validate_reconstruction catalog protected_doc strict with
          | None => None
          | Some (valid, err) =>
              shield_and_validate strict rest (app protected_docs [protected_doc])
                (app logs new_logs)
                (if valid then validation_passed else false)
                (if valid then validation_error else err)
          end
      end
  end.

Definition process (raw_text : string) (dry_run strict : bool) : option Processed :=
  match pipeline_run raw_text with
  | None => None
  | Some context =>
      match shield_and_validate strict (reconstructed_docs context) [] [] true "" with
      | None => None
      | Some (protected_docs, logs, validation_passed, validation_error) =>
          match export protected_docs context with
          | None => None
          | Some final_yaml =>
              let success := kind_truthy (kind context) && negb (is_nil protected_docs)
                             && validation_passed in
              let partial_heal := negb success && (0 <? length (shards context)) in
              let is_modified := negb (String.eqb (Py.strip raw_text) (Py.strip final_yaml)) in
              let display_status :=
                if negb is_modified then "UNCHANGED"
                else if dry_run then "PREVIEW"
                else if success then "HEALED"
                else if partial_heal then "PARTIAL" else "FAILED" in
              Some (mkProcessed context protected_docs logs validation_error final_yaml
                      success partial_heal is_modified display_status)
          end
      end
  end.

Definition audit_and_heal_file (relative_path : string) (env : Env)
    (dry_run force_write strict : bool) : Report * list IOEvent :=
  match file env with
  | Missing => (FileError relative_path "FILE_NOT_FOUND", [])
  | Undecodable => (FileError relative_path "HEAL_FAILED", [])
  | Text raw_text =>
      match process raw_text dry_run strict with
      | None => (FileError relative_path "HEAL_FAILED", [])
      | Some p =>
          let context := p_context p in
          let should_write := negb dry_run && p_modified p &&
                              (p_success p || (p_partial p && force_write)) in
          let write_failed := should_write && negb (write_ok env) in
          let result :=
            mkResult relative_path
              (if write_failed then false else p_success p || negb (p_modified p))
              (p_partial p) (p_status p) (kind context) (api_version context)
              (should_write && write_ok env)
              (if should_write && backup_ok env then Some (backup_path env) else None)
              (if p_modified p then Some (p_final_yaml p) else None)
              (p_logs p) (p_validation_error p) git_recommendations
              (if should_write && negb (backup_ok env) then Some "Backup failed" else None)
              (if write_failed then Some "Atomic write failed" else None) in
          (Full result,
           if should_write then [BackupCopy (backup_path env); AtomicWrite (p_final_yaml p)]
           else [])
      end
  end.

End AuditEngine.

(** Some attempted write of the target file. *)
Definition writes_target (evs : list IOEvent) : bool :=
  existsb (fun e => match e with AtomicWrite _ => true | _ => false end) evs.

End Engine.

(* ------------------------------------------------------------------ *)
(** ** More string primitives *)

Module Py2.

(** [s.partition(c)] for one character, when [c in s]: the text before the
    first [c] and the text after it. *)
Fixpoint partition (c : ascii) (s : string) : option (string * string) :=
  match s with
  | EmptyString => None
  | String d r =>
      if Ascii.eqb c d then Some (EmptyString, r)
      else match partition c r with
           | Some (a, b) => Some (String d a, b)
           | None => None
           end
  end.

(** The last character of a string. *)
Fixpoint last_char (s : string) : option ascii :=
  match s with
  | EmptyString => None
  | String c EmptyString => Some c
  | String _ r => last_char r
  end.

(** [s.endswith(c)] for one character. *)
Definition endswith_char (c : ascii) (s : string) : bool :=
  match last_char s with Some d => Ascii.eqb c d | None => false end.

(** [s[i:]] *)
Definition drop (i : nat) (s : string) : string :=
  String.substring i (String.length s - i) s.

End Py2.

(* ------------------------------------------------------------------ *)
(** ** The lexer's sharding ([KubeLexer._extract_semantics], [KubeLexer.shard]) *)

Module LexerShard.

Import Lexer.

(** [KubeLexer._extract_semantics]: [(key, value, is_list)]; a value of
    [None] is [None], a string value [v] is [Some v]. *)
Definition _extract_semantics (code_part : string) : string * option string * bool :=
  let clean := Py.strip code_part in
  if String.eqb clean "" then ("", None, false)
  else
    let is_list := Py.startswith "-" clean in
    let clean := if is_list then Py.lstrip (Py2.drop 1 clean) else clean in
    match Py2.partition ":" clean with
    | Some (key_part, val_part) =>
        let v := Py.strip val_part in
        (Py.strip key_part, (if String.eqb v "" then None else Some v), is_list)
    | None => ("", Some clean, is_list)
    end.

(** The flush-left recovery of [shard]: a line starting with [-] right
    after a line whose right-stripped text ends with [:] is pushed two
    columns past that line's indentation. *)
Definition flush_left (prev : option string) (original_line : string) : string :=
  match prev with
  | Some p =>
      if Py2.endswith_char ":" (Py.rstrip p) && Py.startswith "-" original_line
      then Py.spaces (String.length p - String.length (Py.lstrip p) + 2) ++ original_line
      else original_line
  | None => original_line
  end.

(** The loop of [shard]; [prev] is [lines[i-1]] ([None] at [i = 0]). *)
Fixpoint shard_lines (self : KubeLexer) (prev : option string) (i : nat)
    (lines : list string) : list Shard * KubeLexer :=
  match lines with
  | [] => ([], self)
  | original_line :: rest =>
      let working_line := flush_left prev original_line in
      let '((indent, code, comment), self) := repair_line self working_line in
      let '(key, value, is_list) := _extract_semantics code in
      let sh := mkShard (S i) indent key value is_list comment original_line in
      let '(shards, self) := shard_lines self (Some original_line) (S i) rest in
      (sh :: shards, self)
  end.

(** [KubeLexer.shard]: [in_block] is reset, [block_indent] is kept; the
    lines are those of [raw_yaml] itself (the cleaned text computed by
    [_clean_artifacts] is not used). *)
Definition shard (self : KubeLexer) (raw_yaml : string) : list Shard * KubeLexer :=
  shard_lines (mkLexer false (block_indent self)) None 0 (Py.splitlines raw_yaml).

End LexerShard.

(* ------------------------------------------------------------------ *)
(** ** The shadow's comment capture ([KubeShadow.capture]) *)

Module ShadowCapture.

Record ShadowMetadata : Type := mkMeta {
  above_comments : list string;
  inline_comment : option string
}.

Record KubeShadow : Type := mkShadow {
  comment_map : list (nat * ShadowMetadata);
  orphans : list string
}.

(** [comment_map[i] = m] on a dict with integer keys. *)
Fixpoint map_set (m : list (nat * ShadowMetadata)) (i : nat) (v : ShadowMetadata)
    : list (nat * ShadowMetadata) :=
  match m with
  | [] => [(i, v)]
  | (k, w) :: r => if Nat.eqb i k then (k, v) :: r else (k, w) :: map_set r i v
  end.

(** [comment_map.get(i)] *)
Fixpoint map_get (m : list (nat * ShadowMetadata)) (i : nat) : option ShadowMetadata :=
  match m with
  | [] => None
  | (k, w) :: r => if Nat.eqb i k then Some w else map_get r i
  end.

(** The loop of [capture] over [enumerate(lines, 1)]. *)
Fixpoint capture_lines (cmap : list (nat * ShadowMetadata)) (pending : list string)
    (i : nat) (lines : list string) : list (nat * ShadowMetadata) * list string :=
  match lines with
  | [] => (cmap, pending)
  | line :: rest =>
      let stripped := Py.strip line in
      if Py.startswith "#" stripped then capture_lines cmap (app pending [line]) (S i) rest
      else if String.eqb stripped "" then capture_lines cmap pending (S i) rest
      else
        let comment_idx := Shadow._find_safe_comment_idx line in
        let inline_part :=
          if Z.eqb comment_idx (-1) then None
          else Some (Py.strip (Py2.drop (Z.to_nat comment_idx) line)) in
        let inline_truthy :=
          match inline_part with Some c => negb (String.eqb c "") | None => false end in
        match pending with
        | [] =>
            if inline_truthy
            then capture_lines (map_set cmap i (mkMeta [] inline_part)) [] (S i) rest
            else capture_lines cmap [] (S i) rest
        | _ :: _ => capture_lines (map_set cmap i (mkMeta pending inline_part)) [] (S i) rest
        end
  end.

(** [KubeShadow.capture]: the map is kept from earlier calls, the orphans
    are replaced. *)
Definition capture (self : KubeShadow) (raw_text : string) : KubeShadow :=
  let '(cmap, pending) := capture_lines (comment_map self) [] 1 (Py.splitlines raw_text) in
  mkShadow cmap pending.

Definition get_metadata (self : KubeShadow) (line_no : nat) : option ShadowMetadata :=
  map_get (comment_map self) line_no.

Definition fresh : KubeShadow := mkShadow [] [].

End ShadowCapture.

(* ------------------------------------------------------------------ *)
(** ** The validator's health score *)

Module ValidatorHealth.

Import Validator.

(** [KubeValidator.compare_health]: [validate_reconstruction] with its
    default [strict=False], then [healed_doc.get], which raises
    [AttributeError] on anything but a dict. *)
Definition compare_health (catalog : list (string * val)) (original_status : string)
    (healed_doc : val) : option nat :=
  match validate_reconstruction catalog healed_doc false with
  | None => None
  | Some (is_valid, _) =>
      let score := 50 in
      let score := if is_valid then score + 30 else score in
      match healed_doc with
      | VMap items =>
          let score := if truthy (get items "kind" VNone) && truthy (get items "apiVersion" VNone)
                       then score + 20 else score in
          Some (Nat.min score 100)
      | _ => None
      end
  end.

End ValidatorHealth.

(* ------------------------------------------------------------------ *)
(** ** The structurer's text utilities *)

Module Structurer2.

Definition CR : ascii := ascii_of_nat 13.
Definition LF : ascii := ascii_of_nat 10.

(** [s.replace('\r\n', '\n')]: left to right, without overlaps. *)
Fixpoint replace_crlf (s : string) : string :=
  match s with
  | EmptyString => EmptyString
  | String c r =>
      match r with
      | String d r' =>
          if Ascii.eqb c CR && Ascii.eqb d LF then String LF (replace_crlf r')
          else String c (replace_crlf r)
      | EmptyString => String c EmptyString
      end
  end.

(** [s.replace('\r', '\n')] *)
Fixpoint replace_cr (s : string) : string :=
  match s with
  | EmptyString => EmptyString
  | String c r => String (if Ascii.eqb c CR then LF else c) (replace_cr r)
  end.

(** [KubeStructurer._normalize_line_endings] *)
Definition _normalize_line_endings (yaml_str : string) : string :=
  Py.rstrip (replace_cr (replace_crlf yaml_str)).

(** The digits of [int(s)] after the sign: ASCII digits, with single
    underscores allowed between two digits; at least one digit. *)
Fixpoint int_digits (acc : nat) (after_digit : bool) (s : string) : option nat :=
  match s with
  | EmptyString => if after_digit then Some acc else None
  | String c r =>
      if Py.is_digit c then int_digits (acc * 10 + (nat_of_ascii c - 48)) true r
      else if Ascii.eqb c "_" && after_digit then
        match r with
        | String d _ => if Py.is_digit d then int_digits acc false r else None
        | EmptyString => None
        end
      else None
  end.

(** [int(s)] on a string, base 10: surrounding whitespace, an optional
    sign, then the digits; [None] is the [ValueError]. *)
Definition split_sign (t : string) : bool * string :=
  match t with
  | String c r =>
      if Ascii.eqb c "-" then (true, r) else if Ascii.eqb c "+" then (false, r) else (false, t)
  | EmptyString => (false, t)
  end.

Definition py_int (s : string) : option Z :=
  let '(neg, body) := split_sign (Py.strip s) in
  match int_digits 0 false body with
  | Some n => Some (if neg then (- Z.of_nat n)%Z else Z.of_nat n)
  | None => None
  end.

(** [s.split(':')[1]]; [None] is the [IndexError] when there is no colon. *)
Definition split_colon_1 (s : string) : option string :=
  match Py2.partition ":" s with
  | None => None
  | Some (_, after) =>
      Some (match Py2.partition ":" after with Some (a, _) => a | None => after end)
  end.

(** [KubeStructurer._extract_line] *)
Definition _extract_line (error_info : string) : Z :=
  if negb (Py.startswith "STRUCTURE_ERROR:L" error_info) then (-1)%Z
  else
    match split_colon_1 error_info with
    | None => (-1)%Z
    | Some line_part =>
        match py_int (Py2.drop 1 line_part) with
        | Some line_num_1based => (line_num_1based - 1)%Z
        | None => (-1)%Z
        end
    end.

(** [f"{n}"] for a non-negative integer. *)
Definition fmt_nat (n : nat) : string := NilEmpty.string_of_uint (Nat.to_uint n).

(** The message [validate_and_roundtrip] returns when the parser error has a
    mark: [f"STRUCTURE_ERROR:L{line_num}:C{col_num}:{str(e)}"] with the
    mark's 0-based line and column plus one. *)
Definition structure_error_msg (mark_line mark_column : nat) (e : string) : string :=
  "STRUCTURE_ERROR:L" ++ fmt_nat (mark_line + 1) ++ ":C" ++ fmt_nat (mark_column + 1) ++ ":" ++ e.

(** One entry of [changes] in [full_healing_report]. *)
Record Change : Type := mkChange {
  line : nat;
  original : string;
  fixed : string;
  indent_original : nat;
  indent_fixed : nat
}.

Record HealingReport : Type := mkReport {
  status : string;
  total_lines : nat;
  lines_changed : nat;
  changes : list Change
}.

(** The loop over [enumerate(zip(original_lines, final_lines))]. *)
Fixpoint diff_lines (i : nat) (orig final : list string) : list Change :=
  match orig, final with
  | o :: os, f :: fs =>
      if String.eqb o f then diff_lines (S i) os fs
      else mkChange (i + 1) o f (String.length o - String.length (Py.lstrip o))
                    (String.length f - String.length (Py.lstrip f))
           :: diff_lines (S i) os fs
  | _, _ => []
  end.

(** [KubeStructurer.full_healing_report] *)
Definition full_healing_report (original final status : string) : HealingReport :=
  let original_lines := Py.splitlines original in
  let final_lines := Py.splitlines final in
  let changes := diff_lines 0 original_lines final_lines in
  mkReport status (length original_lines) (length changes) changes.

End Structurer2.

(* ------------------------------------------------------------------ *)
(** ** The exporter's key ordering ([healing/exporter.py]) *)

Module Exporter.

Definition preferred_order : list string :=
  ["apiVersion"; "kind"; "metadata"; "spec"; "data"; "status"].

(** [l.index(k)], with [None] for the [ValueError]. *)
Fixpoint index_of (k : string) (l : list string) : option nat :=
  match l with
  | [] => None
  | x :: r => if String.eqb k x then Some 0 else option_map S (index_of k r)
  end.

(** [sort_logic] of [_get_sorted_map]; [keys.index(key)] cannot fail, the
    key being drawn from [keys]. *)
Definition sort_logic (keys : list string) (key : string) : nat :=
  match index_of key preferred_order with
  | Some i => i
  | None => length preferred_order + match index_of key keys with Some j => j | None => 0 end
  end.

(** [sorted(l, key=f)] is stable: an insertion sort that places each
    element after the ones with a smaller or equal key. *)
Fixpoint insert_sorted {A : Type} (f : A -> nat) (x : A) (l : list A) : list A :=
  match l with
  | [] => [x]
  | y :: r => if f x <? f y then x :: l else y :: insert_sorted f x r
  end.

Definition stable_sort {A : Type} (f : A -> nat) (l : list A) : list A :=
  fold_left (fun acc x => insert_sorted f x acc) l [].

(** [KubeExporter._get_sorted_map] on a loaded document, where the YAML
    maps are the [VMap]s.  The comment metadata ([.ca]) that the source
    carries over is not part of [val]. *)
Fixpoint _get_sorted_map (data : val) : val :=
  match data with
  | VMap m =>
      let keys := map fst m in
      let sorted_keys := stable_sort (sort_logic keys) keys in
      let rebuilt :=
        map (fun '(k, value) =>
               (k, match value with
                   | VMap _ => _get_sorted_map value
                   | VList l => VList (map (fun item => match item with
                                                        | VMap _ => _get_sorted_map item
                                                        | _ => item
                                                        end) l)
                   | _ => value
                   end)) m in
      VMap (map (fun key => (key, get rebuilt key VNone)) sorted_keys)
  | _ => data
  end.

End Exporter.

(* ------------------------------------------------------------------ *)
(** ** Indentation repair of [KubeStructurer] *)

Module Structurer3.

(** [re.split(r'\s+#', s)[0]]: the text before the first run of whitespace
    that is followed by [#]. *)
Definition hash_after_spaces (r : string) : bool :=
  match Py.lstrip r with String c _ => Ascii.eqb c "#" | EmptyString => false end.

Fixpoint cut_comment (s : string) : string :=
  match s with
  | EmptyString => EmptyString
  | String c r => if Py.is_space c && hash_after_spaces r then EmptyString
                  else String c (cut_comment r)
  end.

(** The body of the loop of [_find_parent_indent] on [lines[i]]: [None] is
    [continue] (blank, comment, protected structure, or no mapping key),
    [Some n] returns the indentation [n]. *)
Definition parent_key_indent (line : string) : option nat :=
  let raw_content := Py.rstrip (cut_comment line) in
  if String.eqb (Py.strip raw_content) "" || Py.startswith "#" (Py.strip raw_content) ||
     Structurer._is_protected_structure raw_content
  then None
  else
    let content := Py.lstrip raw_content in
    if Py2.endswith_char ":" raw_content && negb (Py.startswith "- " content)
    then Some (String.length raw_content - String.length content)
    else None.

(** [for i in range(k - 1, -1, -1)]; [None] is the [IndexError] of
    [lines[i]]. *)
Fixpoint find_parent_from (lines : list string) (k : nat) : option nat :=
  match k with
  | 0 => Some 0
  | S i =>
      match nth_error lines i with
      | None => None
      | Some l =>
          match parent_key_indent l with
          | Some n => Some n
          | None => find_parent_from lines i
          end
      end
  end.

(** [KubeStructurer._find_parent_indent]; a negative [err_line] gives an
    empty range. *)
Definition _find_parent_indent (lines : list string) (err_line : Z) : option nat :=
  find_parent_from lines (Z.to_nat err_line).

(** The position [lines[i]] reads, with Python's negative indices; [None]
    is the [IndexError]. *)
Definition py_index (len : nat) (i : Z) : option nat :=
  if (0 <=? i)%Z then (if (i <? Z.of_nat len)%Z then Some (Z.to_nat i) else None)
  else if (0 <=? Z.of_nat len + i)%Z then Some (Z.to_nat (Z.of_nat len + i)) else None.

Definition tab : ascii := ascii_of_nat 9.

(** [KubeStructurer.auto_fix_indentation]; [None] is an exception. *)
Definition auto_fix_indentation (yaml_str error_info : string) : option string :=
  let err_line := Structurer2._extract_line error_info in
  if (err_line =? -1)%Z then Some yaml_str
  else
    let lines := Py.splitlines yaml_str in
    if (Z.of_nat (length lines) <=? err_line)%Z then Some yaml_str
    else
      match py_index (length lines) err_line with
      | None => None
      | Some idx =>
          let target_line := Py.expand_tabs (nth idx lines EmptyString) in
          if Structurer._is_protected_structure target_line then Some yaml_str
          else
            let current_indent := String.length target_line - String.length (Py.lstrip target_line) in
            match _find_parent_indent lines err_line with
            | None => None
            | Some parent_indent =>
                let target_indent := parent_indent + 2 in
                if negb (current_indent =? target_indent) || Py.has_char tab target_line ||
                   negb (Nat.even current_indent)
                then
                  let fixed_line := Py.rstrip (Py.spaces target_indent ++ Py.lstrip target_line) in
                  Some (Py.join Py.nl (app (firstn idx lines) (fixed_line :: skipn (S idx) lines)))
                else Some yaml_str
            end
      end.

Section Processing.

(** [validate_and_roundtrip]: the ruamel.yaml load and dump, not modelled. *)
Variable validate_and_roundtrip : string -> bool * string.

(** The [for attempt in range(3)] loop of [_process_single_doc];
    [attempt] counts up, [fuel] down. *)
Fixpoint fix_loop (attempt fuel : nat) (current_yaml result : string) : option (string * string) :=
  match fuel with
  | 0 => Some (current_yaml, "STRUCTURE_FAIL")
  | S f =>
      match auto_fix_indentation current_yaml result with
      | None => None
      | Some fixed_yaml =>
          let err_idx := Structurer2._extract_line result in
          let fixed_lines := Py.splitlines fixed_yaml in
          let stuck :=
            if negb (err_idx =? -1)%Z && (err_idx <? Z.of_nat (length fixed_lines))%Z then
              match py_index (length fixed_lines) err_idx with
              | Some i => Some (Structurer._is_protected_structure (nth i fixed_lines EmptyString))
              | None => None
              end
            else Some false in
          match stuck with
          | None => None
          | Some true => Some (current_yaml, "STRUCTURE_PROTECTED_SKIP")
          | Some false =>
              let '(valid2, result2) := validate_and_roundtrip fixed_yaml in
              if valid2 then Some (result2, "STRUCTURE_FIXED_" ++ Structurer2.fmt_nat (attempt + 1))
              else fix_loop (S attempt) f fixed_yaml result2
          end
      end
  end.

(** [KubeStructurer._process_single_doc]; [None] is an exception. *)
Definition _process_single_doc (yaml_str : string) : option (string * string) :=
  let snapped_yaml := Structurer._apply_magnetic_snap yaml_str in
  let '(valid, result) := validate_and_roundtrip snapped_yaml in
  if valid then Some (result, "STRUCTURE_OK")
  else fix_loop 0 3 snapped_yaml result.

End Processing.

End Structurer3.

(* ------------------------------------------------------------------ *)
(** ** [AuditEngineV3.generate_summary] *)

Module EngineSummary.

Import Engine.

(** The summary dictionary.  The float [success_rate]
    ([successful / total]) and the [summary_timestamp] are left out. *)
Inductive Summary : Type :=
| EmptySummary
| MkSummary (total_files successful partial_heal backups_created written_to_disk : nat).

(** [r.get('success', False)] and the like on a report; [_file_error]
    reports have no [backup_created] and no [written] key. *)
Definition get_success (r : Report) : bool :=
  match r with FileError _ _ => false | Full res => success res end.

Definition get_partial (r : Report) : bool :=
  match r with FileError _ _ => false | Full res => partial_heal res end.

Definition get_backup (r : Report) : bool :=
  match r with
  | FileError _ _ => false
  | Full res => match backup_created res with
                | Some s => negb (String.eqb s "")
                | None => false
                end
  end.

Definition get_written (r : Report) : bool :=
  match r with FileError _ _ => false | Full res => written res end.

(** [sum(1 for r in reports if p(r))] *)
Definition count (p : Report -> bool) (reports : list Report) : nat :=
  length (filter p reports).

Definition generate_summary (reports : list Report) : Summary :=
  match reports with
  | [] => EmptySummary
  | _ => MkSummary (length reports) (count get_success reports) (count get_partial reports)
           (count get_backup reports) (count get_written reports)
  end.

End EngineSummary.

(* ================================================================== *)
(** * Proofs *)

(* ------------------------------------------------------------------ *)
(** ** Comment boundaries: lexer and shadow agree *)

Module CommentBoundary.

Lemma get_cons_succ (ch : ascii) (r : string) k :
  String.get (S k) (String ch r) = String.get k r.
Proof. reflexivity. Qed.

(** The index-based loop of the lexer, started at position [i] of [text]
    whose suffix from [i] is [rest], computes the suffix scan of the
    shadow. *)
Lemma loop_suffix : forall rest text fuel i prev d s e,
  (forall k, String.get (i + k) text = String.get k rest) ->
  match prev with
  | None => i = 0
  | Some p => i <> 0 /\ String.get (i - 1) text = Some p
  end ->
  String.length rest <= fuel ->
  Lexer.comment_split_loop text fuel i d s e = Shadow.safe_idx_aux rest i prev d s e.
Proof.
  induction rest as [|ch r IH]; intros text fuel i prev d s e Hget Hprev Hfuel.
  - destruct fuel as [|f]; simpl; [reflexivity|].
    specialize (Hget 0). rewrite Nat.add_0_r in Hget. rewrite Hget. reflexivity.
  - destruct fuel as [|f]; simpl in Hfuel; [lia|].
    assert (Hi : String.get i text = Some ch)
      by (specialize (Hget 0); rewrite Nat.add_0_r in Hget; exact Hget).
    assert (Hget' : forall k, String.get (S i + k) text = String.get k r)
      by (intro k; rewrite <- (get_cons_succ ch r k), <- Hget; f_equal; lia).
    assert (Hprev' : S i <> 0 /\ String.get (S i - 1) text = Some ch)
      by (split; [lia | rewrite Nat.sub_1_r; exact Hi]).
    assert (Hf : String.length r <= f) by lia.
    assert (Hedge : ((i =? 0) || match String.get (i - 1) text with
                                 | Some p => Py.is_space p | None => false end)
                    = match prev with None => true | Some p => Py.is_space p end).
    { destruct prev as [p|].
      - destruct Hprev as [Hne Hp]. rewrite Hp.
        apply Nat.eqb_neq in Hne. rewrite Hne. reflexivity.
      - subst i. reflexivity. }
    simpl. rewrite Hi.
    destruct e.
    + apply IH; assumption.
    + destruct (Ascii.eqb ch Py.backslash).
      * apply IH; assumption.
      * rewrite Hedge.
        destruct (match prev with Some p => Py.is_space p | None => true end);
        destruct (Ascii.eqb ch Py.dquote) eqn:Hq, s, d, (Ascii.eqb ch "'") eqn:Hs, (Ascii.eqb ch "#");
          simpl; try reflexivity; try (apply IH; assumption).
Qed.

(** Every non-negative answer of the lexer's scan points at a [#] that is at
    the line start or right after whitespace. *)
Lemma loop_sound : forall text fuel i d s e n,
  Lexer.comment_split_loop text fuel i d s e = Z.of_nat n ->
  String.get n text = Some "#"%char /\
  (n = 0 \/ exists p, String.get (n - 1) text = Some p /\ Py.is_space p = true).
Proof.
  intros text fuel. induction fuel as [|f IH]; intros i d s e n H; simpl in H.
  - lia.
  - destruct (String.get i text) as [ch|] eqn:Hch; [|lia].
    destruct e; [eapply IH; exact H|].
    destruct (Ascii.eqb ch Py.backslash); [eapply IH; exact H|].
    destruct ((ch =? Py.dquote)%char && negb s);
      [|destruct ((ch =? "'")%char && negb d)];
    (match type of H with
     | context [if ?c then Z.of_nat i else _] => destruct c eqn:Hc
     end; [|eapply IH; exact H]);
    apply Nat2Z.inj in H; subst n;
    repeat rewrite andb_true_iff in Hc; destruct Hc as [[[H1 _] _] H4];
    apply Ascii.eqb_eq in H1; subst ch; (split; [exact Hch|]);
    apply orb_true_iff in H4; (destruct H4 as [H4|H4];
      [left; apply Nat.eqb_eq; exact H4
      |right; destruct (String.get (i - 1) text) as [p|]; [|discriminate];
       exists p; split; [reflexivity | exact H4]]).
Qed.

End CommentBoundary.

(** C7. The comment-boundary scanners of the lexer ([KubeLexer._find_comment_split])
    and of the shadow ([KubeShadow._find_safe_comment_idx]) return the same
    index on every string; when that index is not [-1] it is the position
    of a [#] at the start of the text or right after a whitespace
    character. *)
Theorem comment_split_agree : forall text : string,
  Lexer._find_comment_split text = Shadow._find_safe_comment_idx text /\
  (forall n, Lexer._find_comment_split text = Z.of_nat n ->
     String.get n text = Some "#"%char /\
     (n = 0 \/ exists p, String.get (n - 1) text = Some p /\ Py.is_space p = true)).
Proof.
  intro text. split.
  - unfold Lexer._find_comment_split, Shadow._find_safe_comment_idx.
    apply CommentBoundary.loop_suffix; [intro k; reflexivity | reflexivity | lia].
  - intros n H. eapply CommentBoundary.loop_sound. exact H.
Qed.

(* ------------------------------------------------------------------ *)
(** ** The validator *)

Module ValidatorFacts.
Import Validator.

(** A small catalog: a [Pod] with a required [metadata] map and a
    [spec.containers] array whose items require a [name]. *)
Definition leaf (t : string) : val := VMap [("type", VStr t)].

Definition pod_fields : list (string * val) :=
  [("apiVersion", leaf "string");
   ("kind", leaf "string");
   ("metadata", VMap [("type", VStr "object");
                      ("fields", VMap [("name", leaf "string")])]);
   ("spec", VMap [("type", VStr "object");
                  ("fields", VMap [("containers",
                     VMap [("type", VStr "array");
                           ("items", VMap [("required", VList [VStr "name"]);
                                           ("fields", VMap [("name", leaf "string");
                                                            ("image", leaf "string")])])])])])].

Definition pod_entries : list (string * val) :=
  [("required", VList [VStr "metadata"]); ("fields", VMap pod_fields)].

Definition pod_schema : val := VMap pod_entries.

Definition catalog : list (string * val) := [("Pod", pod_schema)].

Definition pod_with (extra : list (string * val)) : val :=
  VMap ([("apiVersion", VStr "v1"); ("kind", VStr "Pod");
         ("metadata", VMap [("name", VStr "x")])] ++ extra).

Example scenario_c_lenient :
  validate_reconstruction catalog (pod_with [("typo", VBool true)]) false = Some (true, ok_msg).
Proof. reflexivity. Qed.

Example scenario_c_strict :
  validate_reconstruction catalog (pod_with [("typo", VBool true)]) true
  = Some (false, "Strict Mode Violation: Unknown field 'typo'. Possible typo?").
Proof. reflexivity. Qed.

Definition mono_P (v : val) : Prop :=
  forall schema path r, _deep_validate v schema path false = Some r ->
  exists r', _deep_validate v schema path true = Some r' /\ (fst r' = true -> fst r = true).

Definition mono_Q (v : val) : Prop :=
  mono_P v /\ match v with VList (x :: _) => mono_P x | _ => True end.

Ltac strict_fails :=
  eexists; split; [reflexivity | simpl; discriminate].

Lemma fields_loop_mono : forall items,
  Forall (fun kv => mono_Q (snd kv)) items ->
  forall sf path r,
  fields_loop _deep_validate sf path false items = Some r ->
  exists r', fields_loop _deep_validate sf path true items = Some r' /\
             (fst r' = true -> fst r = true).
Proof.
  induction items as [|[key value] rest IH]; intros Hall sf path r H.
  - simpl in H. injection H as <-. eexists; split; [reflexivity | auto].
  - inversion Hall as [|? ? [Pv Hhead] Hrest]; subst. simpl in Pv, Hhead.
    simpl in H |- *.
    destruct sf as [| | | | |sf]; try discriminate.
    destruct (truthy (get sf key VNone)) eqn:Ht; simpl in H |- *.
    2: strict_fails.
    destruct (get sf key VNone) as [| | | | |fi]; try discriminate.
    destruct (is_str (get fi "type" VNone) "object").
    + destruct value as [| | | | |vm]; try (injection H as <-; eexists; split; [reflexivity|auto]).
      destruct (_deep_validate (VMap vm) (VMap fi) (path ++ key ++ ".") false) as [[b e]|] eqn:Hd;
        try discriminate.
      destruct (Pv _ _ _ Hd) as [[b' e'] [Hd' Hle]]. rewrite Hd'. simpl in Hle.
      destruct b'.
      * rewrite (Hle eq_refl) in H. eapply IH; eassumption.
      * destruct b; [|injection H as <-]; strict_fails.
    + destruct (is_str (get fi "type" VNone) "array").
      * destruct value as [| | | | l|]; try (injection H as <-; eexists; split; [reflexivity|auto]).
        destruct l as [|v0 l']; [eapply IH; eassumption|].
        destruct v0 as [| | | | |vm]; try (eapply IH; eassumption).
        destruct (truthy (get fi "items" VNone)); [|eapply IH; eassumption].
        destruct (_deep_validate (VMap vm) (get fi "items" VNone) (path ++ key ++ "[0].") false)
          as [[b e]|] eqn:Hd; try discriminate.
        destruct (Hhead _ _ _ Hd) as [[b' e'] [Hd' Hle]]. rewrite Hd'. simpl in Hle.
        destruct b'.
        -- rewrite (Hle eq_refl) in H. eapply IH; eassumption.
        -- destruct b; [|injection H as <-]; strict_fails.
      * eapply IH; eassumption.
Qed.

Lemma deep_validate_mono : forall v, mono_Q v.
Proof.
  apply val_ind'.
  - split; [intros ? ? ? H; discriminate | exact I].
  - split; [intros ? ? ? H; discriminate | exact I].
  - split; [intros ? ? ? H; discriminate | exact I].
  - split; [intros ? ? ? H; discriminate | exact I].
  - intros l Hl. split; [intros ? ? ? H; discriminate|].
    destruct l as [|x l]; [exact I|]. inversion Hl; subst. apply H1.
  - intros m Hm. split; [|exact I].
    intros schema path r H. simpl in H |- *.
    destruct schema as [| | | | |sch]; try discriminate.
    destruct (py_iter (get sch "required" (VList []))) as [reqs|]; try discriminate.
    destruct (check_required m path reqs) as [[msg|]|]; try discriminate.
    + injection H as <-. eexists; split; [reflexivity | auto].
    + eapply fields_loop_mono; eassumption.
Qed.

End ValidatorFacts.

(** C4. Strict monotonicity: for every catalog and document, if validation
    with strict mode off rejects the document, validation with strict mode
    on rejects it too. *)
Theorem strict_rejects_superset : forall catalog doc msg,
  Validator.validate_reconstruction catalog doc false = Some (false, msg) ->
  exists msg', Validator.validate_reconstruction catalog doc true = Some (false, msg').
Proof.
  intros catalog doc msg H. unfold Validator.validate_reconstruction in *.
  destruct doc as [| | | | |items]; try (injection H as <-; eexists; reflexivity).
  destruct (find _ _); [injection H as <-; eexists; reflexivity|].
  destruct (Validator.catalog_get catalog _) as [schema|]; [|discriminate].
  destruct (negb (truthy schema)); [discriminate|].
  destruct (proj1 (ValidatorFacts.deep_validate_mono (VMap items)) _ _ _ H) as [[b m'] [H' Hle]].
  simpl in Hle. destruct b; [discriminate (Hle eq_refl)|]. exists m'. exact H'.
Qed.

Lemma strict_rejects_superset_witness :
  exists msg', Validator.validate_reconstruction ValidatorFacts.catalog
                 (VMap [("apiVersion", VStr "v1"); ("kind", VStr "Pod")]) true
               = Some (false, msg').
Proof.
  eapply (strict_rejects_superset ValidatorFacts.catalog
            (VMap [("apiVersion", VStr "v1"); ("kind", VStr "Pod")])).
  reflexivity.
Defined.

Module ArrayHeads.
Import Validator.

Definition eq_P (v : val) : Prop :=
  forall v2 schema path strict, same_heads v v2 ->
  _deep_validate v schema path strict = _deep_validate v2 schema path strict.

Definition eq_Q (v : val) : Prop :=
  eq_P v /\ match v with VList (x :: _) => eq_P x | _ => True end.

Definition entry_rel (a b : string * val) : Prop := fst a = fst b /\ same_heads (snd a) (snd b).

Lemma mem_rel : forall k m1 m2, Forall2 entry_rel m1 m2 -> mem k m1 = mem k m2.
Proof.
  intros k m1 m2 H. induction H as [|[k1 v1] [k2 v2] r1 r2 [Hk _] _ IH]; simpl in *;
    [reflexivity | subst; rewrite IH; reflexivity].
Qed.

Lemma get_rel : forall k m1 m2, Forall2 entry_rel m1 m2 ->
  same_heads (get m1 k VNone) (get m2 k VNone).
Proof.
  intros k m1 m2 H. induction H as [|[k1 v1] [k2 v2] r1 r2 [Hk Hv] _ IH]; simpl in *.
  - constructor.
  - subst. destruct (String.eqb k k2); assumption.
Qed.

Lemma check_required_rel : forall m1 m2 path reqs, Forall2 entry_rel m1 m2 ->
  check_required m1 path reqs = check_required m2 path reqs.
Proof.
  intros m1 m2 path reqs H. induction reqs as [|r rs IH]; simpl; [reflexivity|].
  destruct r; try reflexivity. rewrite (mem_rel _ _ _ H), IH. reflexivity.
Qed.

Lemma fields_loop_rel : forall m1 m2, Forall2 entry_rel m1 m2 ->
  Forall (fun kv => eq_Q (snd kv)) m1 ->
  forall sf path strict,
  fields_loop _deep_validate sf path strict m1 = fields_loop _deep_validate sf path strict m2.
Proof.
  intros m1 m2 H. induction H as [|[k1 v1] [k2 v2] r1 r2 [Hk Hv] _ IH];
    intros Hall sf path strict; [reflexivity|].
  simpl in Hk, Hv. subst k2. inversion Hall as [|? ? [Pv Hhead] Hrest]; subst.
  simpl in Pv, Hhead. simpl.
  destruct sf as [| | | | |sf]; try reflexivity.
  destruct (negb (truthy (get sf k1 VNone))); [destruct strict; [reflexivity|apply IH; assumption]|].
  destruct (get sf k1 VNone) as [| | | | |fi]; try reflexivity.
  destruct (is_str (get fi "type" VNone) "object").
  - inversion Hv; subst; try reflexivity.
    rewrite (Pv _ (VMap fi) (path ++ k1 ++ ".") strict Hv), (IH Hrest). reflexivity.
  - destruct (is_str (get fi "type" VNone) "array"); [|apply IH; assumption].
    inversion Hv as [| | | | |x y xs ys Hxy| ]; subst; try reflexivity; try (apply IH; assumption).
    inversion Hxy; subst; try (apply IH; assumption).
    destruct (truthy (get fi "items" VNone)); [|apply IH; assumption].
    rewrite (Hhead _ _ (path ++ k1 ++ "[0].") strict Hxy), (IH Hrest). reflexivity.
Qed.

Lemma deep_validate_heads : forall v, eq_Q v.
Proof.
  apply val_ind'.
  1-4: intros; split; [intros v2 ? ? ? Hv2; inversion Hv2; reflexivity | exact I].
  - intros l Hl. split.
    + intros v2 ? ? ? H. inversion H; reflexivity.
    + destruct l as [|x l]; [exact I|]. inversion Hl; subst. apply H1.
  - intros m Hm. split; [|exact I].
    intros v2 schema path strict H. inversion H as [| | | | | |m1 m2 H2]; subst. simpl.
    destruct schema as [| | | | |sch]; try reflexivity.
    destruct (py_iter (get sch "required" (VList []))) as [reqs|]; try reflexivity.
    rewrite (check_required_rel _ _ path reqs H2).
    destruct (check_required m2 path reqs) as [[msg|]|]; try reflexivity.
    apply fields_loop_rel; assumption.
Qed.

Lemma validate_heads : forall catalog d1 d2 strict, same_heads d1 d2 ->
  validate_reconstruction catalog d1 strict = validate_reconstruction catalog d2 strict.
Proof.
  intros catalog d1 d2 strict H. unfold validate_reconstruction.
  inversion H as [| | | | | |m1 m2 H2]; subst; try reflexivity.
  assert (Hf : find (fun f => negb (mem f m1)) required_fields
             = find (fun f => negb (mem f m2)) required_fields)
    by (simpl; rewrite !(mem_rel _ _ _ H2); reflexivity).
  rewrite Hf. destruct (find (fun f => negb (mem f m2)) required_fields); [reflexivity|].
  pose proof (get_rel "kind" _ _ H2) as Hk. revert Hk.
  generalize (get m1 "kind" VNone) (get m2 "kind" VNone). intros k1 k2 Hk.
  inversion Hk; subst; simpl; try reflexivity;
    (destruct (negb _); [reflexivity|]);
    exact (proj1 (deep_validate_heads (VMap m1)) (VMap m2) _ "" strict H).
Qed.

(** A Pod whose second container lacks the required [name] and has a
    string where a map belongs, next to one whose containers conform. *)
Definition pod_containers (cs : list val) : val :=
  ValidatorFacts.pod_with [("spec", VMap [("containers", VList cs)])].

Definition good_container : val := VMap [("name", VStr "web"); ("image", VStr "nginx")].
Definition bad_container : val := VMap [("image", VStr "nginx"); ("typo", VBool true)].

End ArrayHeads.

(** C10. Array items are only inspected at index 0: if a document is accepted,
    then so is every document that differs from it only in list elements at
    index 1 or later (at any depth), whatever those elements are. *)
Theorem only_first_array_item_checked : forall catalog d1 d2 strict msg,
  same_heads d1 d2 ->
  Validator.validate_reconstruction catalog d2 strict = Some (true, msg) ->
  Validator.validate_reconstruction catalog d1 strict = Some (true, msg).
Proof.
  intros catalog d1 d2 strict msg H H2.
  rewrite (ArrayHeads.validate_heads catalog d1 d2 strict H). exact H2.
Qed.

Lemma only_first_array_item_checked_witness :
  Validator.validate_reconstruction ValidatorFacts.catalog
    (ArrayHeads.pod_containers [ArrayHeads.good_container; ArrayHeads.bad_container; VStr "junk"]) true
  = Some (true, Validator.ok_msg).
Proof.
  apply (only_first_array_item_checked ValidatorFacts.catalog _
           (ArrayHeads.pod_containers [ArrayHeads.good_container]) true).
  - repeat (constructor; simpl; auto).
  - vm_compute. reflexivity.
Defined.

Module UnknownFields.
Import Validator.

(** What a strict pass over the entries guarantees for each entry. *)
Lemma fields_loop_strict_ok : forall items sf path m,
  fields_loop _deep_validate (VMap sf) path true items = Some (true, m) ->
  forall key v, In (key, v) items ->
  truthy (get sf key VNone) = true /\
  (forall fi, get sf key VNone = VMap fi ->
     (is_str (get fi "type" VNone) "object" = true ->
        exists m', _deep_validate v (VMap fi) (path ++ key ++ ".") true = Some (true, m')) /\
     (is_str (get fi "type" VNone) "object" = false ->
      is_str (get fi "type" VNone) "array" = true ->
      truthy (get fi "items" VNone) = true ->
      forall v0 vs, v = VList (v0 :: vs) ->
        match v0 with
        | VMap _ => exists m', _deep_validate v0 (get fi "items" VNone) (path ++ key ++ "[0].") true = Some (true, m')
        | _ => True
        end)).
Proof.
  induction items as [|[k1 v1] rest IH]; intros sf path m H key v Hin; [destruct Hin|].
  simpl in H.
  destruct (truthy (get sf k1 VNone)) eqn:Ht; simpl in H; [|discriminate].
  destruct (get sf k1 VNone) as [| | | | |fi1] eqn:Hfi; try discriminate.
  assert (Hrest : forall r, fields_loop _deep_validate (VMap sf) path true rest = Some r ->
                   fst r = true -> forall key v, In (key, v) rest -> _)
    by (intros [b r] Hr Hb; simpl in Hb; subst b; eapply IH; exact Hr).
  destruct (is_str (get fi1 "type" VNone) "object") eqn:Hobj.
  - destruct v1 as [| | | | |vm]; try discriminate.
    destruct (_deep_validate (VMap vm) (VMap fi1) (path ++ k1 ++ ".") true) as [[[|] e]|] eqn:Hd;
      try discriminate.
    destruct Hin as [Heq|Hin].
    + injection Heq as <- <-. rewrite Hfi. split; [exact Ht|].
      intros fi Hfi'. injection Hfi' as <-. split.
      * intros _. exists e. exact Hd.
      * intros Hno. rewrite Hobj in Hno. discriminate.
    + exact (Hrest (true, m) H eq_refl key v Hin).
  - destruct (is_str (get fi1 "type" VNone) "array") eqn:Harr.
    + destruct v1 as [| | | | l|]; try discriminate.
      assert (Hhead : forall v0 vs, l = v0 :: vs -> truthy (get fi1 "items" VNone) = true ->
                match v0 with
                | VMap _ => exists m', _deep_validate v0 (get fi1 "items" VNone) (path ++ k1 ++ "[0].") true = Some (true, m')
                | _ => True
                end /\ fields_loop _deep_validate (VMap sf) path true rest = Some (true, m)).
      { intros v0 vs -> Hit. rewrite Hit in H.
        destruct v0 as [| | | | |vm]; try (split; [exact I | exact H]).
        destruct (_deep_validate (VMap vm) (get fi1 "items" VNone) (path ++ k1 ++ "[0].") true)
          as [[[|] e]|] eqn:Hd; try discriminate.
        split; [exists e; reflexivity | exact H]. }
      assert (Hr : fields_loop _deep_validate (VMap sf) path true rest = Some (true, m)).
      { destruct l as [|v0 vs]; [exact H|].
        destruct (truthy (get fi1 "items" VNone)) eqn:Hit.
        - exact (proj2 (Hhead v0 vs eq_refl ltac:(first [exact Hit | reflexivity]))).
        - destruct v0; exact H. }
      destruct Hin as [Heq|Hin].
      * injection Heq as <- <-. rewrite Hfi. split; [exact Ht|].
        intros fi Hfi'. injection Hfi' as <-. split.
        -- intros Hy. rewrite Hobj in Hy. discriminate.
        -- intros _ _ Hit v0 vs Hl. injection Hl as ->.
           exact (proj1 (Hhead v0 vs eq_refl Hit)).
      * exact (Hrest (true, m) Hr eq_refl key v Hin).
    + destruct Hin as [Heq|Hin].
      * injection Heq as <- <-. rewrite Hfi. split; [exact Ht|].
        intros fi Hfi'. injection Hfi' as <-. split.
        -- intros Hy. rewrite Hobj in Hy. discriminate.
        -- intros _ Hy. rewrite Harr in Hy. discriminate.
      * exact (Hrest (true, m) H eq_refl key v Hin).
Qed.

Lemma strict_finds_unknown : forall sch doc, reaches_unknown sch doc ->
  forall path m, _deep_validate doc sch path true <> Some (true, m).
Proof.
  intros sch doc Hr. induction Hr; intros path m Hd; simpl in Hd;
    (destruct (py_iter (get s "required" (VList []))) as [reqs|]; [|discriminate]);
    (destruct (check_required items path reqs) as [[msg|]|]; try discriminate);
    rewrite H in Hd;
    pose proof (fields_loop_strict_ok _ _ _ _ Hd) as Hall.
  - destruct (Hall key v H0) as [Ht _]. rewrite H1 in Ht. discriminate.
  - destruct (Hall key v H0) as [_ Hsub]. destruct (Hsub fi H1) as [Hobj _].
    destruct (Hobj H3) as [m' Hm']. exact (IHHr _ _ Hm').
  - destruct (Hall key _ H0) as [_ Hsub]. destruct (Hsub fi H1) as [_ Harr].
    pose proof (Harr H3 H4 H5 v0 vs eq_refl) as Hh.
    inversion Hr; subst; destruct Hh as [m' Hm']; exact (IHHr _ _ Hm').
Qed.

(** In lenient mode the value under a key unknown to the level's schema is
    never looked at. *)
Lemma fields_loop_lenient_skip : forall pre sf path key v v' post,
  truthy (get sf key VNone) = false ->
  fields_loop _deep_validate (VMap sf) path false (pre ++ (key, v) :: post)
  = fields_loop _deep_validate (VMap sf) path false (pre ++ (key, v') :: post).
Proof.
  induction pre as [|[k1 v1] pre IH]; intros sf path key v v' post Hk; simpl.
  - rewrite Hk. reflexivity.
  - destruct (truthy (get sf k1 VNone)); simpl; [|apply IH; exact Hk].
    destruct (get sf k1 VNone) as [| | | | |fi]; try reflexivity.
    destruct (is_str (get fi "type" VNone) "object").
    + destruct v1; try reflexivity.
      destruct (_deep_validate _ _ _ false) as [[[|] e]|]; try reflexivity. apply IH; exact Hk.
    + destruct (is_str (get fi "type" VNone) "array"); [|apply IH; exact Hk].
      destruct v1 as [| | | | l|]; try reflexivity.
      destruct l as [|v0 l]; [apply IH; exact Hk|].
      destruct v0; try (apply IH; exact Hk).
      destruct (truthy (get fi "items" VNone)); [|apply IH; exact Hk].
      destruct (_deep_validate _ _ _ false) as [[[|] e]|]; try reflexivity. apply IH; exact Hk.
Qed.

Lemma check_required_value : forall pre post key v v' path reqs,
  check_required (pre ++ (key, v) :: post) path reqs
  = check_required (pre ++ (key, v') :: post) path reqs.
Proof.
  intros pre post key v v' path reqs.
  assert (Hm : forall k, mem k (pre ++ (key, v) :: post) = mem k (pre ++ (key, v') :: post))
    by (intro k; induction pre as [|[k1 v1] pre IH]; simpl; [reflexivity | rewrite IH; reflexivity]).
  induction reqs as [|r rs IH]; simpl; [reflexivity|].
  destruct r; try reflexivity. rewrite Hm, IH. reflexivity.
Qed.

(** The value under a known field whose type is neither [object] nor
    [array] is never looked at, in either mode. *)
Lemma fields_loop_other_skip : forall pre sf fi path strict key v v' post,
  get sf key VNone = VMap fi -> truthy (VMap fi) = true ->
  is_str (get fi "type" VNone) "object" = false ->
  is_str (get fi "type" VNone) "array" = false ->
  fields_loop _deep_validate (VMap sf) path strict (pre ++ (key, v) :: post)
  = fields_loop _deep_validate (VMap sf) path strict (pre ++ (key, v') :: post).
Proof.
  induction pre as [|[k1 v1] pre IH]; intros sf fi path strict key v v' post Hk Ht Ho Ha; simpl.
  - rewrite Hk, Ht. cbn [negb]. rewrite Ho, Ha. reflexivity.
  - destruct (truthy (get sf k1 VNone)); simpl;
      [|destruct strict; [reflexivity | eapply IH; eassumption]].
    destruct (get sf k1 VNone) as [| | | | |fi1]; try reflexivity.
    destruct (is_str (get fi1 "type" VNone) "object").
    + destruct v1; try reflexivity.
      destruct (_deep_validate _ _ _ strict) as [[[|] e]|]; try reflexivity. eapply IH; eassumption.
    + destruct (is_str (get fi1 "type" VNone) "array"); [|eapply IH; eassumption].
      destruct v1 as [| | | | l|]; try reflexivity.
      destruct l as [|v0 l]; [eapply IH; eassumption|].
      destruct v0; try (eapply IH; eassumption).
      destruct (truthy (get fi1 "items" VNone)); [|eapply IH; eassumption].
      destruct (_deep_validate _ _ _ strict) as [[[|] e]|]; try reflexivity. eapply IH; eassumption.
Qed.

Definition pod_bad_second : val :=
  ArrayHeads.pod_containers [ArrayHeads.good_container; ArrayHeads.bad_container].

End UnknownFields.

(** C5 (counterexample). With strict mode on, a Pod whose second container
    carries the unknown field [typo] is accepted: strict mode does not fail
    on unknown fields at every nesting level. *)
Lemma strict_misses_unknown_in_later_item :
  Validator.validate_reconstruction ValidatorFacts.catalog UnknownFields.pod_bad_second true
  = Some (true, Validator.ok_msg).
Proof. vm_compute. reflexivity. Qed.

(** C5 (amended).  With strict mode off, the value under a key that has no
    truthy entry in its level's [fields] never changes the result of that
    level's check (the field is skipped silently).  With strict mode on, a
    document whose Kind has a non-empty catalog schema that reaches an
    unknown field (at the top level, below [object]-typed fields, or below
    the first element of [array]-typed fields with an item schema) is never
    accepted.  Strict mode does not look anywhere else: two documents that
    differ only in array elements at index 1 or later get the same verdict,
    and the value under a known field of any other type is never looked
    at, in either mode. *)
Theorem unknown_field_policy :
  (forall sf path key v v' pre post,
     truthy (get sf key VNone) = false ->
     forall s, get s "fields" (VMap []) = VMap sf ->
     Validator._deep_validate (VMap (pre ++ (key, v) :: post)) (VMap s) path false
     = Validator._deep_validate (VMap (pre ++ (key, v') :: post)) (VMap s) path false) /\
  (forall catalog items schema m,
     Validator.catalog_get catalog (get items "kind" VNone) = Some schema ->
     truthy schema = true ->
     Validator.reaches_unknown schema (VMap items) ->
     Validator.validate_reconstruction catalog (VMap items) true <> Some (true, m)) /\
  (forall catalog d1 d2 strict, same_heads d1 d2 ->
     Validator.validate_reconstruction catalog d1 strict
     = Validator.validate_reconstruction catalog d2 strict) /\
  (forall s sf fi path strict key v v' pre post,
     get s "fields" (VMap []) = VMap sf ->
     get sf key VNone = VMap fi -> truthy (VMap fi) = true ->
     is_str (get fi "type" VNone) "object" = false ->
     is_str (get fi "type" VNone) "array" = false ->
     Validator._deep_validate (VMap (pre ++ (key, v) :: post)) (VMap s) path strict
     = Validator._deep_validate (VMap (pre ++ (key, v') :: post)) (VMap s) path strict).
Proof.
  split; [|split; [|split]].
  - intros sf path key v v' pre post Hk s Hs. simpl.
    destruct (py_iter (get s "required" (VList []))) as [reqs|]; [|reflexivity].
    rewrite (UnknownFields.check_required_value pre post key v v' path reqs).
    destruct (Validator.check_required _ _ _) as [[msg|]|]; try reflexivity.
    rewrite Hs. apply UnknownFields.fields_loop_lenient_skip. exact Hk.
  - intros catalog items schema m Hcat Hts Hr Hv. unfold Validator.validate_reconstruction in Hv.
    destruct (find _ _); [discriminate|]. rewrite Hcat in Hv.
    rewrite Hts in Hv. simpl in Hv.
    exact (UnknownFields.strict_finds_unknown _ _ Hr "" m Hv).
  - intros catalog d1 d2 strict H. apply ArrayHeads.validate_heads, H.
  - intros s sf fi path strict key v v' pre post Hs Hk Ht Ho Ha. simpl.
    destruct (py_iter (get s "required" (VList []))) as [reqs|]; [|reflexivity].
    rewrite (UnknownFields.check_required_value pre post key v v' path reqs).
    destruct (Validator.check_required _ _ _) as [[msg|]|]; try reflexivity.
    rewrite Hs. eapply UnknownFields.fields_loop_other_skip; eassumption.
Qed.

Lemma unknown_field_policy_witness :
  (Validator._deep_validate (ValidatorFacts.pod_with [("typo", VBool true)]) ValidatorFacts.pod_schema "" false
   = Validator._deep_validate (ValidatorFacts.pod_with [("typo", VInt 7)]) ValidatorFacts.pod_schema "" false) /\
  (Validator.validate_reconstruction ValidatorFacts.catalog (ValidatorFacts.pod_with [("typo", VBool true)]) true
   <> Some (true, Validator.ok_msg)) /\
  (Validator.validate_reconstruction ValidatorFacts.catalog UnknownFields.pod_bad_second true
   = Validator.validate_reconstruction ValidatorFacts.catalog
       (ArrayHeads.pod_containers [ArrayHeads.good_container]) true) /\
  (Validator._deep_validate
     (ValidatorFacts.pod_with [("spec", VMap [])]) ValidatorFacts.pod_schema "" true
   = Validator._deep_validate
       (VMap ([("apiVersion", VMap [("typo", VBool true)]); ("kind", VStr "Pod");
               ("metadata", VMap [("name", VStr "x")])] ++ [("spec", VMap [])]))
       ValidatorFacts.pod_schema "" true).
Proof.
  split; [|split; [|split]].
  - refine (proj1 unknown_field_policy ValidatorFacts.pod_fields "" "typo" (VBool true) (VInt 7)
              [("apiVersion", VStr "v1"); ("kind", VStr "Pod"); ("metadata", VMap [("name", VStr "x")])]
              [] _ ValidatorFacts.pod_entries _); reflexivity.
  - refine (proj1 (proj2 unknown_field_policy) ValidatorFacts.catalog _ ValidatorFacts.pod_schema _ _ _ _).
    + reflexivity.
    + reflexivity.
    + eapply Validator.ru_here; [reflexivity | simpl; right; right; right; left; reflexivity | reflexivity].
  - apply (proj1 (proj2 (proj2 unknown_field_policy))).
    cbv [UnknownFields.pod_bad_second ArrayHeads.pod_containers ValidatorFacts.pod_with app].
    repeat (constructor; cbn [fst snd]; try split; try reflexivity).
  - refine (proj2 (proj2 (proj2 unknown_field_policy)) ValidatorFacts.pod_entries ValidatorFacts.pod_fields
              [("type", VStr "string")] "" true "apiVersion" (VStr "v1")
              (VMap [("typo", VBool true)]) []
              [("kind", VStr "Pod"); ("metadata", VMap [("name", VStr "x")]); ("spec", VMap [])]
              _ _ _ _ _); reflexivity.
Defined.

Module ScannerFacts.
Import Scanner.

Definition two_kinds : string := "kind: A" ++ Py.nl ++ "apiVersion: v1" ++ Py.nl ++ "kind: B".

Example scan_pod :
  get_identity (snd (scan (mkScanner None None) ("- kind: 'Pod'" ++ Py.nl ++ "apiVersion:v1"))) = (Some "Pod", Some "v1").
Proof. reflexivity. Qed.

Example scan_dash_key :
  line_match "-kind: x" = Some (0, true, "kind", "x").
Proof. reflexivity. Qed.

Example scan_colon_only :
  line_match "- : x" = Some (0, false, "-", "x").
Proof. reflexivity. Qed.

Lemma last_opt_app : forall a b,
  last_opt (a ++ b) = match last_opt b with Some x => Some x | None => last_opt a end.
Proof.
  intros a b. unfold last_opt. rewrite rev_app_distr.
  destruct (rev b); reflexivity.
Qed.

Ltac fin_id :=
  split; repeat (match goal with |- context [last_opt ?x] => destruct (last_opt x) end; simpl);
  reflexivity.

Lemma scan_lines_identity : forall lines st i,
  found_kind (snd (scan_lines st i lines))
    = match last_opt (id_values_lines "kind" lines) with Some x => Some x | None => found_kind st end /\
  found_api (snd (scan_lines st i lines))
    = match last_opt (id_values_lines "apiVersion" lines) with Some x => Some x | None => found_api st end.
Proof.
  induction lines as [|l r IH]; intros st i; [split; reflexivity|].
  unfold id_values_lines in *. simpl flat_map. rewrite !last_opt_app.
  simpl scan_lines. unfold scan_line.
  destruct (String.eqb (Py.strip l) "" || Py.startswith "#" (Py.strip l)).
  - destruct (scan_lines st (S i) r) as [sh st2] eqn:Hs. simpl.
    destruct (IH st (S i)) as [Hk Ha]. rewrite Hs in Hk, Ha. simpl in Hk, Ha.
    rewrite Hk, Ha. fin_id.
  - destruct (line_match l) as [[[[ind isl] k] v]|].
    + set (st1 := (if String.eqb k "kind" && _ then _ else st)).
      set (st2 := (if String.eqb k "apiVersion" && _ then _ else st1)).
      destruct (scan_lines st2 (S i) r) as [sh stf] eqn:Hs. simpl.
      destruct (IH st2 (S i)) as [Hk Ha]. rewrite Hs in Hk, Ha. simpl in Hk, Ha.
      rewrite Hk, Ha.
      subst st2 st1.
      destruct (String.eqb v "") eqn:Hv; simpl;
        [ rewrite !andb_false_r; simpl; fin_id |].
      destruct (String.eqb (Py.strip v) "") eqn:Hsv; simpl;
        [ rewrite !andb_false_r; simpl; fin_id |].
      rewrite !andb_true_r.
      destruct (String.eqb k "kind") eqn:Hk1; destruct (String.eqb k "apiVersion") eqn:Hk2; simpl;
        try (apply String.eqb_eq in Hk1; apply String.eqb_eq in Hk2; congruence);
        fin_id.
    + destruct (scan_lines st (S i) r) as [sh st2] eqn:Hs. simpl.
      destruct (IH st (S i)) as [Hk Ha]. rewrite Hs in Hk, Ha. simpl in Hk, Ha.
      rewrite Hk, Ha. fin_id.
Qed.

End ScannerFacts.

(** C6 (counterexample). For the text [kind: A / apiVersion: v1 / kind: B]
    the scanner reports the kind [B] of the last [kind] line, not the
    first-seen [A]. *)
Lemma scanner_reports_last_kind :
  Scanner.get_identity (snd (Scanner.scan (Scanner.mkScanner None None) ScannerFacts.two_kinds))
  = (Some "B", Some "v1").
Proof. reflexivity. Qed.

(** C6 (amended). After a scan, the scanner's identity is the cleaned value
    of the last [kind] line and of the last [apiVersion] line of the text
    that has a non-empty value (or [None] if there is none); it does not
    depend on the scanner's state before the scan. *)
Theorem scanner_identity_last_seen : forall (st : Scanner.KubeScanner) (text : string),
  Scanner.get_identity (snd (Scanner.scan st text))
  = (Scanner.last_opt (Scanner.id_values "kind" text),
     Scanner.last_opt (Scanner.id_values "apiVersion" text)).
Proof.
  intros st text. unfold Scanner.scan, Scanner.get_identity, Scanner.id_values.
  destruct (ScannerFacts.scan_lines_identity (Py.splitlines text) (Scanner.mkScanner None None) 1)
    as [Hk Ha].
  rewrite Hk, Ha. simpl.
  destruct (Scanner.last_opt _), (Scanner.last_opt _); reflexivity.
Qed.

Module LexerFacts.
Import Lexer.

Definition fresh : KubeLexer := mkLexer false 0.

Example repair_kind : fst (repair_line fresh "kind:Pod") = (0, "kind: Pod", None).
Proof. reflexivity. Qed.

Example repair_url : fst (repair_line fresh "  url: https://x.io") = (2, "url: https://x.io", None).
Proof. reflexivity. Qed.

Example repair_comment : fst (repair_line fresh "-name:web # c") = (0, "- name: web ", Some "c").
Proof. reflexivity. Qed.

Lemma colon_sub_insert : forall s,
  (forall prev, colon_sub_aux prev s = insert_colon_spaces prev s) /\
  (forall prev c, colon_sub_aux prev (String c s) = insert_colon_spaces prev (String c s)).
Proof.
  induction s as [|d r [IH1 IH2]].
  - split; [reflexivity|]. intros prev c. simpl. rewrite !andb_false_r. reflexivity.
  - split; [exact (fun prev => IH2 prev d)|].
    intros prev c. change (colon_sub_aux prev (String c (String d r)))
      with (if Ascii.eqb c ":" && Py.is_alpha d && negb (behind_http prev)
            then String ":" (String " " (String d (colon_sub_aux (String d (String c prev)) r)))
            else String c (colon_sub_aux (String c prev) (String d r))).
    simpl insert_colon_spaces.
    destruct (Ascii.eqb c ":" && Py.is_alpha d && negb (behind_http prev)) eqn:Hm.
    + apply andb_true_iff in Hm as [Hm _]. apply andb_true_iff in Hm as [Hc Hd].
      apply Ascii.eqb_eq in Hc. subst c.
      assert (Hd' : Ascii.eqb d ":" = false)
        by (destruct (Ascii.eqb d ":") eqn:E; [apply Ascii.eqb_eq in E; subst d; discriminate Hd | reflexivity]).
      rewrite Hd'. simpl. rewrite IH1. reflexivity.
    + rewrite IH2. reflexivity.
Qed.

Definition no_fix_line : string := "name:web image:nginx".

End LexerFacts.

(** C8 (counterexample).  Outside a block, the line [name:web image:nginx]
    keeps [name:web] unrepaired (the image tag exempts the whole line), and
    [replicas:3] is not repaired either (a digit follows the colon). *)
Lemma colon_repair_counterexample :
  fst (Lexer.repair_line LexerFacts.fresh LexerFacts.no_fix_line) = (0, "name:web image:nginx", None) /\
  fst (Lexer.repair_line LexerFacts.fresh "replicas:3") = (0, "replicas:3", None).
Proof. split; reflexivity. Qed.

(** C8 (amended).  Outside block-scalar state, for a non-blank line the
    repaired code is the code part (comment removed, left-stripped, dash
    fixed) unchanged when it contains [image] followed by colons or
    whitespace and then an ASCII letter, digit or [/] anywhere; otherwise it
    is that code part with one space inserted after every [:] that is
    directly followed by an ASCII letter and not preceded by [http] or
    [https]. *)
Theorem colon_repair_policy : forall st line ind code com st',
  Lexer.in_block st = false ->
  Py.lstrip (Py.rstrip (Py.expand_tabs line)) <> "" ->
  Lexer.repair_line st line = ((ind, code, com), st') ->
  let c0 := Lexer.dash_fix (Py.lstrip (Lexer.code_part_of (Py.rstrip (Py.expand_tabs line)))) in
  code = if Lexer.image_search c0 then c0 else Lexer.insert_colon_spaces "" c0.
Proof.
  intros st line ind code com st' Hb Hne Hr c0.
  unfold Lexer.repair_line in Hr. rewrite Hb in Hr.
  apply String.eqb_neq in Hne. rewrite Hne in Hr.
  injection Hr as _ Hcode _ _. rewrite <- Hcode. fold c0.
  destruct (Lexer.image_search c0); simpl; [reflexivity|].
  apply (proj1 (LexerFacts.colon_sub_insert c0)).
Qed.

Lemma colon_repair_policy_witness :
  let c0 := Lexer.dash_fix (Py.lstrip (Lexer.code_part_of (Py.rstrip (Py.expand_tabs "kind:Pod")))) in
  "kind: Pod" = if Lexer.image_search c0 then c0 else Lexer.insert_colon_spaces "" c0.
Proof.
  exact (colon_repair_policy LexerFacts.fresh "kind:Pod" 0 "kind: Pod" None
           (snd (Lexer.repair_line LexerFacts.fresh "kind:Pod")) eq_refl
           ltac:(discriminate) eq_refl).
Defined.

(* ------------------------------------------------------------------ *)
(** ** The indentation snap is grid based *)

Module SnapFacts.

Import Structurer.

Definition indent_of (line : string) : nat :=
  String.length line - String.length (Py.lstrip line).

(** Lines the snap passes through: blank, comment and protected lines. *)
Definition snap_skip (line : string) : bool :=
  (String.eqb (Py.lstrip line) "" || Py.startswith "#" (Py.lstrip line))
  || _is_protected_structure line.

Definition is_item (line : string) : bool := Py.startswith "- " (Py.lstrip line).

(** What the snap makes of line [i] of [lines], in the output [out]: a
    skipped line is kept; any other line keeps its content after its
    leading whitespace, under an even indent [k]; a line that is not a list
    item gets its indent rounded to the grid; a list item gets that rounded
    indent, or two past the output indent of an earlier list item, and the
    latter only when it was originally deeper than that indent and rounds
    no deeper. *)
Definition snap_spec (lines out : list string) (i : nat) (line : string) : Prop :=
  if snap_skip line then nth_error out i = Some line
  else exists k, nth_error out i = Some (Py.spaces k ++ Py.lstrip line) /\ Nat.even k = true /\
    (is_item line = false -> k = grid_round (indent_of line)) /\
    (is_item line = true -> k = grid_round (indent_of line) \/
       exists j lj, j < i /\ nth_error lines j = Some lj /\ snap_skip lj = false /\
         is_item lj = true /\ nth_error out j = Some (Py.spaces (k - 2) ++ Py.lstrip lj) /\
         2 <= k /\ k - 2 < indent_of line /\ grid_round (indent_of line) <= k - 2).

(** The same for one step, with the lines already done as [pre_in] and
    their outputs as [pre_out]. *)
Definition line_spec (pre_in pre_out : list string) (l l' : string) : Prop :=
  if snap_skip l then l' = l
  else exists k, l' = Py.spaces k ++ Py.lstrip l /\ Nat.even k = true /\
    (is_item l = false -> k = grid_round (indent_of l)) /\
    (is_item l = true -> k = grid_round (indent_of l) \/
       exists j lj, j < length pre_in /\ nth_error pre_in j = Some lj /\ snap_skip lj = false /\
         is_item lj = true /\ nth_error pre_out j = Some (Py.spaces (k - 2) ++ Py.lstrip lj) /\
         2 <= k /\ k - 2 < indent_of l /\ grid_round (indent_of l) <= k - 2).

(** [last_dash_indent] is -1 or the output indent of an earlier list item. *)
Definition anchor (pre_in pre_out : list string) (last : Z) : Prop :=
  last = (-1)%Z \/
  exists j lj k', nth_error pre_in j = Some lj /\ snap_skip lj = false /\ is_item lj = true /\
    nth_error pre_out j = Some (Py.spaces k' ++ Py.lstrip lj) /\ last = Z.of_nat k' /\
    Nat.even k' = true.

Lemma grid_round_even : forall n, Nat.even (grid_round n) = true.
Proof.
  intros n. unfold grid_round.
  destruct (Nat.even n) eqn:E; [exact E|].
  destruct (Nat.even (n / 2)); rewrite ?Nat.even_add, Nat.even_mul; reflexivity.
Qed.

Lemma anchor_ext : forall pre_in pre_out last a b,
  length pre_in = length pre_out -> anchor pre_in pre_out last ->
  anchor (pre_in ++ [a]) (pre_out ++ [b]) last.
Proof.
  intros pre_in pre_out last a b Hlen [H | [j [lj [k' [H1 [H2 [H3 [H4 [H5 H6]]]]]]]]];
    [left; exact H | right].
  assert (Hj : j < length pre_in) by (apply nth_error_Some; congruence).
  exists j, lj, k'. rewrite !nth_error_app1 by lia. auto 10.
Qed.

Lemma nth_error_snoc : forall (l : list string) x, nth_error (l ++ [x]) (length l) = Some x.
Proof. intros l x. rewrite nth_error_app2, Nat.sub_diag by lia. reflexivity. Qed.

Lemma snap_line_spec : forall pre_in pre_out last l l' last',
  length pre_in = length pre_out -> anchor pre_in pre_out last ->
  snap_line last l = (l', last') ->
  line_spec pre_in pre_out l l' /\ anchor (pre_in ++ [l]) (pre_out ++ [l']) last'.
Proof.
  intros pre_in pre_out last l l' last' Hlen Ha Hs.
  unfold snap_line in Hs. cbv zeta in Hs.
  unfold line_spec.
  assert (Hskip : forall b1 b2, (String.eqb (Py.lstrip l) "" || Py.startswith "#" (Py.lstrip l)) = b1 ->
            _is_protected_structure l = b2 -> snap_skip l = (b1 || b2))
    by (intros b1 b2 <- <-; reflexivity).
  destruct (String.eqb (Py.lstrip l) "" || Py.startswith "#" (Py.lstrip l)) eqn:E1.
  - injection Hs as <- <-. rewrite (Hskip true (_is_protected_structure l) eq_refl eq_refl).
    split; [reflexivity | apply anchor_ext; assumption].
  - destruct (_is_protected_structure l) eqn:E2.
    + injection Hs as <- <-. rewrite (Hskip false true eq_refl eq_refl).
      split; [reflexivity | left; reflexivity].
    + rewrite (Hskip false false eq_refl eq_refl).
      assert (Hsk : snap_skip l = false) by apply (Hskip false false eq_refl eq_refl).
      unfold is_item, indent_of.
      set (c := String.length l - String.length (Py.lstrip l)) in *.
      destruct (Py.startswith "- " (Py.lstrip l)) eqn:E3.
      * destruct (negb (last =? -1)%Z && (last <? Z.of_nat c)%Z &&
                  (Z.of_nat (grid_round c) <=? last)%Z) eqn:E4.
        -- injection Hs as <- <-.
           apply andb_true_iff in E4 as [E4 E6]. apply andb_true_iff in E4 as [E4 E5].
           apply Z.leb_le in E6. apply Z.ltb_lt in E5. apply negb_true_iff, Z.eqb_neq in E4.
           destruct Ha as [Hm1 | [j [lj [k' [H1 [H2 [H3 [H4 [H5 H6]]]]]]]]]; [contradiction|].
           subst last.
           assert (Hk : Z.to_nat (Z.of_nat k' + 2) = k' + 2) by lia.
           rewrite Hk.
           assert (Hj : j < length pre_in) by (apply nth_error_Some; congruence).
           split.
           ++ exists (k' + 2). split; [reflexivity|].
              split; [rewrite Nat.even_add; rewrite H6; reflexivity|].
              split; [discriminate|]. intros _. right.
              exists j, lj. replace (k' + 2 - 2) with k' by lia.
              repeat split; auto; lia.
           ++ right. exists (length pre_in), l, (k' + 2).
              split; [apply nth_error_snoc|]. split; [exact Hsk|]. split; [exact E3|].
              split; [rewrite Hlen; apply nth_error_snoc|].
              split; [reflexivity|]. rewrite Nat.even_add, H6. reflexivity.
        -- injection Hs as <- <-. split.
           ++ exists (grid_round c). split; [reflexivity|].
              split; [apply grid_round_even|]. split; [discriminate|]. intros _. left. reflexivity.
           ++ right. exists (length pre_in), l, (grid_round c).
              split; [apply nth_error_snoc|]. split; [exact Hsk|]. split; [exact E3|].
              split; [rewrite Hlen; apply nth_error_snoc|].
              split; [reflexivity | apply grid_round_even].
      * injection Hs as <- <-. split.
        -- exists (grid_round c). split; [reflexivity|].
           split; [apply grid_round_even|]. split; [reflexivity | discriminate].
        -- destruct (Z.of_nat (grid_round c) <? last)%Z;
             [left; reflexivity | apply anchor_ext; assumption].
Qed.

Lemma snap_lines_spec : forall lines pre_in pre_out last,
  length pre_in = length pre_out -> anchor pre_in pre_out last ->
  forall i line, nth_error lines i = Some line ->
  snap_spec (pre_in ++ lines) (pre_out ++ snap_lines last lines) (length pre_in + i) line.
Proof.
  induction lines as [|l r IH]; intros pre_in pre_out last Hlen Ha i line Hi;
    [destruct i; discriminate|].
  cbn [snap_lines]. destruct (snap_line last l) as [l' last'] eqn:Es.
  destruct (snap_line_spec pre_in pre_out last l l' last' Hlen Ha Es) as [Hl Ha'].
  destruct i as [|i].
  - cbn in Hi. injection Hi as <-.
    assert (Ho : nth_error (app pre_out (l' :: snap_lines last' r)) (length pre_in + 0) = Some l')
      by (rewrite Nat.add_0_r, Hlen, nth_error_app2, Nat.sub_diag by lia; reflexivity).
    unfold snap_spec, line_spec in *. rewrite Ho.
    destruct (snap_skip l).
    + subst l'. reflexivity.
    + destruct Hl as [k [Hk [Hev [Hn Hy]]]]. exists k. subst l'.
      split; [reflexivity|]. split; [exact Hev|]. split; [exact Hn|].
      intros Hit. destruct (Hy Hit) as [Hg | [j [lj [Hj [H1 [H2 [H3 [H4 H5]]]]]]]]; [left; exact Hg|].
      right. exists j, lj. split; [lia|].
      rewrite nth_error_app1 by lia. split; [exact H1|]. split; [exact H2|]. split; [exact H3|].
      rewrite nth_error_app1 by lia. split; [exact H4 | exact H5].
  - cbn in Hi.
    replace (app pre_in (l :: r)) with (app (app pre_in [l]) r)
      by (rewrite <- app_assoc; reflexivity).
    replace (app pre_out (l' :: snap_lines last' r)) with (app (app pre_out [l']) (snap_lines last' r))
      by (rewrite <- app_assoc; reflexivity).
    replace (length pre_in + S i) with (length (app pre_in [l]) + i)
      by (rewrite length_app; cbn; lia).
    apply IH; [rewrite !length_app, Hlen; reflexivity | exact Ha' | exact Hi].
Qed.

Lemma snap_lines_length : forall lines last, length (snap_lines last lines) = length lines.
Proof.
  induction lines as [|l r IH]; intros last; [reflexivity|].
  cbn [snap_lines]. destruct (snap_line last l) as [l' last']. cbn. rewrite IH. reflexivity.
Qed.

End SnapFacts.

(** C3, counterexample: in "a:" followed by " b: 1" the second line is a
    child of the first by magnitude (indent 1 > 0), but the snap rounds 1
    to 0 (half to even) and the two keys come out as siblings. *)
Lemma snap_flattens_odd_child :
  Structurer._apply_magnetic_snap ("a:" ++ Py.nl ++ " b: 1") = "a:" ++ Py.nl ++ "b: 1".
Proof. vm_compute. reflexivity. Qed.

(** C3 (amended): the structurer's snap is grid based and works line by
    line, one output line per input line.  Blank, comment and protected
    lines are kept as they are.  Every other line keeps its content after
    its leading whitespace and gets an even indent: the indent rounded to a
    multiple of 2 (half to even) for a line that is not a list item; for a
    list item, that rounded indent, or exactly two past the output indent
    of an earlier list item, the latter only when the item was originally
    deeper than that output indent and its rounded indent is no deeper. *)
Theorem magnetic_snap_grid : forall lines,
  length (Structurer.snap_lines (-1)%Z lines) = length lines /\
  forall i line, nth_error lines i = Some line ->
    SnapFacts.snap_spec lines (Structurer.snap_lines (-1)%Z lines) i line.
Proof.
  intros lines. split; [apply SnapFacts.snap_lines_length|].
  intros i line Hi.
  exact (SnapFacts.snap_lines_spec lines [] [] (-1)%Z eq_refl (or_introl eq_refl) i line Hi).
Qed.

(** A list item at indent 5 under one at indent 4 rounds to 4 and is pushed
    to 6. *)
Lemma magnetic_snap_grid_witness :
  nth_error ["    - a"; "     - b"] 1 = Some "     - b" /\
  SnapFacts.snap_spec ["    - a"; "     - b"] (Structurer.snap_lines (-1)%Z ["    - a"; "     - b"])
    1 "     - b" /\
  Structurer.snap_lines (-1)%Z ["    - a"; "     - b"] = ["    - a"; "      - b"].
Proof.
  split; [reflexivity|]. split; [|vm_compute; reflexivity].
  apply (proj2 (magnetic_snap_grid ["    - a"; "     - b"]) 1 "     - b"). reflexivity.
Defined.

(* ------------------------------------------------------------------ *)
(** ** Resource-limit injection *)

Module ShieldFacts.

Import Shield.

(** A Deployment that already has its namespace, with the given value at
    [spec.template.spec.containers]. *)
Definition deployment_with (containers : val) : val :=
  VMap [("apiVersion", VStr "apps/v1"); ("kind", VStr "Deployment");
        ("metadata", VMap [("name", VStr "web"); ("namespace", VStr "default")]);
        ("spec", VMap [("template", VMap [("spec", VMap [("containers", containers)])])])].

Definition deployment_spec (spec : val) : val :=
  VMap [("apiVersion", VStr "apps/v1"); ("kind", VStr "Deployment");
        ("metadata", VMap [("name", VStr "web"); ("namespace", VStr "default")]);
        ("spec", spec)].

(** [container["resources"]["limits"]] when both are dicts holding the key. *)
Definition container_limits (c : val) : option val :=
  match c with
  | VMap m =>
      match get m "resources" VNone with
      | VMap rm => if mem "limits" rm then Some (get rm "limits" VNone) else None
      | _ => None
      end
  | _ => None
  end.

(** A dict container whose [resources] is absent or a dict. *)
Definition well_formed_container (c : val) : Prop :=
  exists m, c = VMap m /\
    (mem "resources" m = false \/ exists rm, get m "resources" VNone = VMap rm).

Definition injected (self : ShieldEngine) (c c' : val) : Prop :=
  match container_limits c with
  | Some _ => c' = c
  | None => container_limits c' = Some (limits self)
  end.

Lemma get_set_same : forall m k v d, get (set m k v) k d = v.
Proof.
  induction m as [|[k' v'] r IH]; intros k v d; simpl.
  - rewrite String.eqb_refl. reflexivity.
  - destruct (String.eqb k k') eqn:E; simpl.
    + rewrite E. reflexivity.
    + rewrite E. apply IH.
Qed.

Lemma mem_set_same : forall m k v, mem k (set m k v) = true.
Proof.
  induction m as [|[k' v'] r IH]; intros k v; simpl.
  - rewrite String.eqb_refl. reflexivity.
  - destruct (String.eqb k k') eqn:E; simpl; rewrite E; simpl; [reflexivity | apply IH].
Qed.

Lemma get_not_mem : forall m k d, mem k m = false -> get m k d = d.
Proof.
  induction m as [|[k' v'] r IH]; intros k d H; simpl in *; [reflexivity|].
  apply orb_false_iff in H as [H1 H2]. rewrite H1. apply IH, H2.
Qed.

Lemma inject_one_ok : forall self c, well_formed_container c ->
  exists c' b, inject_one self c = Some (c', b) /\ injected self c c'.
Proof.
  intros self c [m [-> Hres]]. unfold injected, container_limits, inject_one.
  destruct (mem "resources" m) eqn:Em; simpl.
  - destruct Hres as [Hf|[rm Hrm]]; [discriminate|].
    rewrite Hrm. simpl. destruct (mem "limits" rm) eqn:El.
    + do 2 eexists. split; reflexivity.
    + do 2 eexists. split; [reflexivity|]. simpl.
      rewrite get_set_same. simpl. rewrite mem_set_same, get_set_same. reflexivity.
  - rewrite (get_not_mem m "resources" VNone Em).
    do 2 eexists. split; [reflexivity|]. simpl.
    rewrite get_set_same. reflexivity.
Qed.

Lemma inject_all_ok_aux : forall self cs, Forall well_formed_container cs ->
  exists cs' modified, inject_all self cs = Some (cs', modified) /\
    Forall2 (injected self) cs cs'.
Proof.
  intros self cs H. induction H as [|c r Hc Hr IH]; simpl.
  - exists [], false. split; [reflexivity | constructor].
  - destruct (inject_one_ok self c Hc) as [c' [b [E1 H1]]].
    destruct IH as [r' [m [E2 H2]]]. rewrite E1, E2.
    exists (c' :: r'), (b || m). split; [reflexivity | constructor; assumption].
Qed.

End ShieldFacts.

(** C9 (code bug): [_rule_inject_resource_limits] guards its walk with
    [except (KeyError, AttributeError)] so that a mangled structure leaves
    the document alone, and it does so for a non-dict [spec].  A
    [containers] value that is [None], an integer, or a list holding a
    plain string raises [TypeError] instead, which the guard does not catch:
    [protect] aborts. *)
Theorem shield_aborts_on_malformed_containers :
  Shield.protect Shield.default_shield (ShieldFacts.deployment_with VNone) = None /\
  Shield.protect Shield.default_shield (ShieldFacts.deployment_with (VInt 3)) = None /\
  Shield.protect Shield.default_shield
    (ShieldFacts.deployment_with (VList [VStr "nginx"])) = None /\
  Shield.protect Shield.default_shield (ShieldFacts.deployment_spec (VStr "mangled"))
    = Some (ShieldFacts.deployment_spec (VStr "mangled"), []).
Proof. vm_compute. repeat split. Qed.

(** The container loop of [_rule_inject_resource_limits]: on dict
    containers whose [resources] is absent or a dict it succeeds, keeps a
    container that has [resources.limits] as it is, and gives every other
    one [resources.limits] equal to the configured cpu and memory pair. *)
Theorem inject_limits_per_container : forall self cs,
  Forall ShieldFacts.well_formed_container cs ->
  exists cs' modified, Shield.inject_all self cs = Some (cs', modified) /\
    Forall2 (ShieldFacts.injected self) cs cs'.
Proof. exact ShieldFacts.inject_all_ok_aux. Qed.

Lemma inject_limits_per_container_witness :
  exists cs' modified,
    Shield.inject_all Shield.default_shield
      [VMap [("name", VStr "app")];
       VMap [("name", VStr "db"); ("resources", VMap [("limits", VMap [("cpu", VStr "1")])])]]
    = Some (cs', modified) /\
    Forall2 (ShieldFacts.injected Shield.default_shield)
      [VMap [("name", VStr "app")];
       VMap [("name", VStr "db"); ("resources", VMap [("limits", VMap [("cpu", VStr "1")])])]]
      cs'.
Proof.
  apply inject_limits_per_container.
  repeat constructor.
  - exists [("name", VStr "app")]. split; [reflexivity | left; reflexivity].
  - eexists. split; [reflexivity | right; eexists; reflexivity].
Defined.

(* ------------------------------------------------------------------ *)
(** ** The report's success field and the write decision *)

Module EngineFacts.

Import Engine.

(** Validation verdict of one protected document. *)
Definition accepted (catalog : list (string * val)) (strict : bool) (d : val) : bool :=
  match Validator.validate_reconstruction catalog d strict with
  | Some (b, _) => b
  | None => false
  end.

Lemma shield_and_validate_spec : forall catalog strict docs pd logs passed verr
    pd' logs' passed' verr',
  shield_and_validate catalog strict docs pd logs passed verr = Some (pd', logs', passed', verr') ->
  exists new, pd' = app pd new /\ length new = length docs /\
    passed' = passed && forallb (accepted catalog strict) new.
Proof.
  intros catalog strict docs.
  induction docs as [|d r IH]; intros pd logs passed verr pd' logs' passed' verr' H;
    cbn [shield_and_validate] in H.
  - injection H as <- <- <- <-. exists []. rewrite app_nil_r, andb_true_r. auto.
  - destruct (Shield.protect Shield.default_shield d) as [[pdoc nl]|]; [|discriminate].
    destruct (Validator.validate_reconstruction catalog pdoc strict) as [[valid err]|] eqn:Ev;
      [|discriminate].
    destruct (IH _ _ _ _ _ _ _ _ H) as [new [E1 [E2 E3]]].
    exists (pdoc :: new). split; [rewrite E1, <- app_assoc; reflexivity|].
    split; [simpl; rewrite E2; reflexivity|].
    rewrite E3. cbn [forallb].
    replace (accepted catalog strict pdoc) with valid
      by (unfold accepted; rewrite Ev; reflexivity).
    destruct valid, passed; reflexivity.
Qed.

Lemma is_nil_length : forall {A B} (l1 : list A) (l2 : list B),
  length l1 = length l2 -> is_nil l1 = is_nil l2.
Proof. intros A B [|x l1] [|y l2] H; simpl in *; congruence. Qed.

Lemma process_spec : forall catalog pipeline_run export raw dry_run strict p,
  process catalog pipeline_run export raw dry_run strict = Some p ->
  pipeline_run raw = Some (p_context p) /\
  p_success p = kind_truthy (kind (p_context p))
                && negb (is_nil (reconstructed_docs (p_context p)))
                && forallb (accepted catalog strict) (p_protected p) /\
  p_partial p = negb (p_success p) && (0 <? length (shards (p_context p))) /\
  p_modified p = negb (String.eqb (Py.strip raw) (Py.strip (p_final_yaml p))).
Proof.
  intros catalog pipeline_run export raw dry_run strict p H. unfold process in H.
  destruct (pipeline_run raw) as [ctx|] eqn:Er; [|discriminate].
  destruct (shield_and_validate catalog strict (reconstructed_docs ctx) [] [] true "")
    as [[[[pd logs] passed] verr]|] eqn:Es; [|discriminate].
  destruct (export pd ctx) as [final|]; [|discriminate].
  injection H as <-. simpl.
  destruct (shield_and_validate_spec _ _ _ _ _ _ _ _ _ _ _ Es) as [new [E1 [E2 E3]]].
  simpl in E1. subst pd passed.
  rewrite (is_nil_length new (reconstructed_docs ctx) E2).
  repeat split; reflexivity.
Qed.

(** A pipeline that finds nothing and an exporter that gives the text back. *)
Definition echo_pipeline (raw : string) : option HealContext :=
  Some (mkContext raw [] None None []).

Definition echo_export (docs : list val) (context : HealContext) : option string :=
  Some (raw_text context).

Definition env_of (text : string) : Env := mkEnv (Text text) "app.kubecuro.backup" true true.

End EngineFacts.

(** C1, counterexample: a file the pipeline finds no kind and no document
    in, and whose export gives the same text back, is reported with success
    true: [success or not is_modified]. *)
Lemma unmodified_file_reports_success :
  EngineFacts.echo_pipeline "foo: bar" = Some (Engine.mkContext "foo: bar" [] None None []) /\
  Engine.report_success
    (fst (Engine.audit_and_heal_file [] EngineFacts.echo_pipeline EngineFacts.echo_export []
            "app.yaml" (EngineFacts.env_of "foo: bar") false false false)) = true.
Proof. vm_compute. split; reflexivity. Qed.

(** C1 (amended): when processing raises nothing, the report's success is
    true exactly when (a kind was detected, at least one document was
    reconstructed and every protected document passed validation) or the
    trimmed export equals the trimmed input, and in both cases only if no
    attempted write of the target failed. *)
Theorem report_success_rule : forall catalog pipeline_run export git relative_path env
    dry_run force_write strict raw p,
  Engine.file env = Engine.Text raw ->
  Engine.process catalog pipeline_run export raw dry_run strict = Some p ->
  Engine.report_success
    (fst (Engine.audit_and_heal_file catalog pipeline_run export git relative_path env
            dry_run force_write strict)) =
  ((Engine.kind_truthy (Engine.kind (Engine.p_context p))
    && negb (Engine.is_nil (Engine.reconstructed_docs (Engine.p_context p)))
    && forallb (EngineFacts.accepted catalog strict) (Engine.p_protected p))
   || String.eqb (Py.strip raw) (Py.strip (Engine.p_final_yaml p)))
  && negb (Engine.writes_target
             (snd (Engine.audit_and_heal_file catalog pipeline_run export git relative_path
                     env dry_run force_write strict))
           && negb (Engine.write_ok env)).
Proof.
  intros catalog pipeline_run export git relative_path env dry_run force_write strict raw p
    Hf Hp.
  destruct (EngineFacts.process_spec _ _ _ _ _ _ _ Hp) as [_ [Hs [_ Hm]]].
  unfold Engine.audit_and_heal_file. rewrite Hf, Hp. simpl.
  rewrite <- Hs.
  destruct (negb dry_run && Engine.p_modified p &&
            (Engine.p_success p || Engine.p_partial p && force_write));
    destruct (Engine.write_ok env); simpl;
    rewrite ?Hm, ?negb_involutive, ?andb_true_r, ?andb_false_r; reflexivity.
Qed.

Lemma report_success_rule_witness :
  Engine.report_success
    (fst (Engine.audit_and_heal_file [] EngineFacts.echo_pipeline EngineFacts.echo_export []
            "app.yaml" (EngineFacts.env_of "foo: bar") false false false)) =
  ((Engine.kind_truthy None && negb (Engine.is_nil (@nil val))
    && forallb (EngineFacts.accepted [] false) [])
   || String.eqb (Py.strip "foo: bar") (Py.strip "foo: bar"))
  && negb (Engine.writes_target
             (snd (Engine.audit_and_heal_file [] EngineFacts.echo_pipeline
                     EngineFacts.echo_export [] "app.yaml" (EngineFacts.env_of "foo: bar")
                     false false false))
           && negb true).
Proof.
  exact (report_success_rule [] EngineFacts.echo_pipeline EngineFacts.echo_export []
           "app.yaml" (EngineFacts.env_of "foo: bar") false false false "foo: bar"
           (Engine.mkProcessed (Engine.mkContext "foo: bar" [] None None []) [] [] ""
              "foo: bar" false false false "UNCHANGED")
           eq_refl eq_refl).
Defined.

(** C2: the target file is written (an atomic write is attempted) exactly
    when the file was read and processed without an exception, dry run is
    off, the trimmed export differs from the trimmed input, and the heal
    succeeded or it was partial with force-write set.  In particular a dry
    run or an unmodified result never writes it. *)
Theorem write_policy : forall catalog pipeline_run export git relative_path env
    dry_run force_write strict,
  Engine.writes_target
    (snd (Engine.audit_and_heal_file catalog pipeline_run export git relative_path env
            dry_run force_write strict)) = true <->
  exists raw p,
    Engine.file env = Engine.Text raw /\
    Engine.process catalog pipeline_run export raw dry_run strict = Some p /\
    dry_run = false /\
    Py.strip raw <> Py.strip (Engine.p_final_yaml p) /\
    (Engine.p_success p = true \/ (Engine.p_partial p = true /\ force_write = true)).
Proof.
  intros catalog pipeline_run export git relative_path env dry_run force_write strict.
  unfold Engine.audit_and_heal_file.
  destruct (Engine.file env) as [| |raw] eqn:Ef.
  - simpl. split; [discriminate | intros (raw & p & H & _); discriminate].
  - simpl. split; [discriminate | intros (raw & p & H & _); discriminate].
  - destruct (Engine.process catalog pipeline_run export raw dry_run strict) as [p|] eqn:Ep.
    + destruct (EngineFacts.process_spec _ _ _ _ _ _ _ Ep) as [_ [_ [_ Hm]]].
      cbn [snd].
      destruct (negb dry_run && Engine.p_modified p &&
                (Engine.p_success p || Engine.p_partial p && force_write)) eqn:Ew.
      * split; [intros _|reflexivity].
        exists raw, p. split; [reflexivity|]. split; [exact Ep|].
        apply andb_true_iff in Ew as [Ew Ec]. apply andb_true_iff in Ew as [Ed Emod].
        apply negb_true_iff in Ed. rewrite Hm in Emod.
        apply negb_true_iff, String.eqb_neq in Emod.
        split; [exact Ed|]. split; [exact Emod|].
        apply orb_true_iff in Ec as [Ec|Ec]; [left; exact Ec|].
        right. apply andb_true_iff in Ec. exact Ec.
      * split; [discriminate|].
        intros (raw' & p' & Hr & Hp' & Ed & Emod & Ec).
        injection Hr as <-. rewrite Ep in Hp'. injection Hp' as <-.
        rewrite Ed, Hm in Ew. apply String.eqb_neq in Emod. rewrite Emod in Ew.
        destruct Ec as [Ec|[Ec1 Ec2]]; [rewrite Ec in Ew | rewrite Ec1, Ec2, orb_true_r in Ew];
          discriminate.
    + simpl. split; [discriminate|].
      intros (raw' & p' & Hr & Hp' & _). injection Hr as <-. congruence.
Qed.

(* ================================================================== *)
(** * Further properties of the code *)

(** ** String lemmas *)

Module StrFacts.

Lemma append_nil_r : forall s, s ++ EmptyString = s.
Proof. induction s as [|c r IH]; simpl; [reflexivity | rewrite IH; reflexivity]. Qed.

Lemma append_assoc : forall a b c, (a ++ b) ++ c = a ++ (b ++ c).
Proof. induction a as [|x r IH]; intros b c; simpl; [reflexivity | rewrite IH; reflexivity]. Qed.

Lemma length_append : forall a b,
  String.length (a ++ b) = String.length a + String.length b.
Proof. induction a as [|c r IH]; intros b; simpl; [reflexivity | rewrite IH; reflexivity]. Qed.

Lemma rev_string_app : forall a b,
  Py.rev_string (a ++ b) = Py.rev_string b ++ Py.rev_string a.
Proof.
  induction a as [|c r IH]; intros b; simpl.
  - rewrite append_nil_r. reflexivity.
  - rewrite IH, append_assoc. reflexivity.
Qed.

Lemma rev_string_involutive : forall s, Py.rev_string (Py.rev_string s) = s.
Proof.
  induction s as [|c r IH]; simpl; [reflexivity|].
  rewrite rev_string_app, IH. reflexivity.
Qed.

Lemma rev_string_length : forall s, String.length (Py.rev_string s) = String.length s.
Proof.
  induction s as [|c r IH]; simpl; [reflexivity|].
  rewrite length_append, IH. simpl. lia.
Qed.

Lemma lstrip_cases : forall s, Py.lstrip s = s \/ String.length (Py.lstrip s) < String.length s.
Proof.
  induction s as [|c r IH]; simpl; [left; reflexivity|].
  destruct (Py.is_space c); [right | left; reflexivity].
  destruct IH as [-> | H]; simpl; lia.
Qed.

Lemma lstrip_length_le : forall s, String.length (Py.lstrip s) <= String.length s.
Proof. intros s. destruct (lstrip_cases s) as [-> | H]; lia. Qed.

Lemma rstrip_length_le : forall s, String.length (Py.rstrip s) <= String.length s.
Proof.
  intros s. unfold Py.rstrip.
  rewrite rev_string_length.
  pose proof (lstrip_length_le (Py.rev_string s)) as H.
  rewrite rev_string_length in H. exact H.
Qed.

Lemma strip_fixed : forall s, Py.strip s = s -> Py.lstrip s = s /\ Py.rstrip s = s.
Proof.
  intros s H. unfold Py.strip in H.
  destruct (lstrip_cases s) as [E | E].
  - rewrite E in H. split; assumption.
  - pose proof (rstrip_length_le (Py.lstrip s)). rewrite H in *. lia.
Qed.

Lemma lstrip_fixed_head : forall c r,
  Py.lstrip (String c r) = String c r -> Py.is_space c = false.
Proof.
  intros c r H. simpl in H. destruct (Py.is_space c) eqn:E; [|reflexivity].
  pose proof (lstrip_length_le r). rewrite H in *. simpl in *. lia.
Qed.

Lemma lstrip_app_nonempty : forall x y,
  Py.lstrip x <> EmptyString -> Py.lstrip (x ++ y) = Py.lstrip x ++ y.
Proof.
  induction x as [|c r IH]; intros y H; simpl in *; [contradiction|].
  destruct (Py.is_space c); [apply IH, H | reflexivity].
Qed.

Lemma lstrip_app_empty : forall x y,
  Py.lstrip x = EmptyString -> Py.lstrip (x ++ y) = Py.lstrip y.
Proof.
  induction x as [|c r IH]; intros y H; simpl in *; [reflexivity|].
  destruct (Py.is_space c); [apply IH, H | discriminate].
Qed.

Lemma rstrip_app : forall a b,
  Py.rstrip b <> EmptyString -> Py.rstrip (a ++ b) = a ++ Py.rstrip b.
Proof.
  intros a b H. unfold Py.rstrip in *.
  rewrite rev_string_app.
  assert (Hb : Py.lstrip (Py.rev_string b) <> EmptyString)
    by (intros E; apply H; rewrite E; reflexivity).
  rewrite lstrip_app_nonempty by exact Hb.
  rewrite rev_string_app, rev_string_involutive. reflexivity.
Qed.

Lemma lstrip_spaces : forall m y, Py.lstrip (Py.spaces m ++ y) = Py.lstrip y.
Proof. induction m as [|m IH]; intros y; simpl; [reflexivity | apply IH]. Qed.

Lemma lstrip_nonspace : forall c r, Py.is_space c = false ->
  Py.lstrip (String c r) = String c r.
Proof. intros c r H. simpl. rewrite H. reflexivity. Qed.

(** Right-stripping a string that starts with a non-space character keeps
    that character in front. *)
Lemma rstrip_nonspace_head : forall c r, Py.is_space c = false ->
  exists t, Py.rstrip (String c r) = String c t.
Proof.
  intros c r H.
  destruct (string_dec (Py.rstrip r) EmptyString) as [E | E].
  - exists EmptyString. unfold Py.rstrip in *.
    change (String c r) with (String c EmptyString ++ r).
    rewrite rev_string_app.
    assert (El : Py.lstrip (Py.rev_string r) = EmptyString).
    { destruct (Py.lstrip (Py.rev_string r)) eqn:X; [reflexivity|].
      simpl in E. destruct (Py.rev_string s) in E; simpl in E; discriminate. }
    rewrite lstrip_app_empty by exact El. simpl. rewrite H. reflexivity.
  - exists (Py.rstrip r).
    change (String c r) with (String c EmptyString ++ r).
    rewrite rstrip_app by exact E. reflexivity.
Qed.

Lemma substring_all : forall s, String.substring 0 (String.length s) s = s.
Proof. induction s as [|c r IH]; simpl; [reflexivity | rewrite IH; reflexivity]. Qed.

Lemma is_space_space : Py.is_space " " = true.
Proof. reflexivity. Qed.

End StrFacts.

(** ** Splitting a repaired line into key, value and list flag *)

Module ExtractFacts.

Lemma drop_1_cons : forall c r, Py2.drop 1 (String c r) = r.
Proof.
  intros c r. unfold Py2.drop. simpl. rewrite Nat.sub_0_r. apply StrFacts.substring_all.
Qed.

Lemma partition_after : forall k rest,
  Py2.partition ":" k = None -> Py2.partition ":" (k ++ String ":" rest) = Some (k, rest).
Proof.
  induction k as [|c r IH]; intros rest H; cbn [Py2.partition String.append] in *.
  - rewrite Ascii.eqb_refl. reflexivity.
  - destruct (Ascii.eqb ":" c); [discriminate|].
    destruct (Py2.partition ":" r) as [[a b]|]; [discriminate|]. rewrite IH by reflexivity. reflexivity.
Qed.

Lemma prefix_dash_app : forall k x, k <> EmptyString ->
  Py.startswith "-" (k ++ x) = Py.startswith "-" k.
Proof.
  intros [|c r] x H; [contradiction|].
  unfold Py.startswith. cbn [String.prefix String.append].
  destruct (ascii_dec "-" c); [destruct r, x; reflexivity | reflexivity].
Qed.

End ExtractFacts.

(** [_extract_semantics] reads back a [key: value] line: for a key without
    surrounding whitespace and without a colon (and not starting with a dash
    unless the line is a list item) and a non-empty value without surrounding
    whitespace, the line [key: value] (or [- key: value]) gives that key, that
    value and the list flag.  The value may itself contain colons. *)
Theorem extract_semantics_key_value : forall (dash : bool) k v,
  Py.strip k = k -> Py2.partition ":" k = None ->
  (dash = false -> Py.startswith "-" k = false) ->
  Py.strip v = v -> v <> EmptyString ->
  LexerShard._extract_semantics ((if dash then "- " else "") ++ k ++ ": " ++ v) =
  (k, Some v, dash).
Proof.
  intros dash k v Hk Hpk Hdk Hv Hvne.
  destruct (StrFacts.strip_fixed k Hk) as [Hkl Hkr].
  destruct (StrFacts.strip_fixed v Hv) as [Hvl Hvr].
  assert (Hrest : Py.lstrip (k ++ ": " ++ v) = k ++ ": " ++ v).
  { destruct k as [|c r]; [reflexivity|].
    apply StrFacts.lstrip_nonspace. apply (StrFacts.lstrip_fixed_head c r Hkl). }
  assert (Hr : forall a, Py.rstrip (a ++ v) = a ++ v).
  { intros a. rewrite StrFacts.rstrip_app by (rewrite Hvr; exact Hvne).
    rewrite Hvr. reflexivity. }
  assert (Hsv : Py.strip (String " " v) = v).
  { unfold Py.strip. simpl. rewrite Hvl. exact Hvr. }
  assert (Hpart : Py2.partition ":" (k ++ ": " ++ v) = Some (k, String " " v))
    by (apply ExtractFacts.partition_after; exact Hpk).
  assert (Hvb : String.eqb v "" = false) by (apply String.eqb_neq; exact Hvne).
  unfold LexerShard._extract_semantics.
  destruct dash.
  - assert (E1 : Py.strip ("- " ++ k ++ ": " ++ v) = "- " ++ k ++ ": " ++ v).
    { unfold Py.strip.
      change (Py.lstrip ("- " ++ k ++ ": " ++ v)) with ("- " ++ k ++ ": " ++ v).
      replace ("- " ++ k ++ ": " ++ v) with (("- " ++ k ++ ": ") ++ v)
        by (rewrite !StrFacts.append_assoc; reflexivity).
      apply Hr. }
    rewrite E1.
    change ("- " ++ k ++ ": " ++ v) with (String "-" (String " " (k ++ ": " ++ v))).
    set (rest := k ++ ": " ++ v) in *.
    cbn [String.eqb Py.startswith String.prefix].
    destruct (ascii_dec "-" "-") as [_|C]; [|contradiction C; reflexivity].
    rewrite ExtractFacts.drop_1_cons.
    change (Py.lstrip (String " " rest)) with (Py.lstrip rest).
    rewrite Hrest, Hpart, Hk, Hsv, Hvb. reflexivity.
  - assert (E1 : Py.strip (k ++ ": " ++ v) = k ++ ": " ++ v).
    { unfold Py.strip. rewrite Hrest.
      replace (k ++ ": " ++ v) with ((k ++ ": ") ++ v)
        by (rewrite !StrFacts.append_assoc; reflexivity).
      apply Hr. }
    change ("" ++ k ++ ": " ++ v) with (k ++ ": " ++ v).
    rewrite E1.
    assert (Hne : String.eqb (k ++ ": " ++ v) "" = false) by (destruct k; reflexivity).
    assert (Hdash : Py.startswith "-" (k ++ ": " ++ v) = false).
    { destruct k as [|c r]; [reflexivity|].
      rewrite ExtractFacts.prefix_dash_app by discriminate. apply Hdk. reflexivity. }
    set (rest := k ++ ": " ++ v) in *.
    rewrite Hne, Hdash, Hpart, Hk, Hsv, Hvb. reflexivity.
Qed.

Lemma extract_semantics_key_value_witness :
  LexerShard._extract_semantics ("- " ++ "image" ++ ": " ++ "nginx:1.25") =
  ("image", Some "nginx:1.25", true).
Proof.
  exact (extract_semantics_key_value true "image" "nginx:1.25" eq_refl eq_refl
           ltac:(intros H; discriminate H) eq_refl ltac:(discriminate)).
Defined.

(** ** Sharding keeps every line *)

Module ShardFacts.

Import LexerShard.

Definition line_tag (sh : Shard) : nat * string := (Models.line_no sh, Models.raw_line sh).

Lemma shard_lines_tags : forall lines self prev i,
  map line_tag (fst (shard_lines self prev i lines)) = combine (seq (S i) (length lines)) lines.
Proof.
  induction lines as [|l r IH]; intros self prev i; [reflexivity|].
  cbn [shard_lines].
  destruct (Lexer.repair_line self (flush_left prev l)) as [[[ind code] com] st'].
  destruct (_extract_semantics code) as [[k v] il].
  specialize (IH st' (Some l) (S i)).
  destruct (shard_lines st' (Some l) (S i) r) as [shs st''].
  simpl in *. rewrite IH. reflexivity.
Qed.

Lemma shard_lines_nth : forall lines self prev i j sh,
  nth_error (fst (shard_lines self prev i lines)) j = Some sh ->
  exists st line, nth_error lines j = Some line /\
    Models.indent sh =
    fst (fst (fst (Lexer.repair_line st
      (flush_left (match j with 0 => prev | S j' => nth_error lines j' end) line)))).
Proof.
  induction lines as [|l r IH]; intros self prev i j sh H; [destruct j; discriminate|].
  cbn [shard_lines] in H.
  destruct (Lexer.repair_line self (flush_left prev l)) as [[[ind code] com] st'] eqn:Er.
  destruct (_extract_semantics code) as [[k v] il].
  destruct (shard_lines st' (Some l) (S i) r) as [shs st''] eqn:Es.
  destruct j as [|j]; simpl in H.
  - injection H as <-. exists self, l. split; [reflexivity|]. rewrite Er. reflexivity.
  - assert (H' : nth_error (fst (shard_lines st' (Some l) (S i) r)) j = Some sh)
      by (rewrite Es; exact H).
    destruct (IH _ _ _ _ _ H') as [st [line [E1 E2]]].
    exists st, line. split; [exact E1|]. rewrite E2.
    destruct j; reflexivity.
Qed.

Lemma repair_line_indent : forall st line,
  Py.lstrip (Py.rstrip (Py.expand_tabs line)) <> EmptyString ->
  fst (fst (fst (Lexer.repair_line st line))) =
  String.length (Py.rstrip (Py.expand_tabs line)) -
  String.length (Py.lstrip (Py.rstrip (Py.expand_tabs line))).
Proof.
  intros st line H. unfold Lexer.repair_line. cbv zeta.
  destruct (String.eqb (Py.lstrip (Py.rstrip (Py.expand_tabs line))) "") eqn:E.
  - apply String.eqb_eq in E. contradiction.
  - destruct (Lexer.in_block st); [destruct (_ && _)|]; reflexivity.
Qed.

Lemma expand_tabs_spaces : forall m x,
  Py.expand_tabs (Py.spaces m ++ x) = Py.spaces m ++ Py.expand_tabs x.
Proof. induction m as [|m IH]; intros x; simpl; [reflexivity | rewrite IH; reflexivity]. Qed.

Lemma spaces_length : forall m, String.length (Py.spaces m) = m.
Proof. induction m as [|m IH]; simpl; [reflexivity | rewrite IH; reflexivity]. Qed.

(** A line starting with [-] pushed [m] columns right is indented by [m]. *)
Lemma dash_line_indent : forall st m line,
  Py.startswith "-" line = true ->
  fst (fst (fst (Lexer.repair_line st (Py.spaces m ++ line)))) = m.
Proof.
  intros st m line H.
  destruct line as [|c r]; [discriminate|].
  assert (Hc : c = "-"%char).
  { unfold Py.startswith in H. cbn [String.prefix] in H.
    destruct (ascii_dec "-" c); [symmetry; assumption | discriminate]. }
  subst c.
  assert (He : Py.expand_tabs (Py.spaces m ++ String "-" r) = Py.spaces m ++ String "-" (Py.expand_tabs r))
    by (rewrite expand_tabs_spaces; reflexivity).
  destruct (StrFacts.rstrip_nonspace_head "-" (Py.expand_tabs r) eq_refl) as [t Ht].
  assert (Hr : Py.rstrip (Py.spaces m ++ String "-" (Py.expand_tabs r)) = Py.spaces m ++ String "-" t).
  { rewrite StrFacts.rstrip_app by (rewrite Ht; discriminate). rewrite Ht. reflexivity. }
  assert (Hl : Py.lstrip (Py.spaces m ++ String "-" t) = String "-" t).
  { rewrite StrFacts.lstrip_spaces. reflexivity. }
  rewrite repair_line_indent; rewrite He, Hr, Hl; [|discriminate].
  rewrite StrFacts.length_append, spaces_length. lia.
Qed.

End ShardFacts.

(** [KubeLexer.shard] yields exactly one shard per line of the input (as
    [splitlines] cuts it), in order, each carrying its 1-based line number
    and the original, unrepaired line. *)
Theorem shard_one_per_line : forall self raw_yaml,
  map ShardFacts.line_tag (fst (LexerShard.shard self raw_yaml)) =
  combine (seq 1 (length (Py.splitlines raw_yaml))) (Py.splitlines raw_yaml).
Proof. intros self raw_yaml. apply ShardFacts.shard_lines_tags. Qed.

(** Flush-left recovery in [KubeLexer.shard]: when a line ends with [:]
    (after right-stripping) and the next line starts with [-], the next
    line's shard gets the indentation of the first line plus 2, whatever
    the lexer's block state. *)
Theorem shard_flush_left_indent : forall self raw_yaml n sh,
  Py2.endswith_char ":" (Py.rstrip (nth n (Py.splitlines raw_yaml) "")) = true ->
  Py.startswith "-" (nth (S n) (Py.splitlines raw_yaml) "") = true ->
  nth_error (fst (LexerShard.shard self raw_yaml)) (S n) = Some sh ->
  Models.indent sh =
  String.length (nth n (Py.splitlines raw_yaml) "") -
  String.length (Py.lstrip (nth n (Py.splitlines raw_yaml) "")) + 2.
Proof.
  intros self raw_yaml n sh Hp Hd H.
  unfold LexerShard.shard in H.
  destruct (ShardFacts.shard_lines_nth _ _ _ _ _ _ H) as [st [line [E1 E2]]].
  rewrite E2.
  assert (Hn : n < length (Py.splitlines raw_yaml)).
  { assert (S n < length (Py.splitlines raw_yaml)) by (apply nth_error_Some; congruence). lia. }
  rewrite (nth_error_nth' _ "" Hn).
  rewrite (nth_error_nth _ _ "" E1) in Hd.
  unfold LexerShard.flush_left. rewrite Hp, Hd. cbn [andb].
  apply ShardFacts.dash_line_indent. exact Hd.
Qed.

Lemma shard_flush_left_indent_witness :
  Models.indent (nth 1 (fst (LexerShard.shard (Lexer.mkLexer false 0)
                               ("  containers:" ++ Py.nl ++ "- name: web")))
                   (mkShard 0 0 "" None false None "")) = 2 - 0 + 2.
Proof.
  apply (shard_flush_left_indent (Lexer.mkLexer false 0) ("  containers:" ++ Py.nl ++ "- name: web") 0);
    [vm_compute; reflexivity | vm_compute; reflexivity | vm_compute; reflexivity].
Defined.

(** ** The comment shadow keeps every full-line comment *)

Module ShadowFacts.

Import ShadowCapture.

Definition is_comment_line (l : string) : bool := Py.startswith "#" (Py.strip l).

Definition is_data_line (l : string) : bool :=
  negb (is_comment_line l) && negb (String.eqb (Py.strip l) "").

Definition above_of (e : nat * ShadowMetadata) : list string := above_comments (snd e).

Lemma map_set_fresh : forall m i v,
  (forall k w, In (k, w) m -> k < i) -> map_set m i v = app m [(i, v)].
Proof.
  induction m as [|[k w] r IH]; intros i v Hk; [reflexivity|].
  cbn [map_set]. assert (k < i) by (apply (Hk k w); left; reflexivity).
  destruct (Nat.eqb i k) eqn:E; [apply Nat.eqb_eq in E; lia|].
  rewrite IH; [reflexivity|]. intros k' w' H'. apply (Hk k' w'). right. exact H'.
Qed.

Lemma map_get_in : forall m i w, map_get m i = Some w -> In (i, w) m.
Proof.
  induction m as [|[k v] r IH]; intros i w H; [discriminate|].
  cbn [map_get] in H. destruct (Nat.eqb i k) eqn:E.
  - apply Nat.eqb_eq in E. subst. injection H as <-. left. reflexivity.
  - right. apply IH. exact H.
Qed.

Lemma capture_lines_inv : forall lines cmap pending i,
  (forall k w, In (k, w) cmap -> k < i) ->
  app (flat_map above_of (fst (capture_lines cmap pending i lines)))
      (snd (capture_lines cmap pending i lines))
  = app (flat_map above_of cmap) (app pending (filter is_comment_line lines)) /\
  (forall k w, In (k, w) (fst (capture_lines cmap pending i lines)) ->
     In (k, w) cmap \/
     (i <= k /\ exists line, nth_error lines (k - i) = Some line /\ is_data_line line = true)).
Proof.
  induction lines as [|line rest IH]; intros cmap pending i Hk.
  - cbn. split; [rewrite app_nil_r; reflexivity | intros k w H; left; exact H].
  - (* the recursive call, whatever map and pending list it is given *)
    assert (Step : forall cmap' pending',
      (forall k w, In (k, w) cmap' -> k < S i) ->
      (forall k w, In (k, w) cmap' -> In (k, w) cmap \/ (k = i /\ is_data_line line = true)) ->
      app (flat_map above_of cmap') (app pending' (filter is_comment_line rest)) =
      app (flat_map above_of cmap) (app pending (filter is_comment_line (line :: rest))) ->
      app (flat_map above_of (fst (capture_lines cmap' pending' (S i) rest)))
          (snd (capture_lines cmap' pending' (S i) rest))
      = app (flat_map above_of cmap) (app pending (filter is_comment_line (line :: rest))) /\
      (forall k w, In (k, w) (fst (capture_lines cmap' pending' (S i) rest)) ->
         In (k, w) cmap \/
         (i <= k /\ exists l, nth_error (line :: rest) (k - i) = Some l /\ is_data_line l = true))).
    { intros cmap' pending' Hk' Hin Heq.
      destruct (IH cmap' pending' (S i) Hk') as [H1 H2]. split.
      - rewrite H1. exact Heq.
      - intros k w H. destruct (H2 k w H) as [H3|[Hle [l [E D]]]].
        + destruct (Hin k w H3) as [H4|[-> D]]; [left; exact H4|].
          right. split; [lia|]. exists line. rewrite Nat.sub_diag. split; [reflexivity | exact D].
        + right. split; [lia|]. exists l. replace (k - i) with (S (k - S i)) by lia.
          split; [exact E | exact D]. }
    assert (Hk1 : forall k w, In (k, w) cmap -> k < S i)
      by (intros k w H; specialize (Hk k w H); lia).
    cbn [capture_lines].
    destruct (Py.startswith "#" (Py.strip line)) eqn:Ec.
    + apply Step; [exact Hk1 | intros k w H; left; exact H|].
      assert (Hc : is_comment_line line = true) by exact Ec.
      cbn [filter]. rewrite Hc. rewrite <- app_assoc. reflexivity.
    + assert (Hc : is_comment_line line = false) by exact Ec.
      destruct (String.eqb (Py.strip line) "") eqn:Eb.
      * apply Step; [exact Hk1 | intros k w H; left; exact H|].
        cbn [filter]. rewrite Hc. reflexivity.
      * assert (Hd : is_data_line line = true)
          by (unfold is_data_line; rewrite Hc, Eb; reflexivity).
        assert (Set1 : forall v,
          (forall k w, In (k, w) (map_set cmap i v) -> k < S i) /\
          (forall k w, In (k, w) (map_set cmap i v) -> In (k, w) cmap \/ (k = i /\ is_data_line line = true)) /\
          flat_map above_of (map_set cmap i v) = app (flat_map above_of cmap) (above_comments v)).
        { intros v. rewrite (map_set_fresh _ _ _ Hk). split; [|split].
          - intros k w H. apply in_app_or in H. destruct H as [H|[H|[]]];
              [apply (Hk1 k w H) | injection H as <- _; lia].
          - intros k w H. apply in_app_or in H. destruct H as [H|[H|[]]];
              [left; exact H | injection H as <- _; right; split; [reflexivity | exact Hd]].
          - rewrite flat_map_app. cbn. rewrite app_nil_r. reflexivity. }
        destruct pending as [|p ps].
        -- destruct (match (if Z.eqb (Shadow._find_safe_comment_idx line) (-1) then None
                            else Some (Py.strip (Py2.drop (Z.to_nat (Shadow._find_safe_comment_idx line)) line)))
                     with Some c => negb (String.eqb c "") | None => false end).
           ++ destruct (Set1 (mkMeta [] (if Z.eqb (Shadow._find_safe_comment_idx line) (-1) then None
                            else Some (Py.strip (Py2.drop (Z.to_nat (Shadow._find_safe_comment_idx line)) line)))))
                as [A [B C]].
              apply Step; [exact A | exact B |]. rewrite C. cbn [filter above_comments]. rewrite Hc.
              rewrite app_nil_r. reflexivity.
           ++ apply Step; [exact Hk1 | intros k w H; left; exact H |].
              cbn [filter]. rewrite Hc. reflexivity.
        -- destruct (Set1 (mkMeta (p :: ps) (if Z.eqb (Shadow._find_safe_comment_idx line) (-1) then None
                            else Some (Py.strip (Py2.drop (Z.to_nat (Shadow._find_safe_comment_idx line)) line)))))
                as [A [B C]].
           apply Step; [exact A | exact B |]. rewrite C. cbn [filter above_comments]. rewrite Hc.
           rewrite <- app_assoc. reflexivity.
Qed.

End ShadowFacts.

(** [KubeShadow.capture] on a fresh shadow loses no full-line comment:
    the comments attached above data lines, in line order, followed by the
    orphans, are exactly the lines whose stripped form starts with [#]. *)
Theorem capture_conserves_comments : forall raw_text,
  let sh := ShadowCapture.capture ShadowCapture.fresh raw_text in
  app (flat_map ShadowFacts.above_of (ShadowCapture.comment_map sh)) (ShadowCapture.orphans sh) =
  filter ShadowFacts.is_comment_line (Py.splitlines raw_text).
Proof.
  intros raw_text. cbv zeta. unfold ShadowCapture.capture, ShadowCapture.fresh.
  cbn [ShadowCapture.comment_map].
  destruct (ShadowFacts.capture_lines_inv (Py.splitlines raw_text) [] [] 1) as [H _];
    [intros k w []|].
  destruct (ShadowCapture.capture_lines [] [] 1 (Py.splitlines raw_text)) as [cmap pending].
  exact H.
Qed.

(** After [capture] on a fresh shadow, [get_metadata] answers only for
    line numbers of data lines: lines that are neither blank nor a
    full-line comment. *)
Theorem capture_metadata_on_data_lines : forall raw_text line_no m,
  ShadowCapture.get_metadata (ShadowCapture.capture ShadowCapture.fresh raw_text) line_no = Some m ->
  1 <= line_no /\ exists line, nth_error (Py.splitlines raw_text) (line_no - 1) = Some line /\
                         ShadowFacts.is_data_line line = true.
Proof.
  intros raw_text line_no m H.
  unfold ShadowCapture.get_metadata, ShadowCapture.capture, ShadowCapture.fresh in H.
  cbn [ShadowCapture.comment_map] in H.
  destruct (ShadowFacts.capture_lines_inv (Py.splitlines raw_text) [] [] 1) as [_ H2];
    [intros k w []|].
  destruct (ShadowCapture.capture_lines [] [] 1 (Py.splitlines raw_text)) as [cmap pending].
  cbn [fst ShadowCapture.comment_map] in *.
  destruct (H2 line_no m (ShadowFacts.map_get_in _ _ _ H)) as [[]|[Hle Hx]].
  split; [exact Hle | exact Hx].
Qed.

Lemma capture_metadata_on_data_lines_witness :
  1 <= 2 /\ exists line, nth_error (Py.splitlines ("# top" ++ Py.nl ++ "a: 1")) (2 - 1) = Some line /\
                    ShadowFacts.is_data_line line = true.
Proof.
  apply (capture_metadata_on_data_lines ("# top" ++ Py.nl ++ "a: 1") 2
           (ShadowCapture.mkMeta ["# top"] None)).
  vm_compute. reflexivity.
Defined.

(** ** The scanner emits one shard per data line *)

Module ScanShardFacts.

Import Scanner.

Lemma scan_line_tag : forall st i l,
  match fst (scan_line st i l) with
  | None => ShadowFacts.is_data_line l = false
  | Some sh => ShadowFacts.is_data_line l = true /\ ShardFacts.line_tag sh = (i, l)
  end.
Proof.
  intros st i l. unfold scan_line, ShadowFacts.is_data_line, ShadowFacts.is_comment_line.
  destruct (String.eqb (Py.strip l) "") eqn:Eb; destruct (Py.startswith "#" (Py.strip l)) eqn:Ec;
    cbn [orb negb andb fst]; try reflexivity.
  destruct (line_match l) as [[[[ind isl] k] v]|]; cbn [fst]; split; reflexivity.
Qed.

Lemma scan_lines_tags : forall lines st i,
  map ShardFacts.line_tag (fst (scan_lines st i lines)) =
  filter (fun p => ShadowFacts.is_data_line (snd p)) (combine (seq i (length lines)) lines).
Proof.
  induction lines as [|l r IH]; intros st i; [reflexivity|].
  cbn [scan_lines length seq combine filter snd].
  pose proof (scan_line_tag st i l) as T.
  destruct (scan_line st i l) as [sh st1]. cbn [fst] in T.
  specialize (IH st1 (S i)).
  destruct (scan_lines st1 (S i) r) as [shs st2]. cbn [fst] in *.
  destruct sh as [sh|].
  - destruct T as [D E]. rewrite D. cbn [map]. rewrite E, IH. reflexivity.
  - rewrite T. exact IH.
Qed.

End ScanShardFacts.

(** [KubeScanner.scan] emits exactly one shard per data line (a line that is
    neither blank nor a full-line comment), in order, with the line's 1-based
    number and the line itself; blank and comment lines give no shard.  The
    scanner's data lines are the lines [KubeShadow.capture] may attach
    metadata to. *)
Theorem scan_one_shard_per_data_line : forall self raw_text,
  map ShardFacts.line_tag (fst (Scanner.scan self raw_text)) =
  filter (fun p => ShadowFacts.is_data_line (snd p))
    (combine (seq 1 (length (Py.splitlines raw_text))) (Py.splitlines raw_text)).
Proof. intros self raw_text. apply ScanShardFacts.scan_lines_tags. Qed.

(** ** Validator: what it accepts and how it scores *)

Module ValidatorMore.

Import Validator.

Lemma deep_validate_map : forall doc schema path strict r,
  _deep_validate doc schema path strict = Some r -> exists items, doc = VMap items.
Proof. intros [| | | | |items] schema path strict r H; try discriminate. exists items; reflexivity. Qed.

End ValidatorMore.

(** [validate_reconstruction] never accepts a document that is not a dict
    or that lacks one of the top-level keys [apiVersion], [kind] and
    [metadata], whatever the catalog and the strict flag. *)
Theorem validate_accepts_only_complete : forall catalog doc strict msg,
  Validator.validate_reconstruction catalog doc strict = Some (true, msg) ->
  exists items, doc = VMap items /\
    forallb (fun f => mem f items) Validator.required_fields = true.
Proof.
  intros catalog doc strict msg H.
  destruct doc as [| | | | |items]; try discriminate.
  exists items. split; [reflexivity|].
  unfold Validator.validate_reconstruction in H.
  destruct (find (fun f => negb (mem f items)) Validator.required_fields) eqn:E;
    [discriminate|].
  unfold Validator.required_fields in *. cbn [find forallb] in *.
  destruct (mem "apiVersion" items), (mem "kind" items), (mem "metadata" items);
    cbn in E; try discriminate; reflexivity.
Qed.

Lemma validate_accepts_only_complete_witness :
  exists items, ValidatorFacts.pod_with [] = VMap items /\
    forallb (fun f => mem f items) Validator.required_fields = true.
Proof.
  apply (validate_accepts_only_complete ValidatorFacts.catalog (ValidatorFacts.pod_with []) true
           Validator.ok_msg).
  vm_compute. reflexivity.
Defined.

(** A dict with the three top-level keys whose [kind] is not in the catalog
    (a string kind with no truthy catalog entry, or a [None], bool or
    integer kind) is accepted with the outside-catalog warning, in strict
    and lenient mode alike: none of its other fields is looked at. *)
Theorem validate_outside_catalog : forall catalog items strict,
  forallb (fun f => mem f items) Validator.required_fields = true ->
  match get items "kind" VNone with
  | VStr k => truthy (get catalog k VNone) = false
  | VList _ | VMap _ => False
  | _ => True
  end ->
  Validator.validate_reconstruction catalog (VMap items) strict =
  Some (true, "Warning: Kind '" ++ py_str (get items "kind" VNone) ++
              "' is outside local catalog. Basic validation only.").
Proof.
  intros catalog items strict Hreq Hk.
  unfold Validator.validate_reconstruction.
  replace (find (fun f => negb (mem f items)) Validator.required_fields) with (@None string).
  2:{ unfold Validator.required_fields in *. cbn [forallb] in Hreq.
      destruct (mem "apiVersion" items) eqn:E1, (mem "kind" items) eqn:E2,
        (mem "metadata" items) eqn:E3; try discriminate.
      cbn [find]. rewrite E1, E2, E3. reflexivity. }
  destruct (get items "kind" VNone) as [|b|z|k|l|m]; cbn [Validator.catalog_get truthy negb];
    try contradiction; try reflexivity.
  rewrite Hk. reflexivity.
Qed.

Lemma validate_outside_catalog_witness :
  Validator.validate_reconstruction ValidatorFacts.catalog
    (VMap [("apiVersion", VStr "v1"); ("kind", VStr "Widget"); ("metadata", VNone);
           ("anything", VInt 3)]) true =
  Some (true, "Warning: Kind '" ++ py_str (VStr "Widget") ++
              "' is outside local catalog. Basic validation only.").
Proof.
  apply (validate_outside_catalog ValidatorFacts.catalog
           [("apiVersion", VStr "v1"); ("kind", VStr "Widget"); ("metadata", VNone);
            ("anything", VInt 3)] true); vm_compute; reflexivity.
Defined.

(** [compare_health] only ever returns 50, 70, 80 or 100 (the cap at 100
    never bites), and it returns 100 exactly when the document passes
    lenient validation and has truthy [kind] and [apiVersion]. *)
Theorem compare_health_scores : forall catalog original_status doc n,
  ValidatorHealth.compare_health catalog original_status doc = Some n ->
  In n [50; 70; 80; 100] /\
  (n = 100 <-> exists items msg, doc = VMap items /\
     Validator.validate_reconstruction catalog doc false = Some (true, msg) /\
     truthy (get items "kind" VNone) && truthy (get items "apiVersion" VNone) = true).
Proof.
  intros catalog original_status doc n H.
  unfold ValidatorHealth.compare_health in H.
  destruct (Validator.validate_reconstruction catalog doc false) as [[valid msg]|] eqn:Ev;
    [|discriminate].
  destruct doc as [| | | | |items]; try discriminate.
  cbv zeta in H.
  destruct valid, (truthy (get items "kind" VNone) && truthy (get items "apiVersion" VNone)) eqn:Ei;
    injection H as <-; cbn; split; try tauto;
    (split; [intros C; discriminate C | intros [it [m [Ed [Ev' Ei']]]]; injection Ed as <-;
       congruence]) || (split; [intros _; exists items, msg; auto | reflexivity]).
Qed.

Lemma compare_health_scores_witness :
  In 100 [50; 70; 80; 100] /\
  (100 = 100 <-> exists items msg, ValidatorFacts.pod_with [] = VMap items /\
     Validator.validate_reconstruction ValidatorFacts.catalog (ValidatorFacts.pod_with []) false
       = Some (true, msg) /\
     truthy (get items "kind" VNone) && truthy (get items "apiVersion" VNone) = true).
Proof.
  apply (compare_health_scores ValidatorFacts.catalog "BROKEN" (ValidatorFacts.pod_with [])).
  vm_compute. reflexivity.
Defined.

(** [compare_health] raises on anything that is not a dict, although
    [validate_reconstruction] itself answers such input with a rejection. *)
Theorem compare_health_non_dict_raises : forall catalog original_status doc,
  (forall items, doc <> VMap items) ->
  ValidatorHealth.compare_health catalog original_status doc = None /\
  Validator.validate_reconstruction catalog doc false =
  Some (false, "Aborting: Healed content is not a valid dictionary structure.").
Proof.
  intros catalog original_status doc H.
  destruct doc as [| | | | |items]; try (split; reflexivity).
  exfalso. exact (H items eq_refl).
Qed.

Lemma compare_health_non_dict_raises_witness :
  ValidatorHealth.compare_health ValidatorFacts.catalog "BROKEN" (VList []) = None /\
  Validator.validate_reconstruction ValidatorFacts.catalog (VList []) false =
  Some (false, "Aborting: Healed content is not a valid dictionary structure.").
Proof.
  apply (compare_health_non_dict_raises ValidatorFacts.catalog "BROKEN" (VList [])).
  intros items H. discriminate H.
Defined.

(** ** Structurer: line endings, error locations and the healing report *)

Module StructurerFacts.

Import Structurer2.

Lemma has_char_app : forall c a b,
  Py.has_char c (a ++ b) = Py.has_char c a || Py.has_char c b.
Proof.
  intros c a b. induction a as [|x r IH]; cbn [Py.has_char String.append]; [reflexivity|].
  rewrite IH. apply orb_assoc.
Qed.

Lemma has_char_rev : forall c s, Py.has_char c (Py.rev_string s) = Py.has_char c s.
Proof.
  intros c s. induction s as [|x r IH]; [reflexivity|].
  cbn [Py.rev_string Py.has_char]. rewrite has_char_app, IH. cbn [Py.has_char].
  rewrite orb_false_r. apply orb_comm.
Qed.

Lemma has_char_lstrip : forall c s, Py.has_char c s = false -> Py.has_char c (Py.lstrip s) = false.
Proof.
  intros c s. induction s as [|x r IH]; intros H; [reflexivity|].
  cbn [Py.lstrip]. cbn [Py.has_char] in H. apply orb_false_iff in H as [H1 H2].
  destruct (Py.is_space x); [apply IH; exact H2 | cbn [Py.has_char]; rewrite H1, H2; reflexivity].
Qed.

Lemma has_char_rstrip : forall c s, Py.has_char c s = false -> Py.has_char c (Py.rstrip s) = false.
Proof.
  intros c s H. unfold Py.rstrip. rewrite has_char_rev. apply has_char_lstrip.
  rewrite has_char_rev. exact H.
Qed.

Lemma lstrip_idem : forall s, Py.lstrip (Py.lstrip s) = Py.lstrip s.
Proof.
  induction s as [|x r IH]; [reflexivity|]. cbn [Py.lstrip].
  destruct (Py.is_space x) eqn:E; [exact IH | cbn [Py.lstrip]; rewrite E; reflexivity].
Qed.

Lemma rstrip_idem : forall s, Py.rstrip (Py.rstrip s) = Py.rstrip s.
Proof.
  intros s. unfold Py.rstrip. rewrite StrFacts.rev_string_involutive, lstrip_idem. reflexivity.
Qed.

Lemma replace_cr_no_cr : forall s, Py.has_char CR (replace_cr s) = false.
Proof.
  induction s as [|c r IH]; [reflexivity|]. cbn [replace_cr Py.has_char]. rewrite IH, orb_false_r.
  destruct (Ascii.eqb c CR) eqn:E; [reflexivity|]. rewrite Ascii.eqb_sym. exact E.
Qed.

Lemma replace_cr_id : forall s, Py.has_char CR s = false -> replace_cr s = s.
Proof.
  induction s as [|c r IH]; intros H; [reflexivity|]. cbn [Py.has_char] in H.
  apply orb_false_iff in H as [H1 H2]. cbn [replace_cr].
  rewrite Ascii.eqb_sym, H1, IH by exact H2. reflexivity.
Qed.

Lemma replace_crlf_id : forall s, Py.has_char CR s = false -> replace_crlf s = s.
Proof.
  induction s as [|c r IH]; intros H; [reflexivity|]. cbn [Py.has_char] in H.
  apply orb_false_iff in H as [H1 H2]. cbn [replace_crlf].
  destruct r as [|d r']; [reflexivity|].
  rewrite Ascii.eqb_sym, H1. cbn [andb]. rewrite IH by exact H2. reflexivity.
Qed.

(** [str.startswith] of a string with itself in front. *)
Lemma prefix_app : forall s t, String.prefix s (s ++ t) = true.
Proof.
  induction s as [|c r IH]; intros t; [destruct t; reflexivity|].
  cbn [String.append String.prefix]. destruct (ascii_dec c c) as [_|C]; [apply IH | contradiction].
Qed.

Fixpoint all_digits (s : string) : bool :=
  match s with
  | EmptyString => true
  | String c r => Py.is_digit c && all_digits r
  end.

Lemma all_digits_app : forall a b, all_digits (a ++ b) = all_digits a && all_digits b.
Proof.
  induction a as [|c r IH]; intros b; [reflexivity|]. cbn [String.append all_digits].
  rewrite IH. apply andb_assoc.
Qed.

Lemma all_digits_rev : forall s, all_digits (Py.rev_string s) = all_digits s.
Proof.
  induction s as [|c r IH]; [reflexivity|]. cbn [Py.rev_string all_digits].
  rewrite all_digits_app, IH. cbn [all_digits]. rewrite andb_true_r. apply andb_comm.
Qed.

Lemma digit_not_space : forall c, Py.is_digit c = true -> Py.is_space c = false.
Proof.
  intros c H. unfold Py.is_digit, Py.is_space in *.
  apply andb_prop in H as [H1 H2]. apply Nat.leb_le in H1, H2.
  apply orb_false_iff. split; apply andb_false_iff; right; apply Nat.leb_gt; lia.
Qed.

Lemma digit_not_colon : forall c, Py.is_digit c = true -> Ascii.eqb ":" c = false.
Proof.
  intros c H. destruct (Ascii.eqb ":" c) eqn:E; [|reflexivity].
  apply Ascii.eqb_eq in E. subst c. discriminate H.
Qed.

Lemma all_digits_lstrip : forall s, all_digits s = true -> Py.lstrip s = s.
Proof.
  intros [|c r] H; [reflexivity|]. cbn [all_digits] in H. apply andb_prop in H as [H _].
  apply StrFacts.lstrip_nonspace, digit_not_space, H.
Qed.

Lemma all_digits_strip : forall s, all_digits s = true -> Py.strip s = s.
Proof.
  intros s H. unfold Py.strip, Py.rstrip. rewrite (all_digits_lstrip s H).
  rewrite all_digits_lstrip by (rewrite all_digits_rev; exact H).
  apply StrFacts.rev_string_involutive.
Qed.

Lemma all_digits_partition : forall s, all_digits s = true -> Py2.partition ":" s = None.
Proof.
  induction s as [|c r IH]; intros H; [reflexivity|]. cbn [all_digits] in H.
  apply andb_prop in H as [H1 H2]. cbn [Py2.partition]. rewrite digit_not_colon by exact H1.
  rewrite IH by exact H2. reflexivity.
Qed.

Lemma all_digits_uint : forall d, all_digits (NilEmpty.string_of_uint d) = true.
Proof. induction d; cbn [NilEmpty.string_of_uint all_digits]; try exact IHd; reflexivity. Qed.

Lemma to_uint_not_nil : forall n, Nat.to_uint n <> Decimal.Nil.
Proof.
  intros n E. destruct n as [|n]; [discriminate E|].
  pose proof (DecimalNat.Unsigned.of_to (S n)) as H. rewrite E in H. discriminate H.
Qed.

Lemma split_sign_uint : forall d, d <> Decimal.Nil ->
  split_sign (NilEmpty.string_of_uint d) = (false, NilEmpty.string_of_uint d).
Proof. intros [] H; [contradiction | reflexivity ..]. Qed.

Lemma int_digits_uint : forall d acc after_digit,
  after_digit = true \/ d <> Decimal.Nil ->
  int_digits acc after_digit (NilEmpty.string_of_uint d) = Some (Nat.of_uint_acc d acc).
Proof.
  induction d; intros acc after_digit H;
    [destruct H as [->|H]; [reflexivity | contradiction] |..];
    cbn [NilEmpty.string_of_uint int_digits Nat.of_uint_acc];
    (match goal with |- context [Py.is_digit ?c] =>
       replace (Py.is_digit c) with true by reflexivity;
       let v := eval vm_compute in (nat_of_ascii c - 48) in change (nat_of_ascii c - 48) with v
     end;
     cbv iota; rewrite IHd by (left; reflexivity); rewrite Nat.tail_mul_spec; do 2 f_equal; lia).
Qed.

Lemma py_int_fmt : forall n, py_int (fmt_nat n) = Some (Z.of_nat n).
Proof.
  intros n. unfold py_int, fmt_nat.
  rewrite all_digits_strip by apply all_digits_uint.
  rewrite split_sign_uint by apply to_uint_not_nil.
  rewrite int_digits_uint by (right; apply to_uint_not_nil).
  change (Nat.of_uint_acc (Nat.to_uint n) 0) with (Nat.of_uint (Nat.to_uint n)).
  rewrite DecimalNat.Unsigned.of_to. reflexivity.
Qed.

Lemma diff_lines_in : forall os fs j ch,
  In ch (diff_lines j os fs) <->
  exists i a b, nth_error os i = Some a /\ nth_error fs i = Some b /\ a <> b /\
    ch = mkChange (j + i + 1) a b (String.length a - String.length (Py.lstrip a))
                  (String.length b - String.length (Py.lstrip b)).
Proof.
  induction os as [|o os IH]; intros fs j ch.
  - split; [intros []|]. intros (i & a & b & E & _). destruct i; discriminate E.
  - destruct fs as [|f fs].
    + split; [intros []|]. intros (i & a & b & _ & E & _). destruct i; discriminate E.
    + cbn [diff_lines]. destruct (String.eqb o f) eqn:Eof.
      * apply String.eqb_eq in Eof. subst f. rewrite IH. split.
        -- intros (i & a & b & E1 & E2 & N & ->). exists (S i), a, b.
           repeat split; try assumption. f_equal. lia.
        -- intros (i & a & b & E1 & E2 & N & ->). destruct i as [|i].
           ++ cbn in E1, E2. congruence.
           ++ exists i, a, b. repeat split; try assumption. f_equal. lia.
      * apply String.eqb_neq in Eof. cbn [In]. rewrite IH. split.
        -- intros [<- | (i & a & b & E1 & E2 & N & ->)].
           ++ exists 0, o, f. repeat split; try assumption. f_equal. lia.
           ++ exists (S i), a, b. repeat split; try assumption. f_equal. lia.
        -- intros (i & a & b & E1 & E2 & N & ->). destruct i as [|i].
           ++ left. cbn in E1, E2. injection E1 as <-. injection E2 as <-. f_equal. lia.
           ++ right. exists i, a, b. repeat split; try assumption. f_equal. lia.
Qed.

Lemma diff_lines_prefix_l : forall l e j, diff_lines j l (app l e) = [].
Proof.
  induction l as [|x l IH]; intros e j; [destruct e; reflexivity|].
  cbn [diff_lines app]. rewrite String.eqb_refl. apply IH.
Qed.

Lemma diff_lines_prefix_r : forall l e j, diff_lines j (app l e) l = [].
Proof.
  induction l as [|x l IH]; intros e j; [destruct e; reflexivity|].
  cbn [diff_lines app]. rewrite String.eqb_refl. apply IH.
Qed.

End StructurerFacts.

(** [_normalize_line_endings] leaves no carriage return in the text, and
    applying it a second time changes nothing. *)
Theorem normalize_line_endings_idempotent : forall yaml_str,
  Py.has_char Structurer2.CR (Structurer2._normalize_line_endings yaml_str) = false /\
  Structurer2._normalize_line_endings (Structurer2._normalize_line_endings yaml_str) =
  Structurer2._normalize_line_endings yaml_str.
Proof.
  intros yaml_str. unfold Structurer2._normalize_line_endings at 1 3.
  set (x := Py.rstrip (Structurer2.replace_cr (Structurer2.replace_crlf yaml_str))).
  assert (Hx : Py.has_char Structurer2.CR x = false).
  { apply StructurerFacts.has_char_rstrip, StructurerFacts.replace_cr_no_cr. }
  split; [exact Hx|].
  unfold Structurer2._normalize_line_endings.
  rewrite StructurerFacts.replace_crlf_id, StructurerFacts.replace_cr_id by exact Hx.
  apply StructurerFacts.rstrip_idem.
Qed.

(** [_extract_line] reads back the parser mark from the message of
    [validate_and_roundtrip]: for [STRUCTURE_ERROR:L{line+1}:C{col+1}:{e}]
    it returns the 0-based [line], whatever the column and the error text
    (colons included). *)
Theorem extract_line_reads_mark : forall mark_line mark_column e,
  Structurer2._extract_line (Structurer2.structure_error_msg mark_line mark_column e) =
  Z.of_nat mark_line.
Proof.
  intros mark_line mark_column e.
  unfold Structurer2._extract_line, Structurer2.structure_error_msg, Py.startswith.
  rewrite StructurerFacts.prefix_app. cbn [negb].
  unfold Structurer2.split_colon_1.
  set (f := Structurer2.fmt_nat (mark_line + 1)).
  set (rest := "C" ++ Structurer2.fmt_nat (mark_column + 1) ++ ":" ++ e).
  change ("STRUCTURE_ERROR:L" ++ f ++ ":C" ++ Structurer2.fmt_nat (mark_column + 1) ++ ":" ++ e)
    with ("STRUCTURE_ERROR:L" ++ (f ++ String ":" rest)).
  change (Py2.partition ":" ("STRUCTURE_ERROR:L" ++ (f ++ String ":" rest)))
    with (Some ("STRUCTURE_ERROR", String "L" f ++ String ":" rest)).
  cbv iota beta.
  rewrite ExtractFacts.partition_after.
  2:{ cbn [Py2.partition]. change (Ascii.eqb ":" "L") with false. cbv iota.
      rewrite StructurerFacts.all_digits_partition by apply StructurerFacts.all_digits_uint.
      reflexivity. }
  rewrite ExtractFacts.drop_1_cons. unfold f. rewrite StructurerFacts.py_int_fmt. lia.
Qed.

(** [full_healing_report] lists exactly the positions present in both texts
    where the lines differ, each with its 1-based line number, the two
    lines and their leading-whitespace widths. *)
Theorem healing_report_changes : forall original final status ch,
  In ch (Structurer2.changes (Structurer2.full_healing_report original final status)) <->
  exists i a b, nth_error (Py.splitlines original) i = Some a /\
    nth_error (Py.splitlines final) i = Some b /\ a <> b /\
    ch = Structurer2.mkChange (i + 1) a b (String.length a - String.length (Py.lstrip a))
                              (String.length b - String.length (Py.lstrip b)).
Proof. intros. apply StructurerFacts.diff_lines_in. Qed.

(** Lines added at the end of the final text, or dropped from its end, are
    never reported: when one text's lines extend the other's,
    [full_healing_report] counts no changed line. *)
Theorem healing_report_ignores_tail : forall original final status extra,
  Py.splitlines final = app (Py.splitlines original) extra \/
  Py.splitlines original = app (Py.splitlines final) extra ->
  Structurer2.lines_changed (Structurer2.full_healing_report original final status) = 0.
Proof.
  intros original final status extra [E|E];
    unfold Structurer2.full_healing_report; cbn [Structurer2.lines_changed]; rewrite E;
    [rewrite StructurerFacts.diff_lines_prefix_l | rewrite StructurerFacts.diff_lines_prefix_r];
    reflexivity.
Qed.

Lemma healing_report_ignores_tail_witness :
  Structurer2.lines_changed
    (Structurer2.full_healing_report ("a: 1" ++ Py.nl ++ "b: 2")
                                     ("a: 1" ++ Py.nl ++ "b: 2" ++ Py.nl ++ "c: 3") "STRUCTURE_OK") = 0.
Proof.
  apply (healing_report_ignores_tail ("a: 1" ++ Py.nl ++ "b: 2")
           ("a: 1" ++ Py.nl ++ "b: 2" ++ Py.nl ++ "c: 3") "STRUCTURE_OK" ["c: 3"]).
  left. vm_compute. reflexivity.
Defined.

(** ** Shield: a second pass changes nothing *)

Module ShieldMore.

Import Shield.

Lemma get_set_other : forall m k k' v d, k <> k' -> get (set m k v) k' d = get m k' d.
Proof.
  induction m as [|[k1 v1] r IH]; intros k k' v d Hne; cbn [set get].
  - destruct (String.eqb k' k) eqn:E; [apply String.eqb_eq in E; congruence | reflexivity].
  - destruct (String.eqb k k1) eqn:E; cbn [get].
    + apply String.eqb_eq in E. subst k1.
      destruct (String.eqb k' k) eqn:E'; [apply String.eqb_eq in E'; congruence | reflexivity].
    + destruct (String.eqb k' k1); [reflexivity | apply IH, Hne].
Qed.

Lemma mem_set_other : forall m k k' v, k <> k' -> mem k' (set m k v) = mem k' m.
Proof.
  induction m as [|[k1 v1] r IH]; intros k k' v Hne; cbn [set mem].
  - destruct (String.eqb k' k) eqn:E; [apply String.eqb_eq in E; congruence | reflexivity].
  - destruct (String.eqb k k1) eqn:E; cbn [mem]; [reflexivity|]. rewrite IH by exact Hne. reflexivity.
Qed.

Lemma set_set : forall m k v1 v2, set (set m k v1) k v2 = set m k v2.
Proof.
  induction m as [|[k1 w] r IH]; intros k v1 v2; cbn [set].
  - rewrite String.eqb_refl. reflexivity.
  - destruct (String.eqb k k1) eqn:E; cbn [set]; rewrite E; [reflexivity | rewrite IH; reflexivity].
Qed.

Ltac str_neq := let H := fresh in intros H; discriminate H.

Lemma ensure_after_set : forall d md, mem "namespace" md = true ->
  _rule_ensure_namespace (set d "metadata" (VMap md)) = Some (set d "metadata" (VMap md), "").
Proof.
  intros d md Hn. unfold _rule_ensure_namespace.
  rewrite get_set_other by str_neq.
  destruct (negb (truthy (get d "kind" (VStr ""))) || in_list (get d "kind" (VStr "")) cluster_scoped);
    [reflexivity|].
  rewrite ShieldFacts.mem_set_same, ShieldFacts.get_set_same. cbn [py_contains]. rewrite Hn.
  reflexivity.
Qed.

Lemma ensure_stable : forall d d1 msg, _rule_ensure_namespace d = Some (d1, msg) ->
  _rule_ensure_namespace d1 = Some (d1, "") /\
  (forall k dflt, k <> "metadata" -> get d1 k dflt = get d k dflt) /\
  (forall k, k <> "metadata" -> mem k d1 = mem k d).
Proof.
  intros d d1 msg H. unfold _rule_ensure_namespace in H.
  destruct (negb (truthy (get d "kind" (VStr ""))) || in_list (get d "kind" (VStr "")) cluster_scoped)
    eqn:Ek.
  { injection H as <- _. split; [|split; reflexivity].
    unfold _rule_ensure_namespace. rewrite Ek. reflexivity. }
  destruct (mem "metadata" d) eqn:Em.
  - destruct (py_contains (get d "metadata" VNone) "namespace") as [[|]|] eqn:Ep; [| |discriminate].
    + injection H as <- _. split; [|split; reflexivity].
      unfold _rule_ensure_namespace. rewrite Ek, Em, Ep. reflexivity.
    + destruct (get d "metadata" VNone) as [| | | | |md]; try discriminate.
      injection H as <- _. split; [|split].
      * apply ensure_after_set. apply ShieldFacts.mem_set_same.
      * intros k dflt Hk. apply get_set_other. congruence.
      * intros k Hk. apply mem_set_other. congruence.
  - rewrite ShieldFacts.get_set_same in H. cbn [py_contains mem] in H.
    injection H as <- _. rewrite set_set. split; [|split].
    + apply ensure_after_set. reflexivity.
    + intros k dflt Hk. apply get_set_other. congruence.
    + intros k Hk. apply mem_set_other. congruence.
Qed.

Lemma ensure_congr : forall d d',
  get d' "kind" (VStr "") = get d "kind" (VStr "") ->
  mem "metadata" d' = mem "metadata" d ->
  get d' "metadata" VNone = get d "metadata" VNone ->
  _rule_ensure_namespace d = Some (d, "") ->
  _rule_ensure_namespace d' = Some (d', "").
Proof.
  intros d d' Hk Hm Hg H. unfold _rule_ensure_namespace in *.
  rewrite Hk, Hm.
  destruct (negb (truthy (get d "kind" (VStr ""))) || in_list (get d "kind" (VStr "")) cluster_scoped);
    [reflexivity|].
  destruct (mem "metadata" d).
  - rewrite Hg. destruct (py_contains (get d "metadata" VNone) "namespace") as [[|]|]; [reflexivity| |discriminate].
    destruct (get d "metadata" VNone); discriminate.
  - rewrite ShieldFacts.get_set_same in H. cbn [py_contains mem] in H. discriminate.
Qed.

Lemma ensure_has_namespace : forall d d1 msg, _rule_ensure_namespace d = Some (d1, msg) ->
  truthy (get d "kind" (VStr "")) = true ->
  in_list (get d "kind" (VStr "")) cluster_scoped = false ->
  py_contains (get d1 "metadata" VNone) "namespace" = Some true.
Proof.
  intros d d1 msg H Ht Hc. unfold _rule_ensure_namespace in H. rewrite Ht, Hc in H.
  cbn [negb orb] in H.
  destruct (mem "metadata" d) eqn:Em.
  - destruct (py_contains (get d "metadata" VNone) "namespace") as [[|]|] eqn:Ep; [| |discriminate].
    + injection H as <- _. exact Ep.
    + destruct (get d "metadata" VNone) as [| | | | |md]; try discriminate.
      injection H as <- _. rewrite ShieldFacts.get_set_same. cbn [py_contains].
      rewrite ShieldFacts.mem_set_same. reflexivity.
  - rewrite ShieldFacts.get_set_same in H. cbn [py_contains mem] in H.
    injection H as <- _. rewrite set_set, ShieldFacts.get_set_same. reflexivity.
Qed.

Lemma inject_one_stable : forall self c c' b, inject_one self c = Some (c', b) ->
  inject_one self c' = Some (c', false) /\ (b = false -> c' = c).
Proof.
  intros self c c' b H. destruct c as [| | | | |m]; try discriminate.
  unfold inject_one in H. destruct (mem "resources" m) eqn:Em; cbn [negb] in H.
  - destruct (py_contains (get m "resources" VNone) "limits") as [[|]|] eqn:Ep; [| |discriminate].
    + injection H as <- <-. split; [|reflexivity].
      unfold inject_one. rewrite Em, Ep. reflexivity.
    + destruct (get m "resources" VNone) as [| | | | |rm]; try discriminate.
      injection H as <- <-. split; [|discriminate].
      unfold inject_one. rewrite ShieldFacts.mem_set_same, ShieldFacts.get_set_same.
      cbn [negb py_contains]. rewrite ShieldFacts.mem_set_same. reflexivity.
  - injection H as <- <-. split; [|discriminate].
    unfold inject_one. rewrite ShieldFacts.mem_set_same, ShieldFacts.get_set_same. reflexivity.
Qed.

Lemma inject_all_stable : forall self cs cs' b, inject_all self cs = Some (cs', b) ->
  inject_all self cs' = Some (cs', false) /\ (b = false -> cs' = cs).
Proof.
  intros self cs. induction cs as [|c r IH]; intros cs' b H.
  - injection H as <- <-. split; reflexivity.
  - cbn [inject_all] in H.
    destruct (inject_one self c) as [[c' b1]|] eqn:E1; [|discriminate].
    destruct (inject_all self r) as [[r' b2]|] eqn:E2; [|discriminate].
    injection H as <- <-.
    destruct (inject_one_stable _ _ _ _ E1) as [S1 F1].
    destruct (IH r' b2 eq_refl) as [S2 F2].
    split.
    + cbn [inject_all]. rewrite S1, S2. reflexivity.
    + intros Hb. apply orb_false_iff in Hb as [Hb1 Hb2]. rewrite F1, F2 by assumption. reflexivity.
Qed.

Lemma inject_rule_stable : forall self d d2 msg, _rule_inject_resource_limits self d = Some (d2, msg) ->
  _rule_inject_resource_limits self d2 = Some (d2, "") /\
  (forall k dflt, k <> "spec" -> get d2 k dflt = get d k dflt) /\
  (forall k, k <> "spec" -> mem k d2 = mem k d).
Proof.
  intros self d d2 msg H. unfold _rule_inject_resource_limits in H.
  destruct (negb (in_list (get d "kind" VNone) workload_kinds)) eqn:Ew.
  { injection H as <- _. split; [|split; reflexivity].
    unfold _rule_inject_resource_limits. rewrite Ew. reflexivity. }
  destruct (get d "spec" (VMap [])) as [| | | | |spec0] eqn:E1;
    try (injection H as <- _; split; [|split; reflexivity];
         unfold _rule_inject_resource_limits; rewrite Ew, E1; reflexivity).
  destruct (get spec0 "template" (VMap [])) as [| | | | |template] eqn:E2;
    try (injection H as <- _; split; [|split; reflexivity];
         unfold _rule_inject_resource_limits; rewrite Ew, E1, E2; reflexivity).
  destruct (get template "spec" (VMap [])) as [| | | | |spec] eqn:E3;
    try (injection H as <- _; split; [|split; reflexivity];
         unfold _rule_inject_resource_limits; rewrite Ew, E1, E2, E3; reflexivity).
  destruct (py_iter (get spec "containers" (VList []))) as [cs|] eqn:E4; [|discriminate].
  destruct (inject_all self cs) as [[cs' modified]|] eqn:E5; [|discriminate].
  destruct (inject_all_stable _ _ _ _ E5) as [S F].
  destruct modified.
  - injection H as <- _. split; [|split].
    + unfold _rule_inject_resource_limits.
      rewrite get_set_other by str_neq. rewrite Ew.
      rewrite !ShieldFacts.get_set_same. cbn [py_iter]. rewrite S. reflexivity.
    + intros k dflt Hk. apply get_set_other. congruence.
    + intros k Hk. apply mem_set_other. congruence.
  - injection H as <- _. split; [|split; reflexivity].
    unfold _rule_inject_resource_limits. rewrite Ew, E1, E2, E3, E4, E5. reflexivity.
Qed.

End ShieldMore.

(** [ShieldEngine.protect] is idempotent: run again on its own result, it
    returns that result unchanged and logs no change. *)
Theorem protect_idempotent : forall self doc doc' changes,
  Shield.protect self doc = Some (doc', changes) ->
  Shield.protect self doc' = Some (doc', []).
Proof.
  intros self doc doc' changes H.
  destruct doc as [| | | | |d]; try (injection H as <- _; reflexivity).
  unfold Shield.protect in H.
  destruct (Shield._rule_ensure_namespace d) as [[d1 m1]|] eqn:E1; [|discriminate].
  destruct (Shield._rule_inject_resource_limits self d1) as [[d2 m2]|] eqn:E2; [|discriminate].
  injection H as <- _.
  destruct (ShieldMore.ensure_stable _ _ _ E1) as [S1 _].
  destruct (ShieldMore.inject_rule_stable _ _ _ _ E2) as [S2 [G2 M2]].
  unfold Shield.protect.
  rewrite (ShieldMore.ensure_congr d1 d2) by
    (try apply G2; try apply M2; try exact S1; ShieldMore.str_neq).
  rewrite S2. reflexivity.
Qed.

Lemma protect_idempotent_witness :
  Shield.protect Shield.default_shield
    (VMap [("kind", VStr "Deployment");
           ("spec", VMap [("template", VMap [("spec", VMap [("containers",
              VList [VMap [("name", VStr "web"); ("resources", VMap [("limits", VStr "x")])];
                     VMap [("name", VStr "db"); ("resources", VMap [("limits", Shield.limits Shield.default_shield)])];
                     VMap [("name", VStr "cache"); ("resources", VMap [("limits", Shield.limits Shield.default_shield)])]])])])]);
           ("metadata", VMap [("namespace", VStr "default")])]) =
  Some (VMap [("kind", VStr "Deployment");
           ("spec", VMap [("template", VMap [("spec", VMap [("containers",
              VList [VMap [("name", VStr "web"); ("resources", VMap [("limits", VStr "x")])];
                     VMap [("name", VStr "db"); ("resources", VMap [("limits", Shield.limits Shield.default_shield)])];
                     VMap [("name", VStr "cache"); ("resources", VMap [("limits", Shield.limits Shield.default_shield)])]])])])]);
           ("metadata", VMap [("namespace", VStr "default")])], []).
Proof.
  apply (protect_idempotent Shield.default_shield
    (VMap [("kind", VStr "Deployment");
           ("spec", VMap [("template", VMap [("spec", VMap [("containers",
              VList [VMap [("name", VStr "web"); ("resources", VMap [("limits", VStr "x")])];
                     VMap [("name", VStr "db")];
                     VMap [("name", VStr "cache"); ("resources", VMap [])]])])])])])
    _ ["Action: Added 'namespace: default' to satisfy organizational policy.";
       "Warning: Injected default resource limits (512Mi)."]).
  vm_compute. reflexivity.
Defined.

(** On a document whose dicts are not shared (a tree, as YAML without
    anchors and aliases loads), [ShieldEngine.protect] changes the dict
    only under [metadata] and [spec]: every other key keeps its presence
    and its value.  Values here are trees, so sharing cannot arise. *)
Theorem protect_frame : forall self d d2 changes k dflt,
  Shield.protect self (VMap d) = Some (VMap d2, changes) ->
  k <> "metadata" -> k <> "spec" ->
  mem k d2 = mem k d /\ get d2 k dflt = get d k dflt.
Proof.
  intros self d d2 changes k dflt H Hm Hs. unfold Shield.protect in H.
  destruct (Shield._rule_ensure_namespace d) as [[d1 m1]|] eqn:E1; [|discriminate].
  destruct (Shield._rule_inject_resource_limits self d1) as [[d2' m2]|] eqn:E2; [|discriminate].
  injection H as <- _.
  destruct (ShieldMore.ensure_stable _ _ _ E1) as [_ [G1 M1]].
  destruct (ShieldMore.inject_rule_stable _ _ _ _ E2) as [_ [G2 M2]].
  split; [rewrite M2, M1 by assumption | rewrite G2, G1 by assumption]; reflexivity.
Qed.

Lemma protect_frame_witness :
  mem "apiVersion" [("kind", VStr "Pod"); ("apiVersion", VStr "v1"); ("metadata", VMap [("namespace", VStr "default")])] =
  mem "apiVersion" [("kind", VStr "Pod"); ("apiVersion", VStr "v1")] /\
  get [("kind", VStr "Pod"); ("apiVersion", VStr "v1"); ("metadata", VMap [("namespace", VStr "default")])] "apiVersion" VNone =
  get [("kind", VStr "Pod"); ("apiVersion", VStr "v1")] "apiVersion" VNone.
Proof.
  apply (protect_frame Shield.default_shield [("kind", VStr "Pod"); ("apiVersion", VStr "v1")]
           [("kind", VStr "Pod"); ("apiVersion", VStr "v1"); ("metadata", VMap [("namespace", VStr "default")])]
           ["Action: Added 'namespace: default' to satisfy organizational policy."]);
    [vm_compute; reflexivity | discriminate | discriminate].
Defined.

(** A dict whose [kind] is truthy and not cluster-scoped comes out of
    [ShieldEngine.protect] with a [namespace] in its [metadata]. *)
Theorem protect_sets_namespace : forall self d d2 changes,
  Shield.protect self (VMap d) = Some (VMap d2, changes) ->
  truthy (get d "kind" (VStr "")) = true ->
  Shield.in_list (get d "kind" (VStr "")) Shield.cluster_scoped = false ->
  Shield.py_contains (get d2 "metadata" VNone) "namespace" = Some true.
Proof.
  intros self d d2 changes H Ht Hc. unfold Shield.protect in H.
  destruct (Shield._rule_ensure_namespace d) as [[d1 m1]|] eqn:E1; [|discriminate].
  destruct (Shield._rule_inject_resource_limits self d1) as [[d2' m2]|] eqn:E2; [|discriminate].
  injection H as <- _.
  destruct (ShieldMore.inject_rule_stable _ _ _ _ E2) as [_ [G2 _]].
  rewrite G2 by ShieldMore.str_neq.
  exact (ShieldMore.ensure_has_namespace _ _ _ E1 Ht Hc).
Qed.

Lemma protect_sets_namespace_witness :
  Shield.py_contains (get [("kind", VStr "Service"); ("metadata", VMap [("namespace", VStr "default")])]
                          "metadata" VNone) "namespace" = Some true.
Proof.
  apply (protect_sets_namespace Shield.default_shield [("kind", VStr "Service")]
           [("kind", VStr "Service"); ("metadata", VMap [("namespace", VStr "default")])]
           ["Action: Added 'namespace: default' to satisfy organizational policy."]);
    vm_compute; reflexivity.
Defined.

(** ** Exporter: the order of the keys *)

Module ExporterFacts.

Import Exporter.

Section Sorting.

Variable f : string -> nat.

Definition lt_by (a b : string) : Prop := f a < f b.

Lemma insert_sorted_perm : forall x l, Permutation (insert_sorted f x l) (x :: l).
Proof.
  intros x l. induction l as [|y r IH]; cbn [insert_sorted]; [reflexivity|].
  destruct (f x <? f y); [reflexivity|].
  rewrite IH. apply perm_swap.
Qed.

Lemma fold_insert_perm : forall l acc,
  Permutation (fold_left (fun acc x => insert_sorted f x acc) l acc) (app l acc).
Proof.
  induction l as [|x l IH]; intros acc; [reflexivity|]. cbn [fold_left app].
  rewrite IH, insert_sorted_perm. symmetry. apply Permutation_middle.
Qed.

Lemma stable_sort_perm : forall l, Permutation (stable_sort f l) l.
Proof. intros l. unfold stable_sort. rewrite fold_insert_perm. rewrite app_nil_r. reflexivity. Qed.

Lemma insert_sorted_sorted : forall x l, StronglySorted lt_by l ->
  (forall y, In y l -> f y <> f x) -> StronglySorted lt_by (insert_sorted f x l).
Proof.
  intros x l. induction l as [|y r IH]; intros Hs Hd; cbn [insert_sorted].
  - repeat constructor.
  - apply StronglySorted_inv in Hs as [Hr Hy].
    destruct (f x <? f y) eqn:E.
    + apply Nat.ltb_lt in E. constructor; [constructor; assumption|].
      constructor; [exact E|]. rewrite Forall_forall in Hy |- *.
      intros z Hz. specialize (Hy z Hz). unfold lt_by in *. lia.
    + apply Nat.ltb_ge in E. assert (f y <> f x) by (apply Hd; left; reflexivity).
      constructor; [apply IH; [exact Hr | intros z Hz; apply Hd; right; exact Hz]|].
      rewrite Forall_forall in Hy |- *. intros z Hz.
      apply (Permutation_in _ (insert_sorted_perm x r)) in Hz. destruct Hz as [<-|Hz].
      * unfold lt_by. lia.
      * apply Hy, Hz.
Qed.

Lemma fold_insert_sorted : forall l acc,
  (forall a b, In a (app l acc) -> In b (app l acc) -> f a = f b -> a = b) ->
  NoDup (app l acc) -> StronglySorted lt_by acc ->
  StronglySorted lt_by (fold_left (fun acc x => insert_sorted f x acc) l acc).
Proof.
  induction l as [|x l IH]; intros acc Hinj Hnd Hs; [exact Hs|]. cbn [fold_left].
  assert (Hp : Permutation (app l (insert_sorted f x acc)) (app (x :: l) acc)).
  { rewrite insert_sorted_perm. symmetry. apply Permutation_middle. }
  apply IH.
  - intros a b Ha Hb. apply Hinj; eapply Permutation_in; eassumption.
  - eapply Permutation_NoDup; [symmetry; exact Hp | exact Hnd].
  - apply insert_sorted_sorted; [exact Hs|]. intros y Hy E.
    assert (y = x) as -> by (apply Hinj; [right; apply in_or_app; right; exact Hy | left; reflexivity | exact E]).
    cbn [app] in Hnd. apply NoDup_cons_iff in Hnd as [Hn _]. apply Hn, in_or_app. right. exact Hy.
Qed.

Lemma sorted_unique : forall l1 l2, StronglySorted lt_by l1 -> StronglySorted lt_by l2 ->
  Permutation l1 l2 -> l1 = l2.
Proof.
  induction l1 as [|a r1 IH]; intros l2 H1 H2 Hp.
  - symmetry. apply Permutation_nil, Hp.
  - destruct l2 as [|b r2]; [apply Permutation_sym, Permutation_nil in Hp; discriminate|].
    apply StronglySorted_inv in H1 as [H1 F1]. apply StronglySorted_inv in H2 as [H2 F2].
    assert (a = b) as <-.
    { destruct (String.string_dec a b) as [|Hne]; [assumption|]. exfalso.
      assert (Ha : In a r2).
      { destruct (Permutation_in a Hp (or_introl eq_refl)) as [E|E]; [congruence | exact E]. }
      assert (Hb : In b r1).
      { destruct (Permutation_in b (Permutation_sym Hp) (or_introl eq_refl)) as [E|E];
          [congruence | exact E]. }
      rewrite Forall_forall in F1, F2. specialize (F1 b Hb). specialize (F2 a Ha).
      unfold lt_by in *. lia. }
    f_equal. apply IH; [exact H1 | exact H2 | exact (Permutation_cons_inv Hp)].
Qed.

End Sorting.

Lemma sorted_filter : forall (R : string -> string -> Prop) g l,
  StronglySorted R l -> StronglySorted R (filter g l).
Proof.
  intros R g l. induction l as [|x r IH]; intros H; [constructor|].
  apply StronglySorted_inv in H as [Hr Hx]. cbn [filter]. destruct (g x); [|apply IH, Hr].
  constructor; [apply IH, Hr|]. rewrite Forall_forall in Hx |- *.
  intros z Hz. apply filter_In in Hz as [Hz _]. apply Hx, Hz.
Qed.

Lemma sorted_impl_in : forall (R R' : string -> string -> Prop) l,
  (forall a b, In a l -> In b l -> R a b -> R' a b) ->
  StronglySorted R l -> StronglySorted R' l.
Proof.
  intros R R' l. induction l as [|x r IH]; intros Himp H; [constructor|].
  apply StronglySorted_inv in H as [Hr Hx]. constructor.
  - apply IH; [intros a b Ha Hb; apply Himp; right; assumption | exact Hr].
  - rewrite Forall_forall in Hx |- *. intros z Hz. apply Himp; [left; reflexivity | right; exact Hz |].
    apply Hx, Hz.
Qed.

Lemma sorted_app : forall (R : string -> string -> Prop) l1 l2,
  StronglySorted R l1 -> StronglySorted R l2 ->
  (forall a b, In a l1 -> In b l2 -> R a b) -> StronglySorted R (app l1 l2).
Proof.
  intros R l1 l2. induction l1 as [|x r IH]; intros H1 H2 Hx; [exact H2|].
  apply StronglySorted_inv in H1 as [Hr Hf]. cbn [app]. constructor.
  - apply IH; [exact Hr | exact H2 | intros a b Ha Hb; apply Hx; [right|]; assumption].
  - rewrite Forall_forall in Hf |- *. intros z Hz. apply in_app_or in Hz as [Hz|Hz].
    + apply Hf, Hz.
    + apply Hx; [left; reflexivity | exact Hz].
Qed.

Lemma index_of_nth : forall k l i, index_of k l = Some i -> nth_error l i = Some k.
Proof.
  intros k l. induction l as [|x r IH]; intros i H; [discriminate|]. cbn [index_of] in H.
  destruct (String.eqb k x) eqn:E.
  - apply String.eqb_eq in E. subst. injection H as <-. reflexivity.
  - destruct (index_of k r) as [j|]; [|discriminate]. injection H as <-. apply IH. reflexivity.
Qed.

Lemma index_of_in : forall k l, In k l -> exists i, index_of k l = Some i.
Proof.
  intros k l. induction l as [|x r IH]; intros H; [destruct H|]. cbn [index_of].
  destruct (String.eqb k x) eqn:E; [eexists; reflexivity|].
  destruct H as [->|H]; [rewrite String.eqb_refl in E; discriminate|].
  destruct (IH H) as [i Hi]. rewrite Hi. eexists. reflexivity.
Qed.

Lemma index_of_none : forall k l, index_of k l = None -> ~ In k l.
Proof. intros k l H Hin. destruct (index_of_in k l Hin) as [i Hi]. congruence. Qed.

Definition pos (l : list string) (k : string) : nat :=
  match index_of k l with Some j => j | None => 0 end.

Lemma index_sorted : forall l, NoDup l -> StronglySorted (fun a b => pos l a < pos l b) l.
Proof.
  induction l as [|x r IH]; intros Hnd; [constructor|].
  apply NoDup_cons_iff in Hnd as [Hx Hr].
  assert (Hs : forall b, In b r -> pos (x :: r) b = S (pos r b)).
  { intros b Hb. unfold pos. cbn [index_of].
    destruct (String.eqb b x) eqn:E; [apply String.eqb_eq in E; subst; contradiction|].
    destruct (index_of_in b r Hb) as [i ->]. reflexivity. }
  constructor.
  - apply (sorted_impl_in (fun a b => pos r a < pos r b)); [|apply IH, Hr].
    intros a b Ha Hb H. rewrite !Hs by assumption. lia.
  - rewrite Forall_forall. intros z Hz. rewrite (Hs z Hz).
    unfold pos at 1. cbn [index_of]. rewrite String.eqb_refl. lia.
Qed.

Definition in_list (l : list string) (k : string) : bool := existsb (String.eqb k) l.

Lemma in_list_spec : forall l k, in_list l k = true <-> In k l.
Proof.
  intros l k. unfold in_list. rewrite existsb_exists. split.
  - intros [x [Hx E]]. apply String.eqb_eq in E. subst. exact Hx.
  - intros H. exists k. split; [exact H | apply String.eqb_refl].
Qed.

Lemma preferred_nodup : NoDup preferred_order.
Proof. repeat constructor; cbn; intuition discriminate. Qed.

(** The order [_get_sorted_map] gives to the keys, stated without sorting:
    first the preferred keys present, in the preferred order, then the
    others in their original order. *)
Definition expected_order (keys : list string) : list string :=
  app (filter (in_list keys) preferred_order)
      (filter (fun k => negb (in_list preferred_order k)) keys).

Lemma sort_logic_preferred : forall keys k i, index_of k preferred_order = Some i ->
  sort_logic keys k = i.
Proof. intros keys k i H. unfold sort_logic. rewrite H. reflexivity. Qed.

Lemma sort_logic_other : forall keys k, ~ In k preferred_order ->
  sort_logic keys k = 6 + pos keys k.
Proof.
  intros keys k H. unfold sort_logic, pos.
  destruct (index_of k preferred_order) eqn:E; [|reflexivity].
  exfalso. apply H. eapply nth_error_In, index_of_nth, E.
Qed.

Lemma preferred_index_lt : forall k i, index_of k preferred_order = Some i -> i < 6.
Proof.
  intros k i H. apply index_of_nth in H.
  change 6 with (length preferred_order). apply nth_error_Some. rewrite H. discriminate.
Qed.

Lemma preferred_sorted : StronglySorted (lt_by (sort_logic [])) preferred_order.
Proof.
  repeat constructor; unfold lt_by, sort_logic; cbn; lia.
Qed.

Lemma sort_logic_inj : forall keys a b, NoDup keys -> In a keys -> In b keys ->
  sort_logic keys a = sort_logic keys b -> a = b.
Proof.
  intros keys a b Hnd Ha Hb E.
  destruct (index_of a preferred_order) as [i|] eqn:Ea;
    destruct (index_of b preferred_order) as [j|] eqn:Eb.
  - rewrite (sort_logic_preferred _ _ _ Ea), (sort_logic_preferred _ _ _ Eb) in E. subst j.
    apply index_of_nth in Ea, Eb. congruence.
  - pose proof (preferred_index_lt _ _ Ea).
    rewrite (sort_logic_preferred _ _ _ Ea), (sort_logic_other _ _ (index_of_none _ _ Eb)) in E. lia.
  - pose proof (preferred_index_lt _ _ Eb).
    rewrite (sort_logic_preferred _ _ _ Eb), (sort_logic_other _ _ (index_of_none _ _ Ea)) in E. lia.
  - rewrite (sort_logic_other _ _ (index_of_none _ _ Ea)), (sort_logic_other _ _ (index_of_none _ _ Eb)) in E.
    unfold pos in E.
    destruct (index_of_in a keys Ha) as [i Hi]. destruct (index_of_in b keys Hb) as [j Hj].
    rewrite Hi, Hj in E. assert (i = j) as <- by lia.
    apply index_of_nth in Hi, Hj. congruence.
Qed.

Lemma expected_order_sorted : forall keys, NoDup keys ->
  StronglySorted (lt_by (sort_logic keys)) (expected_order keys).
Proof.
  intros keys Hnd. unfold expected_order. apply sorted_app.
  - apply sorted_filter.
    apply (sorted_impl_in (lt_by (sort_logic []))); [|exact preferred_sorted].
    intros a b Ha Hb. apply index_of_in in Ha as [i Ha]. apply index_of_in in Hb as [j Hb].
    unfold lt_by. rewrite !(sort_logic_preferred _ _ _ Ha), !(sort_logic_preferred _ _ _ Hb). tauto.
  - apply (sorted_impl_in (fun a b => pos keys a < pos keys b)).
    + intros a b Ha Hb H. apply filter_In in Ha as [_ Ha]. apply filter_In in Hb as [_ Hb].
      apply negb_true_iff in Ha, Hb.
      unfold lt_by. rewrite !sort_logic_other; [lia | |];
        intros C; apply in_list_spec in C; congruence.
    + apply sorted_filter, index_sorted, Hnd.
  - intros a b Ha Hb. apply filter_In in Ha as [Ha _]. apply filter_In in Hb as [_ Hb].
    apply negb_true_iff in Hb. apply index_of_in in Ha as [i Ha].
    pose proof (preferred_index_lt _ _ Ha). unfold lt_by.
    rewrite (sort_logic_preferred _ _ _ Ha), sort_logic_other; [lia|].
    intros C; apply in_list_spec in C; congruence.
Qed.

Lemma expected_order_perm : forall keys, NoDup keys -> Permutation (expected_order keys) keys.
Proof.
  intros keys Hnd. apply NoDup_Permutation.
  - apply NoDup_app; [apply NoDup_filter, preferred_nodup | apply NoDup_filter, Hnd |].
    intros a Ha Hb. apply filter_In in Ha as [Ha _]. apply filter_In in Hb as [_ Hb].
    apply negb_true_iff in Hb. apply in_list_spec in Ha. congruence.
  - exact Hnd.
  - intros x. unfold expected_order. rewrite in_app_iff, !filter_In, in_list_spec. split.
    + intros [[_ H]|[H _]]; exact H.
    + intros H. destruct (in_list preferred_order x) eqn:E.
      * left. split; [apply in_list_spec, E | exact H].
      * right. split; [exact H | reflexivity].
Qed.

Lemma sorted_keys_expected : forall keys, NoDup keys ->
  stable_sort (sort_logic keys) keys = expected_order keys.
Proof.
  intros keys Hnd. apply (sorted_unique (sort_logic keys)).
  - unfold stable_sort. apply fold_insert_sorted; [| rewrite app_nil_r; exact Hnd | constructor].
    rewrite app_nil_r. intros a b Ha Hb. apply sort_logic_inj; assumption.
  - apply expected_order_sorted, Hnd.
  - rewrite stable_sort_perm. symmetry. apply expected_order_perm, Hnd.
Qed.




End ExporterFacts.

(** [_get_sorted_map] on a map with distinct keys puts first the keys of
    [preferred_order] that are present ([apiVersion], [kind], [metadata],
    [spec], [data], [status], in that order), then every other key in
    its original relative order. *)
Theorem sorted_map_key_order : forall m,
  NoDup (map fst m) ->
  exists m', Exporter._get_sorted_map (VMap m) = VMap m' /\
    map fst m' = ExporterFacts.expected_order (map fst m).
Proof.
  intros m Hnd. eexists. split; [reflexivity|].
  rewrite map_map. cbn [fst]. rewrite map_id. apply ExporterFacts.sorted_keys_expected, Hnd.
Qed.


Lemma sorted_map_key_order_witness :
  exists m', Exporter._get_sorted_map
               (VMap [("zeta", VInt 1); ("spec", VNone); ("alpha", VNone); ("apiVersion", VStr "v1")])
             = VMap m' /\
    map fst m' = ExporterFacts.expected_order ["zeta"; "spec"; "alpha"; "apiVersion"].
Proof.
  apply (sorted_map_key_order [("zeta", VInt 1); ("spec", VNone); ("alpha", VNone); ("apiVersion", VStr "v1")]).
  repeat constructor; cbn; intuition discriminate.
Defined.

(* ------------------------------------------------------------------ *)
(** ** Indentation repair and document processing *)

Module Structurer3Facts.

Import Structurer3.

Lemma rev_string_nil : forall s, Py.rev_string s = EmptyString -> s = EmptyString.
Proof.
  intros s H. rewrite <- (StrFacts.rev_string_involutive s), H. reflexivity.
Qed.

Lemma rstrip_app_empty : forall a b,
  Py.rstrip b = EmptyString -> Py.rstrip (a ++ b) = Py.rstrip a.
Proof.
  intros a b H. unfold Py.rstrip in *.
  rewrite StrFacts.rev_string_app.
  rewrite StrFacts.lstrip_app_empty by (apply rev_string_nil, H). reflexivity.
Qed.

Lemma rstrip_spaces : forall k, Py.rstrip (Py.spaces k) = EmptyString.
Proof.
  induction k as [|k IH]; [reflexivity|].
  change (Py.spaces (S k)) with (String " " EmptyString ++ Py.spaces k).
  rewrite rstrip_app_empty by exact IH. reflexivity.
Qed.

(** The line [auto_fix_indentation] writes: the stripped content after
    [k] spaces, or nothing when the line is blank. *)
Lemma rstrip_spaces_lstrip : forall k t,
  Py.rstrip (Py.spaces k ++ Py.lstrip t) =
  if String.eqb (Py.strip t) EmptyString then EmptyString else Py.spaces k ++ Py.strip t.
Proof.
  intros k t. unfold Py.strip.
  destruct (String.eqb (Py.rstrip (Py.lstrip t)) EmptyString) eqn:E.
  - apply String.eqb_eq in E. rewrite rstrip_app_empty by exact E. apply rstrip_spaces.
  - apply String.eqb_neq in E. apply StrFacts.rstrip_app, E.
Qed.

(** The loop of [_find_parent_indent] stops at the closest line that is a
    mapping key, and finishes with 0 when there is none. *)
Lemma find_parent_from_spec : forall lines k, k <= length lines ->
  (find_parent_from lines k = Some 0 /\
   forall i, i < k -> parent_key_indent (nth i lines EmptyString) = None) \/
  exists i p, i < k /\ parent_key_indent (nth i lines EmptyString) = Some p /\
    (forall j, i < j < k -> parent_key_indent (nth j lines EmptyString) = None) /\
    find_parent_from lines k = Some p.
Proof.
  intros lines k. induction k as [|i IH]; intros Hk.
  - left. split; [reflexivity | intros i Hi; lia].
  - cbn [find_parent_from].
    rewrite (nth_error_nth' lines EmptyString) by lia.
    destruct (parent_key_indent (nth i lines EmptyString)) as [p|] eqn:Ep.
    + right. exists i, p. repeat split; auto; intros j Hj; lia.
    + destruct (IH ltac:(lia)) as [[H1 H2] | [i' [p [H1 [H2 [H3 H4]]]]]].
      * left. split; [exact H1|]. intros j Hj.
        destruct (Nat.eq_dec j i) as [->|Hne]; [exact Ep | apply H2; lia].
      * right. exists i', p. split; [lia|]. split; [exact H2|]. split; [|exact H4].
        intros j Hj. destruct (Nat.eq_dec j i) as [->|Hne]; [exact Ep | apply H3; lia].
Qed.

Lemma find_parent_from_some : forall lines k, k <= length lines ->
  exists p, find_parent_from lines k = Some p.
Proof.
  intros lines k Hk. destruct (find_parent_from_spec lines k Hk) as [[H _] | [_ [p [_ [_ [_ H]]]]]];
    eexists; exact H.
Qed.

Lemma py_index_nat : forall len n, n < len -> py_index len (Z.of_nat n) = Some n.
Proof.
  intros len n H. unfold py_index.
  replace (0 <=? Z.of_nat n)%Z with true by (symmetry; apply Z.leb_le; lia).
  replace (Z.of_nat n <? Z.of_nat len)%Z with true by (symmetry; apply Z.ltb_lt; lia).
  rewrite Nat2Z.id. reflexivity.
Qed.

Section Loop.

Variable validate_and_roundtrip : string -> bool * string.

(** Every text the repair loop hands back was either accepted by the
    validator (and the status names the attempt), or rejected by it. *)
Lemma fix_loop_spec : forall fuel attempt current_yaml result out status,
  fst (validate_and_roundtrip current_yaml) = false ->
  fix_loop validate_and_roundtrip attempt fuel current_yaml result = Some (out, status) ->
  (exists y k, validate_and_roundtrip y = (true, out) /\ attempt < k <= attempt + fuel /\
               status = "STRUCTURE_FIXED_" ++ Structurer2.fmt_nat k) \/
  ((status = "STRUCTURE_PROTECTED_SKIP" \/ status = "STRUCTURE_FAIL") /\
   fst (validate_and_roundtrip out) = false).
Proof.
  induction fuel as [|f IH]; intros attempt current_yaml result out status Hv H;
    cbn [fix_loop] in H.
  - injection H as <- <-. right. auto.
  - destruct (auto_fix_indentation current_yaml result) as [fixed_yaml|]; [|discriminate].
    match type of H with
    | match ?s with _ => _ end = _ => destruct s as [[|]|]; [| |discriminate]
    end.
    + injection H as <- <-. right. auto.
    + destruct (validate_and_roundtrip fixed_yaml) as [[|] result2] eqn:Ev.
      * injection H as <- <-. left. exists fixed_yaml, (attempt + 1). repeat split; auto; lia.
      * destruct (IH (S attempt) fixed_yaml result2 out status) as
          [[y [k [E1 [E2 E3]]]] | E]; [rewrite Ev; reflexivity | exact H | left | right; exact E].
        exists y, k. repeat split; auto; lia.
Qed.

End Loop.

End Structurer3Facts.

(* ------------------------------------------------------------------ *)
Module EngineSummaryFacts.

Import Engine EngineSummary.

Lemma process_status : forall catalog pipeline_run export raw dry_run strict p,
  process catalog pipeline_run export raw dry_run strict = Some p ->
  p_status p = if negb (p_modified p) then "UNCHANGED"
               else if dry_run then "PREVIEW"
               else if p_success p then "HEALED"
               else if p_partial p then "PARTIAL" else "FAILED".
Proof.
  intros catalog pipeline_run export raw dry_run strict p H. unfold process in H.
  destruct (pipeline_run raw) as [ctx|]; [|discriminate].
  destruct (shield_and_validate catalog strict (reconstructed_docs ctx) [] [] true "")
    as [[[[pd logs] passed] verr]|]; [|discriminate].
  destruct (export pd ctx) as [final|]; [|discriminate].
  injection H as <-. reflexivity.
Qed.

(** A report that says the file was written counts as successful or as a
    partial heal. *)
Lemma written_success_or_partial : forall catalog pipeline_run export git relative_path env
    dry_run force_write strict,
  let r := fst (audit_and_heal_file catalog pipeline_run export git relative_path env
                  dry_run force_write strict) in
  get_written r = true -> get_success r = true \/ get_partial r = true.
Proof.
  intros catalog pipeline_run export git relative_path env dry_run force_write strict r.
  subst r. unfold audit_and_heal_file.
  destruct (file env) as [| |raw]; cbn; try discriminate.
  destruct (process catalog pipeline_run export raw dry_run strict) as [p|]; cbn; [|discriminate].
  destruct dry_run, (p_modified p), (p_success p), (p_partial p), force_write, (write_ok env);
    cbn; intros H; try discriminate; auto.
Qed.

Lemma count_le_or : forall (p q r : Report -> bool) l,
  (forall x, In x l -> p x = true -> q x = true \/ r x = true) ->
  count p l <= count q l + count r l.
Proof.
  intros p q r l H. unfold count. induction l as [|x l IH]; [cbn; lia|].
  cbn [filter].
  specialize (IH (fun y Hy => H y (or_intror Hy))). specialize (H x (or_introl eq_refl)).
  destruct (p x), (q x), (r x); cbn [length]; try lia.
  all: destruct (H eq_refl); discriminate.
Qed.

Lemma count_le_length : forall (p : Report -> bool) l, count p l <= length l.
Proof. intros p l. unfold count. apply filter_length_le. Qed.

End EngineSummaryFacts.

(** X21: [_find_parent_indent], on a line index within the document,
    returns the indentation of the closest line above it that is a mapping
    key (after dropping a trailing [ #] comment and trailing spaces: not
    blank, not a comment, not a protected structure, ending in [:], not a
    list item), and 0 when there is no such line. *)
Theorem find_parent_indent_closest : forall lines n, n <= length lines ->
  (Structurer3._find_parent_indent lines (Z.of_nat n) = Some 0 /\
   forall i, i < n -> Structurer3.parent_key_indent (nth i lines EmptyString) = None) \/
  exists i p, i < n /\ Structurer3.parent_key_indent (nth i lines EmptyString) = Some p /\
    (forall j, i < j < n -> Structurer3.parent_key_indent (nth j lines EmptyString) = None) /\
    Structurer3._find_parent_indent lines (Z.of_nat n) = Some p.
Proof.
  intros lines n Hn. unfold Structurer3._find_parent_indent. rewrite Nat2Z.id.
  apply Structurer3Facts.find_parent_from_spec, Hn.
Qed.

Lemma find_parent_indent_closest_witness :
  2 <= length ["spec:"; "  replicas: 2 # note"] /\
  ((Structurer3._find_parent_indent ["spec:"; "  replicas: 2 # note"] (Z.of_nat 2) = Some 0 /\
    forall i, i < 2 ->
      Structurer3.parent_key_indent (nth i ["spec:"; "  replicas: 2 # note"] EmptyString) = None) \/
   exists i p, i < 2 /\
     Structurer3.parent_key_indent (nth i ["spec:"; "  replicas: 2 # note"] EmptyString) = Some p /\
     (forall j, i < j < 2 ->
        Structurer3.parent_key_indent (nth j ["spec:"; "  replicas: 2 # note"] EmptyString) = None) /\
     Structurer3._find_parent_indent ["spec:"; "  replicas: 2 # note"] (Z.of_nat 2) = Some p).
Proof.
  split; [cbn; lia|]. apply (find_parent_indent_closest ["spec:"; "  replicas: 2 # note"] 2).
  cbn; lia.
Defined.

(** X22: when the error message names a line inside the document,
    [auto_fix_indentation] either returns the text unchanged or rewrites
    only that line: every other line is kept, and the line becomes its
    content (tabs expanded, surrounding whitespace stripped) indented two
    spaces deeper than the parent key found by [_find_parent_indent], or
    an empty line when it was blank.  The lines are joined with [\n]. *)
Theorem auto_fix_reindents_reported_line : forall yaml_str error_info n,
  Structurer2._extract_line error_info = Z.of_nat n ->
  n < length (Py.splitlines yaml_str) ->
  Structurer3.auto_fix_indentation yaml_str error_info = Some yaml_str \/
  exists p fixed_line,
    Structurer3._find_parent_indent (Py.splitlines yaml_str) (Z.of_nat n) = Some p /\
    Structurer3.auto_fix_indentation yaml_str error_info =
      Some (Py.join Py.nl (app (firstn n (Py.splitlines yaml_str))
                               (fixed_line :: skipn (S n) (Py.splitlines yaml_str)))) /\
    fixed_line =
      (let content := Py.strip (Py.expand_tabs (nth n (Py.splitlines yaml_str) EmptyString)) in
       if String.eqb content EmptyString then EmptyString else Py.spaces (p + 2) ++ content).
Proof.
  intros yaml_str error_info n He Hn. unfold Structurer3.auto_fix_indentation.
  rewrite He.
  replace (Z.of_nat n =? -1)%Z with false by (symmetry; apply Z.eqb_neq; lia).
  replace (Z.of_nat (length (Py.splitlines yaml_str)) <=? Z.of_nat n)%Z with false
    by (symmetry; apply Z.leb_gt; lia).
  rewrite Structurer3Facts.py_index_nat by exact Hn.
  destruct (Structurer._is_protected_structure (Py.expand_tabs (nth n (Py.splitlines yaml_str) EmptyString)));
    [left; reflexivity|].
  destruct (Structurer3Facts.find_parent_from_some (Py.splitlines yaml_str) n ltac:(lia)) as [p Hp].
  unfold Structurer3._find_parent_indent. rewrite Nat2Z.id, Hp.
  match goal with
  | |- context [if ?c then _ else Some yaml_str] => destruct c
  end; [right | left; reflexivity].
  exists p, (Py.rstrip (Py.spaces (p + 2) ++ Py.lstrip (Py.expand_tabs (nth n (Py.splitlines yaml_str) EmptyString)))).
  split; [reflexivity|]. split; [reflexivity|].
  apply Structurer3Facts.rstrip_spaces_lstrip.
Qed.

Lemma auto_fix_reindents_reported_line_witness :
  Structurer2._extract_line "STRUCTURE_ERROR:L2:C4:x" = Z.of_nat 1 /\
  1 < length (Py.splitlines ("spec:" ++ Py.nl ++ "   replicas: 2")) /\
  (Structurer3.auto_fix_indentation ("spec:" ++ Py.nl ++ "   replicas: 2") "STRUCTURE_ERROR:L2:C4:x"
     = Some ("spec:" ++ Py.nl ++ "   replicas: 2") \/
   exists p fixed_line,
    Structurer3._find_parent_indent (Py.splitlines ("spec:" ++ Py.nl ++ "   replicas: 2")) (Z.of_nat 1)
      = Some p /\
    Structurer3.auto_fix_indentation ("spec:" ++ Py.nl ++ "   replicas: 2") "STRUCTURE_ERROR:L2:C4:x" =
      Some (Py.join Py.nl (app (firstn 1 (Py.splitlines ("spec:" ++ Py.nl ++ "   replicas: 2")))
                  (fixed_line :: skipn 2 (Py.splitlines ("spec:" ++ Py.nl ++ "   replicas: 2"))))) /\
    fixed_line =
      (let content := Py.strip (Py.expand_tabs
                        (nth 1 (Py.splitlines ("spec:" ++ Py.nl ++ "   replicas: 2")) EmptyString)) in
       if String.eqb content EmptyString then EmptyString else Py.spaces (p + 2) ++ content)).
Proof.
  assert (H1 : Structurer2._extract_line "STRUCTURE_ERROR:L2:C4:x" = Z.of_nat 1) by (vm_compute; reflexivity).
  assert (H2 : 1 < length (Py.splitlines ("spec:" ++ Py.nl ++ "   replicas: 2")))
    by (vm_compute; lia).
  split; [exact H1|]. split; [exact H2|].
  apply (auto_fix_reindents_reported_line ("spec:" ++ Py.nl ++ "   replicas: 2")
           "STRUCTURE_ERROR:L2:C4:x" 1 H1 H2).
Defined.

(** X23: [_process_single_doc] with any round-trip validator: when it
    returns, either the status is [STRUCTURE_OK] or [STRUCTURE_FIXED_k]
    for k at most 3 and the text is one the validator produced on
    acceptance, or the status is [STRUCTURE_PROTECTED_SKIP] or
    [STRUCTURE_FAIL] and the text is one the validator rejects. *)
Theorem process_single_doc_outcome : forall validate_and_roundtrip yaml_str out status,
  Structurer3._process_single_doc validate_and_roundtrip yaml_str = Some (out, status) ->
  (exists y, validate_and_roundtrip y = (true, out) /\
     (status = "STRUCTURE_OK" \/ status = "STRUCTURE_FIXED_1" \/
      status = "STRUCTURE_FIXED_2" \/ status = "STRUCTURE_FIXED_3")) \/
  ((status = "STRUCTURE_PROTECTED_SKIP" \/ status = "STRUCTURE_FAIL") /\
   fst (validate_and_roundtrip out) = false).
Proof.
  intros v yaml_str out status H. unfold Structurer3._process_single_doc in H.
  destruct (v (Structurer._apply_magnetic_snap yaml_str)) as [[|] result] eqn:Ev.
  - injection H as <- <-. left. exists (Structurer._apply_magnetic_snap yaml_str). auto.
  - destruct (Structurer3Facts.fix_loop_spec v 3 0 _ result out status ltac:(rewrite Ev; reflexivity) H)
      as [[y [k [E1 [E2 E3]]]] | E]; [left | right; exact E].
    exists y. split; [exact E1|]. right.
    destruct k as [|[|[|[|k]]]]; try lia; rewrite E3; auto.
Qed.

(** A validator that accepts only a document with no indented line. *)
Definition flat_validator (s : string) : bool * string :=
  (forallb (fun l => String.eqb (Py.lstrip l) l) (Py.splitlines s), s).

Lemma process_single_doc_outcome_witness :
  Structurer3._process_single_doc flat_validator ("a: 1" ++ Py.nl ++ "b: 2")
    = Some ("a: 1" ++ Py.nl ++ "b: 2", "STRUCTURE_OK") /\
  ((exists y, flat_validator y = (true, "a: 1" ++ Py.nl ++ "b: 2") /\
     ("STRUCTURE_OK" = "STRUCTURE_OK" \/ "STRUCTURE_OK" = "STRUCTURE_FIXED_1" \/
      "STRUCTURE_OK" = "STRUCTURE_FIXED_2" \/ "STRUCTURE_OK" = "STRUCTURE_FIXED_3")) \/
   (("STRUCTURE_OK" = "STRUCTURE_PROTECTED_SKIP" \/ "STRUCTURE_OK" = "STRUCTURE_FAIL") /\
    fst (flat_validator ("a: 1" ++ Py.nl ++ "b: 2")) = false)).
Proof.
  assert (H : Structurer3._process_single_doc flat_validator ("a: 1" ++ Py.nl ++ "b: 2")
                = Some ("a: 1" ++ Py.nl ++ "b: 2", "STRUCTURE_OK")) by (vm_compute; reflexivity).
  split; [exact H|].
  apply (process_single_doc_outcome flat_validator _ _ _ H).
Defined.

(** X24: a full report of [audit_and_heal_file] has no healed content
    exactly when its status is [UNCHANGED]; under a dry run its status is
    [UNCHANGED] or [PREVIEW]; when it says the file was written its status
    is [HEALED] or [PARTIAL].  Every other report is a [_file_error] with
    status [FILE_NOT_FOUND] or [HEAL_FAILED]. *)
Theorem report_status_consistent : forall catalog pipeline_run export git_recommendations
    relative_path env dry_run force_write strict,
  match fst (Engine.audit_and_heal_file catalog pipeline_run export git_recommendations
               relative_path env dry_run force_write strict) with
  | Engine.Full r =>
      (Engine.healed_content r = None <-> Engine.status r = "UNCHANGED") /\
      (dry_run = true -> Engine.status r = "UNCHANGED" \/ Engine.status r = "PREVIEW") /\
      (Engine.written r = true -> Engine.status r = "HEALED" \/ Engine.status r = "PARTIAL")
  | Engine.FileError _ st => st = "FILE_NOT_FOUND" \/ st = "HEAL_FAILED"
  end.
Proof.
  intros catalog pipeline_run export git relative_path env dry_run force_write strict.
  unfold Engine.audit_and_heal_file.
  destruct (Engine.file env) as [| |raw]; cbn [fst]; auto.
  destruct (Engine.process catalog pipeline_run export raw dry_run strict) as [p|] eqn:Ep;
    cbn [fst]; auto.
  cbn [Engine.healed_content Engine.status Engine.written].
  rewrite (EngineSummaryFacts.process_status _ _ _ _ _ _ _ Ep).
  destruct dry_run, (Engine.p_modified p), (Engine.p_success p), (Engine.p_partial p),
    force_write, (Engine.write_ok env); cbn;
    repeat split; intros; try discriminate; auto.
Qed.

(** X25: the summary [generate_summary] makes of the reports of a batch of
    [audit_and_heal_file] runs has one report per run, and every report
    counted as written to disk is also counted as successful or as a
    partial heal; no batch gives the empty summary except the empty one. *)
Theorem summary_written_counted : forall catalog pipeline_run export git_recommendations
    (runs : list (string * Engine.Env * bool * bool * bool)),
  let reports := map (fun '(relative_path, env, dry_run, force_write, strict) =>
                   fst (Engine.audit_and_heal_file catalog pipeline_run export git_recommendations
                          relative_path env dry_run force_write strict)) runs in
  match EngineSummary.generate_summary reports with
  | EngineSummary.EmptySummary => runs = []
  | EngineSummary.MkSummary total successful partial backups writes =>
      total = length runs /\ successful <= total /\ partial <= total /\
      writes <= successful + partial
  end.
Proof.
  intros catalog pipeline_run export git runs reports.
  unfold EngineSummary.generate_summary.
  destruct reports as [|r0 rs] eqn:Er.
  - subst reports. destruct runs; [reflexivity | discriminate].
  - rewrite <- Er. subst reports.
    match goal with |- context [map ?g runs] => set (L := map g runs) end.
    assert (HL : length L = length runs) by apply length_map.
    split; [exact HL|].
    split; [apply EngineSummaryFacts.count_le_length|].
    split; [apply EngineSummaryFacts.count_le_length|].
    apply EngineSummaryFacts.count_le_or.
    intros x Hx Hw. apply in_map_iff in Hx.
    destruct Hx as [[[[[path env] d] f] s] [<- _]].
    apply EngineSummaryFacts.written_success_or_partial, Hw.
Qed.
